(** * nexus-synth: performance-regression detection scripts

    A shallow embedding of the CI scripts under [.github/scripts]:

    - [performance_regression_detector.py]: the SQLite-backed metrics store
      ([PerformanceDatabase]), the analyzer ([RegressionDetector]), the loader
      and [main];
    - [regression_detector.py]: the split-sample detector, with its loader,
      its grouping and [main];
    - [update_performance_baseline.py]: retention and validation
      ([BaselineManager]).

    Modelling conventions.

    - In [performance_regression_detector.py] Python floats are modelled
      by exact rationals ([Q]); rounding of IEEE arithmetic is not modelled
      there.  In [regression_detector.py] they are binary64 floats
      ([Py.float]): conversions, arithmetic, [statistics.mean] and [round]
      round as CPython does.
    - Timestamps are the ISO-8601 texts the program stores; SQLite compares
      TEXT columns bytewise, which is [String.ltb] here.
    - The wall clock is an explicit argument ([now], [utc_now]) of every
      function that reads it.
    - A Python exception is a value of [Py.exn]; functions that can raise
      return [Py.result]. *)

From Stdlib Require Import ZArith QArith Qabs Qround List String Ascii Bool.
From Stdlib Require Import Lia Lqa Permutation Sorted SpecFloat.
From Stdlib Require OrderedTypeEx.
Import ListNotations.

Set Implicit Arguments.

(* ===================================================================== *)
(** * Python runtime fragments used by the scripts *)
(* ===================================================================== *)

Module Py.

Inductive exn : Type :=
| ZeroDivisionError
| ValueError
| TypeError
| AttributeError
| OverflowError
| StatisticsError.

Inductive result (A : Type) : Type :=
| Ok (a : A)
| Raise (e : exn).

Arguments Ok {A} a.
Arguments Raise {A} e.

Definition bind {A B : Type} (r : result A) (k : A -> result B) : result B :=
  match r with
  | Ok a => k a
  | Raise e => Raise e
  end.

(** ** Numbers *)

Definition Qltb (x y : Q) : bool := negb (Qle_bool y x).

Definition Qeqb (x y : Q) : bool := Qeq_bool x y.

Fixpoint fsum (xs : list Q) : Q :=
  match xs with
  | [] => 0
  | x :: xs' => x + fsum xs'
  end.

Definition Q_of_nat (n : nat) : Q := inject_Z (Z.of_nat n).

(** [statistics.mean]: the exact mean; [StatisticsError] on no data. *)
Definition mean (data : list Q) : result Q :=
  match data with
  | [] => Raise StatisticsError
  | _ => Ok (Qred (fsum data / Q_of_nat (List.length data)))
  end.

(** [statistics.variance]: the sample variance, [StatisticsError] below two
    data points.  [statistics.stdev] is its square root; the scripts only
    test the sign of the standard deviation, which is the sign of the
    variance. *)
Definition variance (data : list Q) : result Q :=
  match data with
  | [] | [_] => Raise StatisticsError
  | _ =>
      let m := fsum data / Q_of_nat (List.length data) in
      Ok (Qred (fsum (map (fun x => (x - m) * (x - m)) data)
                / Q_of_nat (List.length data - 1)))
  end.

(** Float division: [ZeroDivisionError] on a zero divisor. *)
Definition fdiv (x y : Q) : result Q :=
  if Qeqb y 0 then Raise ZeroDivisionError else Ok (x / y).

(** [round(x, ndigits)] on an exact rational: to the nearest multiple of
    [10 ^ -ndigits], ties to even. *)
Definition round_half_even (x : Q) : Z :=
  let f := Qfloor x in
  let r := x - inject_Z f in
  match Qcompare r (1 # 2) with
  | Lt => f
  | Gt => (f + 1)%Z
  | Eq => if Z.even f then f else (f + 1)%Z
  end.

Definition round (x : Q) (ndigits : nat) : Q :=
  let scale := inject_Z (10 ^ Z.of_nat ndigits) in
  Qred (inject_Z (round_half_even (x * scale)) / scale).

(** ** [float]: IEEE 754 binary64 *)

(** A Python float, by the standard library's specification of IEEE 754
    arithmetic at [prec = 53] and [emax = 1024]. *)
Definition float : Type := spec_float.

Definition fadd (x y : float) : float := SFadd 53 1024 x y.

Definition fsub (x y : float) : float := SFsub 53 1024 x y.

Definition fmul (x y : float) : float := SFmul 53 1024 x y.

Definition fabs (x : float) : float := SFabs x.

Definition is_zero (x : float) : bool :=
  match x with
  | S754_zero _ => true
  | _ => false
  end.

Definition is_finite (x : float) : bool :=
  match x with
  | S754_zero _ | S754_finite _ _ _ => true
  | _ => false
  end.

(** [x / y] on floats: [ZeroDivisionError] on a zero divisor. *)
Definition truediv (x y : float) : result float :=
  if is_zero y then Raise ZeroDivisionError else Ok (SFdiv 53 1024 x y).

(** The double nearest to a rational, ties to even, and an infinity beyond
    the range: what [n / d] gives for two ints, and so [float] of an int, of
    a [Fraction] and of a decimal text. *)
Definition float_of_Q (q : Q) : float :=
  match Qnum q with
  | Z0 => S754_zero false
  | Zpos n =>
      SFdiv 53 1024 (S754_finite false n 0) (S754_finite false (Qden q) 0)
  | Zneg n =>
      SFdiv 53 1024 (S754_finite true n 0) (S754_finite false (Qden q) 0)
  end.

(** The exact value of a finite float. *)
Definition Q_of_float (x : float) : Q :=
  match x with
  | S754_finite s m e =>
      let v := match e with
               | Zneg k => Zpos m # Pos.pow 2 k
               | _ => inject_Z (Zpos m * 2 ^ e)
               end in
      if s then - v else v
  | _ => 0
  end.

(** [x > q] for a float [x] and an int or a float of exact value [q]:
    Python compares the two exactly. *)
Definition fgt (x : float) (q : Q) : bool :=
  match x with
  | S754_nan => false
  | S754_infinity s => negb s
  | _ => Qltb q (Q_of_float x)
  end.

(** [round(x, ndigits)] of a float, [ndigits >= 0]: the exact value of [x]
    rounded to [ndigits] decimals, ties to even, and the double nearest to
    that decimal; an infinity or a nan as it is. *)
Definition fround (x : float) (ndigits : nat) : float :=
  match x with
  | S754_finite s m e =>
      let scale := inject_Z (10 ^ Z.of_nat ndigits) in
      let r := round_half_even (Qabs (Q_of_float x) * scale) in
      if (r =? 0)%Z then S754_zero s
      else float_of_Q ((if s then - inject_Z r else inject_Z r) / scale)
  | _ => x
  end.

(** [statistics.mean] of floats: the exact mean of the values, converted to
    the nearest double; with an infinity or a nan among the data, the float
    sum of those, divided by the number of data.  [StatisticsError] on no
    data. *)
Definition fmean (data : list float) : result float :=
  match data with
  | [] => Raise StatisticsError
  | _ =>
      match filter (fun x => negb (is_finite x)) data with
      | [] =>
          Ok (float_of_Q (Qred (fsum (map Q_of_float data)
                                / Q_of_nat (List.length data))))
      | x :: rest =>
          Ok (SFdiv 53 1024 (fold_left fadd rest x)
                (float_of_Q (Q_of_nat (List.length data))))
      end
  end.

(** ** Strings *)

Local Open Scope string_scope.

(** [needle in haystack] for [str]. *)
Fixpoint contains (needle haystack : string) : bool :=
  if String.prefix needle haystack then true
  else match haystack with
       | EmptyString => false
       | String _ rest => contains needle rest
       end.

Definition lower_ascii (c : ascii) : ascii :=
  let n := nat_of_ascii c in
  if andb (65 <=? n)%nat (n <=? 90)%nat then ascii_of_nat (n + 32) else c.

(** [str.lower] on ASCII text. *)
Fixpoint lower (s : string) : string :=
  match s with
  | EmptyString => EmptyString
  | String c rest => String (lower_ascii c) (lower rest)
  end.

(** [sep.join(parts)]. *)
Fixpoint join (sep : string) (parts : list string) : string :=
  match parts with
  | [] => ""
  | [p] => p
  | p :: rest => p ++ sep ++ join sep rest
  end.

Definition is_digit (c : ascii) : bool :=
  let n := nat_of_ascii c in andb (48 <=? n)%nat (n <=? 57)%nat.

Definition digit_char (d : Z) : ascii := ascii_of_nat (48 + Z.to_nat d).

(** The [width] low-order decimal digits of [z], zero padded: the format
    [%0<width>d] for a value that fits. *)
Fixpoint zero_padded (width : nat) (z : Z) : string :=
  match width with
  | O => ""
  | S w => zero_padded w (z / 10) ++ String (digit_char (z mod 10)) ""
  end.

Definition digit_value (c : ascii) : Z := Z.of_nat (nat_of_ascii c - 48).

Fixpoint decimal_digits (s : string) (acc : Z) : option Z :=
  match s with
  | EmptyString => Some acc
  | String c rest =>
      if is_digit c then decimal_digits rest (acc * 10 + digit_value c)%Z
      else None
  end.

(** [int(text)] for decimal digits with an optional sign; any other text
    raises [ValueError].  (Python also accepts surrounding blanks and
    underscores between digits; such texts are outside this model.) *)
Definition int_of_str (s : string) : result Z :=
  let unsigned (t : string) (sign : Z) :=
    match t with
    | EmptyString => Raise ValueError
    | _ => match decimal_digits t 0 with
           | Some n => Ok (sign * n)%Z
           | None => Raise ValueError
           end
    end in
  match s with
  | String "-" rest => unsigned rest (-1)%Z
  | String "+" rest => unsigned rest 1%Z
  | _ => unsigned s 1%Z
  end.

(** ** [datetime]: naive date-times of the proleptic Gregorian calendar *)

Record datetime : Type := mk_datetime {
  year : Z; month : Z; day : Z;
  hour : Z; minute : Z; second : Z; microsecond : Z
}.

Definition MAXORDINAL : Z := 3652059.

Definition is_leap (y : Z) : bool :=
  andb (y mod 4 =? 0)%Z (orb (negb (y mod 100 =? 0)%Z) (y mod 400 =? 0)%Z).

Definition days_before_year (y : Z) : Z :=
  let y1 := (y - 1)%Z in
  (y1 * 365 + y1 / 4 - y1 / 100 + y1 / 400)%Z.

Definition days_in_month (y m : Z) : Z :=
  if (m =? 2)%Z then (if is_leap y then 29 else 28)%Z
  else if orb (orb (m =? 4)%Z (m =? 6)%Z) (orb (m =? 9)%Z (m =? 11)%Z)
       then 30%Z else 31%Z.

Definition days_before_month (y m : Z) : Z :=
  fold_left (fun acc k => (acc + days_in_month y k)%Z)
            (map Z.of_nat (seq 1 (Z.to_nat (m - 1)))) 0%Z.

(** [datetime.toordinal]: day 1 is 0001-01-01. *)
Definition ymd2ord (y m d : Z) : Z :=
  (days_before_year y + days_before_month y m + d)%Z.

Definition DI400Y : Z := 146097.
Definition DI100Y : Z := 36524.
Definition DI4Y : Z := 1461.

(** The month of a year [y] that holds the zero-based day-of-year [n]. *)
Fixpoint month_of_yday (fuel : nat) (y m n : Z) : Z * Z :=
  match fuel with
  | O => (m, (n + 1)%Z)
  | S fuel' =>
      let dim := days_in_month y m in
      if (n <? dim)%Z then (m, (n + 1)%Z)
      else month_of_yday fuel' y (m + 1)%Z (n - dim)%Z
  end.

(** [date.fromordinal]. *)
Definition ord2ymd (ordinal : Z) : Z * Z * Z :=
  let n := (ordinal - 1)%Z in
  let n400 := (n / DI400Y)%Z in
  let n := (n mod DI400Y)%Z in
  let y := (n400 * 400 + 1)%Z in
  let n100 := (n / DI100Y)%Z in
  let n := (n mod DI100Y)%Z in
  let n4 := (n / DI4Y)%Z in
  let n := (n mod DI4Y)%Z in
  let n1 := (n / 365)%Z in
  let n := (n mod 365)%Z in
  let y := (y + n100 * 100 + n4 * 4 + n1)%Z in
  if orb (n1 =? 4)%Z (n100 =? 4)%Z then ((y - 1)%Z, 12%Z, 31%Z)
  else let '(m, d) := month_of_yday 11 y 1%Z n in (y, m, d).

Definition toordinal (dt : datetime) : Z := ymd2ord (year dt) (month dt) (day dt).

(** [dt - timedelta(days=days)]: [OverflowError] when [days] is not a valid
    [timedelta] or the date leaves [0001-01-01 .. 9999-12-31]. *)
Definition sub_days (dt : datetime) (days : Z) : result datetime :=
  if (999999999 <? Z.abs days)%Z then Raise OverflowError
  else
    let o := (toordinal dt - days)%Z in
    if andb (0 <? o)%Z (o <=? MAXORDINAL)%Z then
      let '(y, m, d) := ord2ymd o in
      Ok (mk_datetime y m d (hour dt) (minute dt) (second dt) (microsecond dt))
    else Raise OverflowError.

(** [datetime.isoformat()]: [YYYY-MM-DDTHH:MM:SS], followed by [.ffffff]
    when the microsecond is not zero. *)
Definition isoformat (dt : datetime) : string :=
  zero_padded 4 (year dt) ++ "-" ++ zero_padded 2 (month dt) ++ "-"
  ++ zero_padded 2 (day dt) ++ "T" ++ zero_padded 2 (hour dt) ++ ":"
  ++ zero_padded 2 (minute dt) ++ ":" ++ zero_padded 2 (second dt)
  ++ (if (microsecond dt =? 0)%Z then ""
      else "." ++ zero_padded 6 (microsecond dt)).

(** SQLite's [CURRENT_TIMESTAMP]: [YYYY-MM-DD HH:MM:SS] (UTC). *)
Definition sqlite_timestamp (dt : datetime) : string :=
  zero_padded 4 (year dt) ++ "-" ++ zero_padded 2 (month dt) ++ "-"
  ++ zero_padded 2 (day dt) ++ " " ++ zero_padded 2 (hour dt) ++ ":"
  ++ zero_padded 2 (minute dt) ++ ":" ++ zero_padded 2 (second dt).

End Py.

Notation "x <- c1 ;; c2" := (Py.bind c1 (fun x => c2))
  (at level 61, c1 at next level, right associativity).

Module PyJson.

(** Values produced by [json.load]. *)
#[warnings="-register-all"]
Inductive json : Type :=
| JNull
| JBool (b : bool)
| JNumber (q : Q)
| JString (s : string)
| JArray (items : list json)
| JObject (members : list (string * json)).

(** Python truthiness of a decoded JSON value. *)
Definition truthy (v : json) : bool :=
  match v with
  | JNull => false
  | JBool b => b
  | JNumber q => negb (Py.Qeqb q 0)
  | JString s => negb (String.eqb s "")
  | JArray items => match items with [] => false | _ => true end
  | JObject members => match members with [] => false | _ => true end
  end.

(** [d.get(key)] on a decoded object. *)
Fixpoint get (members : list (string * json)) (key : string) : option json :=
  match members with
  | [] => None
  | (k, v) :: rest => if String.eqb k key then Some v else get rest key
  end.

End PyJson.

(* ===================================================================== *)
(** * performance_regression_detector.py *)
(* ===================================================================== *)

Module performance_regression_detector.

Import Py PyJson.
Local Open Scope string_scope.
Local Open Scope Q_scope.

(** ** Data model *)

Inductive RegressionSeverity : Type :=
| NONE | MINOR | MODERATE | MAJOR | CRITICAL.

(** [severity.value]. *)
Definition value (s : RegressionSeverity) : string :=
  match s with
  | NONE => "none"
  | MINOR => "minor"
  | MODERATE => "moderate"
  | MAJOR => "major"
  | CRITICAL => "critical"
  end.

Definition severity_eqb (a b : RegressionSeverity) : bool :=
  match a, b with
  | NONE, NONE | MINOR, MINOR | MODERATE, MODERATE
  | MAJOR, MAJOR | CRITICAL, CRITICAL => true
  | _, _ => false
  end.

Module PerformanceMetric.
Record t : Type := mk {
  benchmark_name : string;
  platform : string;
  execution_time_ns : Q;
  memory_usage : Q;
  quality_score : Q;
  timestamp : string;
  commit_hash : string;
  branch : string;
  pr_number : option Z;
  environment_info : option json
}.
End PerformanceMetric.

(** The value of [statistical_significance]: the literal [1.0], or the
    p-value returned by [scipy.stats.ttest_1samp(a, popmean)], which is kept
    symbolic. *)
Inductive p_value : Type :=
| P_one
| P_ttest_1samp (a : list Q) (popmean : Q).

Module RegressionAlert.
Record t : Type := mk {
  benchmark_name : string;
  platform : string;
  severity : RegressionSeverity;
  current_value : Q;
  baseline_value : Q;
  change_percent : Q;
  timestamp : string;
  commit_hash : string;
  statistical_significance : p_value;
  recommendation : string
}.
End RegressionAlert.

(** ** PerformanceDatabase *)

(** A row of [performance_metrics]: the AUTOINCREMENT id, the ten inserted
    columns and [created_at DEFAULT CURRENT_TIMESTAMP]. *)
Module MetricRow.
Record t : Type := mk {
  id : Z;
  columns : PerformanceMetric.t;
  created_at : string
}.
End MetricRow.

(** A row of [regression_alerts]. *)
Module AlertRow.
Record t : Type := mk {
  id : Z;
  columns : RegressionAlert.t;
  resolved : bool;
  created_at : string
}.
End AlertRow.

(** The contents of the SQLite file: both tables in rowid order and the
    AUTOINCREMENT counters. *)
Record Database : Type := mk_Database {
  performance_metrics : list MetricRow.t;
  regression_alerts : list AlertRow.t;
  metrics_seq : Z;
  alerts_seq : Z
}.

(** [_init_database] on a fresh file. *)
Definition empty_database : Database := mk_Database [] [] 0 0.

(** The clock readings of one call: [datetime.now()] and SQLite's
    [CURRENT_TIMESTAMP] (UTC). *)
Record Clock : Type := mk_Clock {
  now : datetime;
  utc_now : datetime
}.

(** The column values bound by [store_metrics] for one metric:
    [env_info = json.dumps(metric.environment_info) if
    metric.environment_info else None]. *)
Definition stored_columns (metric : PerformanceMetric.t) : PerformanceMetric.t :=
  PerformanceMetric.mk
    (PerformanceMetric.benchmark_name metric)
    (PerformanceMetric.platform metric)
    (PerformanceMetric.execution_time_ns metric)
    (PerformanceMetric.memory_usage metric)
    (PerformanceMetric.quality_score metric)
    (PerformanceMetric.timestamp metric)
    (PerformanceMetric.commit_hash metric)
    (PerformanceMetric.branch metric)
    (PerformanceMetric.pr_number metric)
    (match PerformanceMetric.environment_info metric with
     | Some v => if truthy v then Some v else None
     | None => None
     end).

Definition insert_metric (clk : Clock) (db : Database)
    (metric : PerformanceMetric.t) : Database :=
  let rowid := (metrics_seq db + 1)%Z in
  mk_Database
    (performance_metrics db
       ++ [MetricRow.mk rowid (stored_columns metric)
             (sqlite_timestamp (utc_now clk))])%list
    (regression_alerts db)
    rowid
    (alerts_seq db).

(** [PerformanceDatabase.store_metrics]: one INSERT per metric, no check
    of any column. *)
Definition store_metrics (clk : Clock) (db : Database)
    (metrics : list PerformanceMetric.t) : Database :=
  fold_left (insert_metric clk) metrics db.

(** [PerformanceDatabase.store_alert]. *)
Definition store_alert (clk : Clock) (db : Database)
    (alert : RegressionAlert.t) : Database :=
  let rowid := (alerts_seq db + 1)%Z in
  mk_Database
    (performance_metrics db)
    (regression_alerts db
       ++ [AlertRow.mk rowid alert false (sqlite_timestamp (utc_now clk))])%list
    (metrics_seq db)
    rowid.

(** [(datetime.now() - timedelta(days=days_back)).isoformat()]. *)
Definition cutoff_date (clk : Clock) (days_back : Z) : result string :=
  d <- sub_days (now clk) days_back ;;
  Ok (isoformat d).

(** The WHERE clause of [get_baseline_metrics]:
    [benchmark_name = ? AND platform = ? AND timestamp > ? AND branch = 'main']. *)
Definition baseline_eligible (benchmark_name platform cutoff : string)
    (c : PerformanceMetric.t) : bool :=
  String.eqb (PerformanceMetric.benchmark_name c) benchmark_name
  && String.eqb (PerformanceMetric.platform c) platform
  && String.ltb cutoff (PerformanceMetric.timestamp c)
  && String.eqb (PerformanceMetric.branch c) "main".

Definition baseline_where (benchmark_name platform cutoff : string)
    (row : MetricRow.t) : bool :=
  baseline_eligible benchmark_name platform cutoff (MetricRow.columns row).

Definition row_timestamp (row : MetricRow.t) : string :=
  PerformanceMetric.timestamp (MetricRow.columns row).

(** [ORDER BY timestamp DESC], as a stable insertion sort: SQLite leaves the
    order of rows with equal timestamps open, here they keep rowid order. *)
Fixpoint insert_desc (row : MetricRow.t) (sorted : list MetricRow.t)
    : list MetricRow.t :=
  match sorted with
  | [] => [row]
  | r :: rest =>
      if String.leb (row_timestamp r) (row_timestamp row)
      then row :: sorted
      else r :: insert_desc row rest
  end.

Definition order_by_timestamp_desc (rows : list MetricRow.t) : list MetricRow.t :=
  fold_right insert_desc [] rows.

(** The rows the SELECT of [get_baseline_metrics] yields. *)
Definition baseline_rows (db : Database) (benchmark_name platform cutoff : string)
    : list MetricRow.t :=
  order_by_timestamp_desc
    (filter (baseline_where benchmark_name platform cutoff)
            (performance_metrics db)).

(** [PerformanceDatabase.get_baseline_metrics]. *)
Definition get_baseline_metrics (clk : Clock) (db : Database)
    (benchmark_name platform : string) (days_back : Z)
    : result (list PerformanceMetric.t) :=
  cutoff <- cutoff_date clk days_back ;;
  Ok (map MetricRow.columns (baseline_rows db benchmark_name platform cutoff)).

(** ** RegressionDetector *)

(** The dict [self.thresholds], by its four keys. *)
Record Thresholds : Type := mk_Thresholds {
  threshold_MINOR : Q;
  threshold_MODERATE : Q;
  threshold_MAJOR : Q;
  threshold_CRITICAL : Q
}.

(** The attributes [__init__] sets besides the database handle. *)
Record RegressionDetector : Type := mk_RegressionDetector {
  thresholds : Thresholds;
  significance_threshold : Q;
  min_sample_size : nat
}.

(** [RegressionDetector.__init__]. *)
Definition RegressionDetector_init : RegressionDetector :=
  mk_RegressionDetector (mk_Thresholds 5 15 25 50) (5 # 100) 5.

(** [RegressionDetector._calculate_severity]. *)
Definition _calculate_severity (self : RegressionDetector) (change_percent : Q)
    : RegressionSeverity :=
  let abs_change := Qabs change_percent in
  if Qle_bool change_percent 0 then NONE
  else if Qle_bool (threshold_CRITICAL (thresholds self)) abs_change then CRITICAL
  else if Qle_bool (threshold_MAJOR (thresholds self)) abs_change then MAJOR
  else if Qle_bool (threshold_MODERATE (thresholds self)) abs_change then MODERATE
  else if Qle_bool (threshold_MINOR (thresholds self)) abs_change then MINOR
  else NONE.

(** The separator of the recommendation text: a blank, U+2022 and a blank. *)
Definition bullet_separator : string :=
  String (ascii_of_nat 32)
    (String (ascii_of_nat 226) (String (ascii_of_nat 128)
       (String (ascii_of_nat 162) (String (ascii_of_nat 32) EmptyString)))).

(** [RegressionDetector._generate_recommendation]. *)
Definition _generate_recommendation (severity : RegressionSeverity)
    (change_percent : Q) (benchmark_name : string) : string :=
  let recommendations :=
    match severity with
    | MINOR =>
        ["Monitor this benchmark in upcoming commits";
         "Consider profiling if regression persists";
         "Review recent algorithmic changes"]
    | MODERATE =>
        ["Investigate recent code changes affecting this benchmark";
         "Run detailed profiling to identify bottlenecks";
         "Consider reverting recent performance-affecting commits"]
    | MAJOR =>
        ["Immediate investigation required";
         "Profile the specific code paths in this benchmark";
         "Consider blocking deployment until resolved"]
    | CRITICAL =>
        ["Critical performance degradation detected";
         "Block deployment immediately";
         "Emergency profiling and optimization required"]
    | NONE => ["No specific recommendation"]
    end in
  let recommendations :=
    if contains "synthesis" (lower benchmark_name) then
      (recommendations ++ ["Check WORLD vocoder parameter settings";
                           "Verify HMM model loading performance"])%list
    else if contains "training" (lower benchmark_name) then
      (recommendations ++ ["Review training data preprocessing pipeline";
                           "Check memory allocation patterns in ML operations"])%list
    else recommendations in
  join bullet_separator recommendations.

(** [RegressionDetector._analyze_single_metric]; [None] is [Ok None]. *)
Definition _analyze_single_metric (self : RegressionDetector) (clk : Clock)
    (db : Database) (current_metric : PerformanceMetric.t)
    (commit_hash : string) : result (option RegressionAlert.t) :=
  baseline_metrics <-
    get_baseline_metrics clk db
      (PerformanceMetric.benchmark_name current_metric)
      (PerformanceMetric.platform current_metric) 30 ;;
  if (List.length baseline_metrics <? min_sample_size self)%nat then Ok None
  else
    let baseline_times :=
      map PerformanceMetric.execution_time_ns baseline_metrics in
    let current_time := PerformanceMetric.execution_time_ns current_metric in
    baseline_mean <- mean baseline_times ;;
    (* baseline_std is tested for its sign only: see [Py.variance] *)
    baseline_var <-
      (if (1 <? List.length baseline_times)%nat then variance baseline_times
       else Ok 0) ;;
    ratio <- fdiv (current_time - baseline_mean) baseline_mean ;;
    let change_percent := Qred (ratio * 100) in
    let severity := _calculate_severity self change_percent in
    if severity_eqb severity NONE then Ok None
    else
      let statistical_significance :=
        if Qltb 0 baseline_var then P_ttest_1samp baseline_times current_time
        else P_one in
      let recommendation :=
        _generate_recommendation severity change_percent
          (PerformanceMetric.benchmark_name current_metric) in
      Ok (Some (RegressionAlert.mk
                  (PerformanceMetric.benchmark_name current_metric)
                  (PerformanceMetric.platform current_metric)
                  severity
                  current_time
                  baseline_mean
                  change_percent
                  (PerformanceMetric.timestamp current_metric)
                  commit_hash
                  statistical_significance
                  recommendation)).

(** The loop of [analyze_current_metrics].  An exception leaves the loop at
    once; the alerts stored so far stay in the database. *)
Fixpoint analyze_loop (self : RegressionDetector) (clk : Clock)
    (commit_hash : string) (current_metrics : list PerformanceMetric.t)
    (db : Database) (alerts : list RegressionAlert.t)
    : result (list RegressionAlert.t) * Database :=
  match current_metrics with
  | [] => (Ok alerts, db)
  | metric :: rest =>
      match _analyze_single_metric self clk db metric commit_hash with
      | Raise e => (Raise e, db)
      | Ok None => analyze_loop self clk commit_hash rest db alerts
      | Ok (Some alert) =>
          if negb (severity_eqb (RegressionAlert.severity alert) NONE) then
            analyze_loop self clk commit_hash rest
              (store_alert clk db alert) (alerts ++ [alert])%list
          else analyze_loop self clk commit_hash rest db alerts
      end
  end.

(** [RegressionDetector.analyze_current_metrics]. *)
Definition analyze_current_metrics (self : RegressionDetector) (clk : Clock)
    (db : Database) (current_metrics : list PerformanceMetric.t)
    (commit_hash : string) : result (list RegressionAlert.t) * Database :=
  analyze_loop self clk commit_hash current_metrics db [].

(** ** Loading benchmark results *)

(** [os.environ]. *)
Definition Environ : Type := list (string * string).

Fixpoint environ_lookup (env : Environ) (key : string) : option string :=
  match env with
  | [] => None
  | (k, v) :: rest => if String.eqb k key then Some v else environ_lookup rest key
  end.

(** [os.environ.get(key, default)]. *)
Definition environ_get (env : Environ) (key default : string) : string :=
  match environ_lookup env key with
  | Some v => v
  | None => default
  end.

(** One benchmark object of a result file, by the keys the loader reads;
    [None] is an absent key.  The model covers objects whose present keys
    hold a value of the JSON type the benchmark harness writes (a boolean,
    a text, numbers). *)
Module Benchmark.
Record t : Type := mk {
  benchmark_successful : option bool;
  benchmark_name : option string;
  avg_execution_time_ns : option Q;
  avg_memory_usage : option Q;
  formant_preservation_score : option Q;
  environment_info : option json
}.
End Benchmark.

(** What [json.load] makes of one [*.json] file. *)
Inductive file_contents : Type :=
| Malformed                                  (* json.JSONDecodeError *)
| BenchmarkList (items : list Benchmark.t)   (* a list *)
| WithResults (items : list Benchmark.t)     (* a dict with a 'results' key *)
| SingleBenchmark (item : Benchmark.t).      (* any other dict *)

(** The platform the loader reads off the file path. *)
Definition platform_of_path (path_str : string) : string :=
  if contains "Windows" path_str || contains "windows" path_str
  then "Windows x64"
  else if contains "Ubuntu" path_str && contains "GCC" path_str
  then "Ubuntu GCC"
  else if contains "Ubuntu" path_str && contains "Clang" path_str
  then "Ubuntu Clang"
  else if contains "macOS" path_str then "macOS"
  else "Unknown Platform".

Definition from_option {A : Type} (o : option A) (default : A) : A :=
  match o with
  | Some a => a
  | None => default
  end.

(** The body of [for benchmark in benchmark_list]: [Ok None] is the
    [continue] of an unsuccessful benchmark. *)
Definition metric_of_benchmark (clk : Clock) (commit_hash branch : string)
    (pr_number : option string) (path_str : string) (benchmark : Benchmark.t)
    : result (option PerformanceMetric.t) :=
  if negb (from_option (Benchmark.benchmark_successful benchmark) true)
  then Ok None
  else
    let platform := platform_of_path path_str in
    pr <- match pr_number with
          | Some text =>
              if String.eqb text "" then Ok None
              else n <- int_of_str text ;; Ok (Some n)
          | None => Ok None
          end ;;
    Ok (Some (PerformanceMetric.mk
                (from_option (Benchmark.benchmark_name benchmark) "unknown")
                platform
                (from_option (Benchmark.avg_execution_time_ns benchmark) 0)
                (from_option (Benchmark.avg_memory_usage benchmark) 0)
                (from_option (Benchmark.formant_preservation_score benchmark) 0)
                (isoformat (now clk))
                commit_hash
                branch
                pr
                (Benchmark.environment_info benchmark))).

(** The benchmarks of one file, appended to [metrics] until an exception
    ends the [try] block; what was appended before stays. *)
Fixpoint load_benchmarks (clk : Clock) (commit_hash branch : string)
    (pr_number : option string) (path_str : string)
    (benchmark_list : list Benchmark.t) (metrics : list PerformanceMetric.t)
    : list PerformanceMetric.t :=
  match benchmark_list with
  | [] => metrics
  | benchmark :: rest =>
      match metric_of_benchmark clk commit_hash branch pr_number path_str
              benchmark with
      | Raise _ => metrics       (* except ...: print the warning; continue *)
      | Ok None =>
          load_benchmarks clk commit_hash branch pr_number path_str rest metrics
      | Ok (Some metric) =>
          load_benchmarks clk commit_hash branch pr_number path_str rest
            (metrics ++ [metric])%list
      end
  end.

Definition load_file (env : Environ) (clk : Clock)
    (metrics : list PerformanceMetric.t) (file : string * file_contents)
    : list PerformanceMetric.t :=
  let '(json_file, data) := file in
  let commit_hash := environ_get env "GITHUB_SHA" "unknown" in
  let branch := environ_get env "GITHUB_REF_NAME" "main" in
  let pr_number :=
    if contains "pull_request" (environ_get env "GITHUB_EVENT_NAME" "")
    then environ_lookup env "GITHUB_EVENT_NUMBER"
    else None in
  match data with
  | Malformed => metrics
  | BenchmarkList items | WithResults items =>
      load_benchmarks clk commit_hash branch pr_number json_file items metrics
  | SingleBenchmark item =>
      load_benchmarks clk commit_hash branch pr_number json_file [item] metrics
  end.

(** [load_benchmark_results]: [files] are the [*.json] files under the
    input directory in the order [rglob] yields them. *)
Definition load_benchmark_results (env : Environ) (clk : Clock)
    (files : list (string * file_contents)) : list PerformanceMetric.t :=
  fold_left (load_file env clk) files [].

(** ** main *)

(** [main], without the reports: [input_dir] is [None] when [args.input]
    does not exist.  The result is the exit status and the alerts handed to
    the notifier, beside the database the run leaves. *)
Definition main (env : Environ) (clk : Clock)
    (input_dir : option (list (string * file_contents)))
    (commit_hash : string) (db : Database)
    : result (Z * list RegressionAlert.t) * Database :=
  match input_dir with
  | None => (Ok (1%Z, []), db)
  | Some files =>
      let detector := RegressionDetector_init in
      let current_metrics := load_benchmark_results env clk files in
      match current_metrics with
      | [] => (Ok (1%Z, []), db)
      | _ =>
          let db := store_metrics clk db current_metrics in
          match analyze_current_metrics detector clk db current_metrics
                  commit_hash with
          | (Raise e, db) => (Raise e, db)
          | (Ok alerts, db) => (Ok (0%Z, alerts), db)
          end
      end
  end.

(** ** Reading alerts back *)

(** [RegressionSeverity(text)]: the member with that value; [ValueError]
    when there is none. *)
Definition severity_of_value (text : string) : result RegressionSeverity :=
  if String.eqb text "none" then Ok NONE
  else if String.eqb text "minor" then Ok MINOR
  else if String.eqb text "moderate" then Ok MODERATE
  else if String.eqb text "major" then Ok MAJOR
  else if String.eqb text "critical" then Ok CRITICAL
  else Raise ValueError.

(** The WHERE clause of [get_recent_alerts]: [created_at > ?], and
    [resolved = FALSE] when [unresolved_only]. *)
Definition recent_where (cutoff : string) (unresolved_only : bool)
    (row : AlertRow.t) : bool :=
  String.ltb cutoff (AlertRow.created_at row)
  && (if unresolved_only then negb (AlertRow.resolved row) else true).

(** [ORDER BY created_at DESC], stable like [insert_desc]. *)
Fixpoint insert_alert_desc (row : AlertRow.t) (sorted : list AlertRow.t)
    : list AlertRow.t :=
  match sorted with
  | [] => [row]
  | r :: rest =>
      if String.leb (AlertRow.created_at r) (AlertRow.created_at row)
      then row :: sorted
      else r :: insert_alert_desc row rest
  end.

Definition order_by_created_at_desc (rows : list AlertRow.t) : list AlertRow.t :=
  fold_right insert_alert_desc [] rows.

(** The [RegressionAlert] built from one fetched row: the severity column
    holds [alert.severity.value] and is read back with
    [RegressionSeverity(row[2])]. *)
Definition alert_of_row (row : AlertRow.t) : result RegressionAlert.t :=
  let c := AlertRow.columns row in
  severity <- severity_of_value (value (RegressionAlert.severity c)) ;;
  Ok (RegressionAlert.mk
        (RegressionAlert.benchmark_name c)
        (RegressionAlert.platform c)
        severity
        (RegressionAlert.current_value c)
        (RegressionAlert.baseline_value c)
        (RegressionAlert.change_percent c)
        (RegressionAlert.timestamp c)
        (RegressionAlert.commit_hash c)
        (RegressionAlert.statistical_significance c)
        (RegressionAlert.recommendation c)).

(** The loop over [cursor.fetchall()]. *)
Fixpoint alerts_of_rows (rows : list AlertRow.t) : result (list RegressionAlert.t) :=
  match rows with
  | [] => Ok []
  | row :: rest =>
      alert <- alert_of_row row ;;
      alerts <- alerts_of_rows rest ;;
      Ok (alert :: alerts)
  end.

(** The rows the SELECT of [get_recent_alerts] yields. *)
Definition recent_rows (db : Database) (cutoff : string) (unresolved_only : bool)
    : list AlertRow.t :=
  order_by_created_at_desc
    (filter (recent_where cutoff unresolved_only) (regression_alerts db)).

(** [PerformanceDatabase.get_recent_alerts]. *)
Definition get_recent_alerts (clk : Clock) (db : Database) (days_back : Z)
    (unresolved_only : bool) : result (list RegressionAlert.t) :=
  cutoff <- cutoff_date clk days_back ;;
  alerts_of_rows (recent_rows db cutoff unresolved_only).

(** The three lines [main] appends to [GITHUB_OUTPUT]:
    [regression-count], [critical-regressions] and [has-regressions]. *)
Definition github_output (alerts : list RegressionAlert.t) : nat * nat * bool :=
  (List.length alerts,
   List.length
     (filter (fun a => severity_eqb (RegressionAlert.severity a) CRITICAL) alerts),
   match alerts with [] => false | _ => true end).

End performance_regression_detector.

(* ===================================================================== *)
(** * regression_detector.py: the split-sample detector *)
(* ===================================================================== *)

Module regression_detector.

Import Py PyJson.
Local Open Scope string_scope.
Local Open Scope Q_scope.

(** The attributes of this script's [RegressionDetector] that the analysis
    reads. *)
Record RegressionDetector : Type := mk_RegressionDetector {
  threshold : Q;
  lookback_days : Z
}.

(** The defaults of [__init__]: [threshold=10.0, lookback_days=7]. *)
Definition RegressionDetector_init : RegressionDetector :=
  mk_RegressionDetector 10 7.

(** A decoded benchmark object. *)
Definition item : Type := list (string * json).

(** [value.replace('.', '')]. *)
Fixpoint remove_dots (s : string) : string :=
  match s with
  | EmptyString => EmptyString
  | String c rest =>
      if Ascii.eqb c "." then remove_dots rest else String c (remove_dots rest)
  end.

(** [str.isdigit] on ASCII text: not empty and digits only. *)
Fixpoint all_digits (s : string) : bool :=
  match s with
  | EmptyString => true
  | String c rest => is_digit c && all_digits rest
  end.

Definition isdigit (s : string) : bool :=
  negb (String.eqb s "") && all_digits s.

(** The text before the first dot, and what follows it (if there is one). *)
Fixpoint split_at_dot (s : string) : string * option string :=
  match s with
  | EmptyString => (EmptyString, None)
  | String c rest =>
      if Ascii.eqb c "." then (EmptyString, Some rest)
      else let '(a, b) := split_at_dot rest in (String c a, b)
  end.

(** [float(text)] for a text of digits and dots that holds a digit: the
    double nearest to the decimal it writes (an infinity when the decimal is
    beyond the range), or [ValueError] when it has more than one dot. *)
Definition float_of_digits_and_dots (s : string) : result float :=
  match split_at_dot s with
  | (whole, None) =>
      match decimal_digits whole 0 with
      | Some n => Ok (float_of_Q (inject_Z n))
      | None => Raise ValueError
      end
  | (whole, Some frac) =>
      match decimal_digits whole 0, decimal_digits frac 0 with
      | Some n, Some f =>
          Ok (float_of_Q
                (Qred (inject_Z n
                       + inject_Z f / inject_Z (10 ^ Z.of_nat (String.length frac)))))
      | _, _ => Raise ValueError
      end
  end.

(** [float(value)] of a JSON number, an int or a finite float of exact
    value [q]: an int beyond the range of a double raises [OverflowError]. *)
Definition float_of_number (q : Q) : result float :=
  let x := float_of_Q q in
  if is_finite x then Ok x else Raise OverflowError.

(** [RegressionDetector._safe_get_numeric]. *)
Fixpoint _safe_get_numeric (data : item) (keys : list string) : result float :=
  match keys with
  | [] => Ok (S754_zero false)                             (* 0.0 *)
  | key :: rest =>
      match get data key with
      | Some (JNumber q) => float_of_number q
      | Some (JBool b) => Ok (float_of_Q (if b then 1 else 0)) (* a bool is an int *)
      | Some (JString s) =>
          if isdigit (remove_dots s) then float_of_digits_and_dots s
          else _safe_get_numeric data rest
      | _ => _safe_get_numeric data rest
      end
  end.

(** [RegressionDetector._calculate_severity], on the exact value of the
    change. *)
Definition _calculate_severity (percent_change : Q) : string :=
  let abs_change := Qabs percent_change in
  if Qltb 50 abs_change then "critical"
  else if Qltb 30 abs_change then "high"
  else if Qltb 15 abs_change then "medium"
  else "low".

(** [_calculate_severity] at a float: its comparisons with 50, 30 and 15
    are exact, so a finite change is labelled by its value; an infinite one
    is above every cut point, and a nan above none. *)
Definition severity_label (percent_change : float) : string :=
  match percent_change with
  | S754_infinity _ => "critical"
  | S754_nan => "low"
  | _ => _calculate_severity (Q_of_float percent_change)
  end.

(** The dict [regression_data]. *)
Record regression_data : Type := mk_regression_data {
  benchmark : string;
  platform : string;
  baseline_time : float;
  current_time : float;
  regression_percent : float;
  sample_count_baseline : nat;
  sample_count_current : nat;
  severity : string
}.

(** The loop that fills [timing_data]. *)
Fixpoint extract_timing_data (benchmark_data : list item)
    (timing_data : list float) : result (list float) :=
  match benchmark_data with
  | [] => Ok timing_data
  | it :: rest =>
      avg_time <-
        _safe_get_numeric it ["avg_execution_time_ns"; "avg_execution_time"] ;;
      if fgt avg_time 0
      then extract_timing_data rest (timing_data ++ [avg_time])%list
      else extract_timing_data rest timing_data
  end.

(** What one pass of the loop over [platform_data.items()] appends. *)
Inductive finding : Type :=
| Nothing
| Regression (r : regression_data)
| Improvement (r : regression_data).

(** The body of the loop of [_analyze_platform_regressions] for one
    benchmark of the platform. *)
Definition analyze_benchmark (self : RegressionDetector) (platform : string)
    (benchmark_name : string) (benchmark_data : list item) : result finding :=
  if (List.length benchmark_data <? 2)%nat then Ok Nothing
  else
    timing_data <- extract_timing_data benchmark_data [] ;;
    if (List.length timing_data <? 2)%nat then Ok Nothing
    else
      let mid_point := (List.length timing_data / 2)%nat in
      let baseline_times :=
        if (0 <? mid_point)%nat then firstn mid_point timing_data
        else removelast timing_data in
      let current_times :=
        if (0 <? mid_point)%nat then skipn mid_point timing_data
        else skipn (List.length timing_data - 1) timing_data in
      baseline_avg <- fmean baseline_times ;;
      current_avg <- fmean current_times ;;
      if fgt baseline_avg 0 then
        ratio <- truediv (fsub current_avg baseline_avg) baseline_avg ;;
        let percent_change := fmul ratio (float_of_Q 100) in
        if fgt (fabs percent_change) (threshold self) then
          baseline_ms <- truediv baseline_avg (float_of_Q 1000000) ;;
          current_ms <- truediv current_avg (float_of_Q 1000000) ;;
          let data :=
            mk_regression_data
              benchmark_name
              platform
              (fround baseline_ms 3)
              (fround current_ms 3)
              (fround percent_change 2)
              (List.length baseline_times)
              (List.length current_times)
              (severity_label percent_change) in
          if fgt percent_change 0 then Ok (Regression data)
          else Ok (Improvement data)
        else Ok Nothing
      else Ok Nothing.

(** [RegressionDetector._analyze_platform_regressions]: [platform_data] is
    the dict of the platform's benchmarks in insertion order. *)
Fixpoint analyze_platform_loop (self : RegressionDetector) (platform : string)
    (platform_data : list (string * list item))
    (regressions improvements : list regression_data)
    : result (list regression_data * list regression_data) :=
  match platform_data with
  | [] => Ok (regressions, improvements)
  | (benchmark_name, benchmark_data) :: rest =>
      f <- analyze_benchmark self platform benchmark_name benchmark_data ;;
      match f with
      | Nothing =>
          analyze_platform_loop self platform rest regressions improvements
      | Regression r =>
          analyze_platform_loop self platform rest
            (regressions ++ [r])%list improvements
      | Improvement r =>
          analyze_platform_loop self platform rest
            regressions (improvements ++ [r])%list
      end
  end.

Definition _analyze_platform_regressions (self : RegressionDetector)
    (platform : string) (platform_data : list (string * list item))
    : result (list regression_data * list regression_data) :=
  analyze_platform_loop self platform platform_data [] [].

(** ** Loading and grouping *)

(** [RegressionDetector._extract_platform_from_path]. *)
Definition _extract_platform_from_path (path_str : string) : string :=
  if contains "Windows" path_str || contains "windows" path_str then "Windows"
  else if contains "Ubuntu" path_str || contains "ubuntu" path_str then "Ubuntu"
  else if contains "macOS" path_str || contains "macos" path_str then "macOS"
  else "Unknown".

(** [d[key] = value] on a decoded object: a key that is present keeps its
    place. *)
Fixpoint setitem (members : item) (key : string) (value : json) : item :=
  match members with
  | [] => [(key, value)]
  | (k, v) :: rest =>
      if String.eqb k key then (k, value) :: rest
      else (k, v) :: setitem rest key value
  end.

(** The two assignments [item['_platform'] = platform] and
    [item['_source_file'] = str(json_file)]: [TypeError] on anything but a
    dict. *)
Definition tag_item (platform path_str : string) (v : json) : result item :=
  match v with
  | JObject members =>
      Ok (setitem (setitem members "_platform" (JString platform))
            "_source_file" (JString path_str))
  | _ => Raise TypeError
  end.

(** [for item in data: ...; all_data.append(item)]. *)
Fixpoint tag_items (platform path_str : string) (items : list json)
    (all_data : list item) : result (list item) :=
  match items with
  | [] => Ok all_data
  | v :: rest =>
      it <- tag_item platform path_str v ;;
      tag_items platform path_str rest (all_data ++ [it])%list
  end.

(** The body of the loop over the files; [None] is a file that
    [json.load] rejects ([json.JSONDecodeError], caught).  A [TypeError]
    is not caught. *)
Definition load_json_file (all_data : list item) (file : string * option json)
    : result (list item) :=
  let '(json_file, contents) := file in
  match contents with
  | None => Ok all_data
  | Some data =>
      let platform := _extract_platform_from_path json_file in
      match data with
      | JArray items => tag_items platform json_file items all_data
      | JObject members =>
          match get members "results" with
          | Some (JArray items) => tag_items platform json_file items all_data
          | Some (JObject []) => Ok all_data       (* no key to iterate on *)
          | Some (JString EmptyString) => Ok all_data
          | Some _ => Raise TypeError     (* not iterable, or a str item *)
          | None =>
              it <- tag_item platform json_file data ;;
              Ok (all_data ++ [it])%list
          end
      | _ => Ok all_data
      end
  end.

Fixpoint load_json_files (files : list (string * option json))
    (all_data : list item) : result (list item) :=
  match files with
  | [] => Ok all_data
  | file :: rest =>
      all_data <- load_json_file all_data file ;;
      load_json_files rest all_data
  end.

(** [RegressionDetector._load_all_benchmark_data]: [files] are the
    [*.json] files under the input directory. *)
Definition _load_all_benchmark_data (files : list (string * option json))
    : result (list item) :=
  load_json_files files [].

(** Decoded JSON values as dict keys: lists and dicts cannot be hashed;
    booleans and numbers are one key when they are equal as numbers. *)
Definition hashable (k : json) : bool :=
  match k with
  | JArray _ | JObject _ => false
  | _ => true
  end.

Definition numeric (k : json) : option Q :=
  match k with
  | JBool b => Some (if b then 1 else 0)
  | JNumber q => Some q
  | _ => None
  end.

Definition key_eqb (a b : json) : bool :=
  match a, b with
  | JNull, JNull => true
  | JString s, JString t => String.eqb s t
  | _, _ =>
      match numeric a, numeric b with
      | Some x, Some y => Qeqb x y
      | _, _ => false
      end
  end.

(** [d.get(key)] and [d[key] = value] on a dict with such keys. *)
Fixpoint lookup {V : Type} (d : list (json * V)) (key : json) : option V :=
  match d with
  | [] => None
  | (k, v) :: rest => if key_eqb k key then Some v else lookup rest key
  end.

Fixpoint store {V : Type} (d : list (json * V)) (key : json) (value : V)
    : list (json * V) :=
  match d with
  | [] => [(key, value)]
  | (k, v) :: rest =>
      if key_eqb k key then (k, value) :: rest
      else (k, v) :: store rest key value
  end.

Definition platform_key (it : item) : json :=
  match get it "_platform" with
  | Some v => v
  | None => JString "Unknown"
  end.

Definition name_key (it : item) : json :=
  match get it "benchmark_name" with
  | Some v => v
  | None => JString "unknown"
  end.

(** The body of the loop of [_group_benchmark_data]. *)
Definition group_item (grouped : list (json * list (json * list item)))
    (it : item) : result (list (json * list (json * list item))) :=
  let platform := platform_key it in
  let benchmark_name := name_key it in
  if negb (hashable platform) then Raise TypeError
  else
    let by_name :=
      match lookup grouped platform with
      | Some by_name => by_name
      | None => []
      end in
    if negb (hashable benchmark_name) then Raise TypeError
    else
      let items :=
        match lookup by_name benchmark_name with
        | Some items => items
        | None => []
        end in
      Ok (store grouped platform
            (store by_name benchmark_name (items ++ [it])%list)).

Fixpoint group_items (all_data : list item)
    (grouped : list (json * list (json * list item)))
    : result (list (json * list (json * list item))) :=
  match all_data with
  | [] => Ok grouped
  | it :: rest =>
      grouped <- group_item grouped it ;;
      group_items rest grouped
  end.

(** [RegressionDetector._group_benchmark_data]. *)
Definition _group_benchmark_data (all_data : list item)
    : result (list (json * list (json * list item))) :=
  group_items all_data [].

(** ** detect_regressions and main *)

(** The dict [regression_report] of a completed analysis. *)
Module regression_report.
Record t : Type := mk {
  analysis_timestamp : string;
  threshold_percent : Q;
  lookback_days : Z;
  total_platforms : nat;
  regressions_detected : nat;
  improvements_detected : nat;
  regressions : list regression_data;
  improvements : list regression_data
}.
End regression_report.

(** What [detect_regressions] returns. *)
Inductive detection : Type :=
| No_benchmark_data   (* {'regressions': [], 'analysis_successful': False} *)
| Analysed (report : regression_report.t).

(** The grouped data when every platform and benchmark name is a text;
    [_analyze_platform_regressions] is modelled for such names. *)
Fixpoint text_keys {V W : Type} (f : V -> option W) (d : list (json * V))
    : option (list (string * W)) :=
  match d with
  | [] => Some []
  | (JString s, v) :: rest =>
      match f v, text_keys f rest with
      | Some w, Some rest' => Some ((s, w) :: rest')
      | _, _ => None
      end
  | _ => None
  end.

Definition grouped_texts (grouped : list (json * list (json * list item)))
    : option (list (string * list (string * list item))) :=
  text_keys (text_keys (fun items : list item => Some items)) grouped.

(** [for platform in grouped_data: ...] with the two [extend]. *)
Fixpoint analyze_platforms (self : RegressionDetector)
    (grouped_data : list (string * list (string * list item)))
    (regressions improvements : list regression_data)
    : result (list regression_data * list regression_data) :=
  match grouped_data with
  | [] => Ok (regressions, improvements)
  | (platform, platform_data) :: rest =>
      found <- _analyze_platform_regressions self platform platform_data ;;
      analyze_platforms self rest
        (regressions ++ fst found)%list (improvements ++ snd found)%list
  end.

(** [RegressionDetector.detect_regressions], without the files it writes;
    [now] is the reading of [datetime.now()].  The outer [None] is data
    with a platform or benchmark name that is not a text. *)
Definition detect_regressions (self : RegressionDetector) (now : datetime)
    (files : list (string * option json)) : option (result detection) :=
  match _load_all_benchmark_data files with
  | Raise e => Some (Raise e)
  | Ok [] => Some (Ok No_benchmark_data)
  | Ok all_data =>
      match _group_benchmark_data all_data with
      | Raise e => Some (Raise e)
      | Ok grouped =>
          match grouped_texts grouped with
          | None => None
          | Some grouped_data =>
              Some (found <- analyze_platforms self grouped_data [] [] ;;
                    Ok (Analysed
                          (regression_report.mk
                             (isoformat now)
                             (threshold self)
                             (lookback_days self)
                             (List.length grouped_data)
                             (List.length (fst found))
                             (List.length (snd found))
                             (fst found)
                             (snd found))))
          end
      end
  end.

(** How a run of [main] ends: with an exit status, or with an exception
    that nothing catches. *)
Inductive termination : Type :=
| Returns (status : Z)
| KeyError (key : string)
| Uncaught (e : exn).

(** [main]: [input] is [None] when [args.input] does not exist. *)
Definition main (threshold : Q) (lookback_days : Z) (now : datetime)
    (input : option (list (string * option json))) : option termination :=
  match input with
  | None => Some (Returns 1)
  | Some files =>
      let detector := mk_RegressionDetector threshold lookback_days in
      match detect_regressions detector now files with
      | None => None
      | Some (Raise e) => Some (Uncaught e)
      | Some (Ok No_benchmark_data) =>
          Some (KeyError "regressions_detected")   (* report['regressions_detected'] *)
      | Some (Ok (Analysed report)) =>
          if (0 <? regression_report.regressions_detected report)%nat
          then Some (Returns 1)
          else Some (Returns 0)
      end
  end.

End regression_detector.

(* ===================================================================== *)
(** * update_performance_baseline.py: retention *)
(* ===================================================================== *)

Module update_performance_baseline.

Import Py.
Import performance_regression_detector.
Local Open Scope string_scope.

(** What a call returns to its caller. *)
Inductive pyvalue : Type :=
| PyNone
| PyInt (n : Z).

(** The lines [cleanup_old_data] prints. *)
Inductive printed : Type :=
| Cleaning_up (retain_days : Z)
| Removed (old_metrics_count old_alerts_count : nat)
| No_old_data.

Definition metric_is_old (cutoff_date : string) (row : MetricRow.t) : bool :=
  String.ltb (row_timestamp row) cutoff_date.

Definition alert_is_old (cutoff_date : string) (row : AlertRow.t) : bool :=
  String.ltb (AlertRow.created_at row) cutoff_date.

(** The two DELETE statements. *)
Definition delete_old (cutoff_date : string) (db : Database) : Database :=
  mk_Database
    (filter (fun row => negb (metric_is_old cutoff_date row))
            (performance_metrics db))
    (filter (fun row => negb (alert_is_old cutoff_date row))
            (regression_alerts db))
    (metrics_seq db)
    (alerts_seq db).

(** [BaselineManager.cleanup_old_data]: the value returned with the lines
    printed, and the database it leaves.  The function has no [return]
    statement. *)
Definition cleanup_old_data (clk : Clock) (db : Database) (retain_days : Z)
    : result (pyvalue * list printed) * Database :=
  match cutoff_date clk retain_days with
  | Raise e => (Raise e, db)
  | Ok cutoff =>
      let old_metrics_count :=
        List.length (filter (metric_is_old cutoff) (performance_metrics db)) in
      let old_alerts_count :=
        List.length (filter (alert_is_old cutoff) (regression_alerts db)) in
      if ((0 <? old_metrics_count) || (0 <? old_alerts_count))%nat then
        (Ok (PyNone, [Cleaning_up retain_days;
                      Removed old_metrics_count old_alerts_count]),
         delete_old cutoff db)
      else (Ok (PyNone, [Cleaning_up retain_days; No_old_data]), db)
  end.

(** ** Validation *)

(** The columns of the GROUP BY of the duplicate check. *)
Definition duplicate_key (row : MetricRow.t) : string * string * string * string :=
  let c := MetricRow.columns row in
  (PerformanceMetric.benchmark_name c, PerformanceMetric.platform c,
   PerformanceMetric.timestamp c, PerformanceMetric.commit_hash c).

Definition key_eqb (a b : string * string * string * string) : bool :=
  let '(a1, a2, a3, a4) := a in
  let '(b1, b2, b3, b4) := b in
  String.eqb a1 b1 && String.eqb a2 b2 && String.eqb a3 b3 && String.eqb a4 b4.

Definition count_key (k : string * string * string * string)
    (keys : list (string * string * string * string)) : nat :=
  List.length (filter (key_eqb k) keys).

(** The groups, by first occurrence. *)
Fixpoint distinct_keys (keys : list (string * string * string * string))
    : list (string * string * string * string) :=
  match keys with
  | [] => []
  | k :: rest =>
      k :: filter (fun k' => negb (key_eqb k k')) (distinct_keys rest)
  end.

(** [GROUP BY benchmark_name, platform, timestamp, commit_hash
    HAVING COUNT( * ) > 1]: the keys held by more than one row. *)
Definition duplicates (db : Database) : list (string * string * string * string) :=
  let keys := map duplicate_key (performance_metrics db) in
  filter (fun k => (1 <? count_key k keys)%nat) (distinct_keys keys).

(** [SELECT COUNT( * ) ... WHERE execution_time_ns <= 0 OR timestamp IS NULL];
    the column [timestamp] is NOT NULL. *)
Definition invalid_metrics (db : Database) : nat :=
  List.length
    (filter (fun row =>
               Qle_bool (PerformanceMetric.execution_time_ns (MetricRow.columns row)) 0)
            (performance_metrics db)).

(** [issues_found] at the end of [validate_database_integrity];
    [integrity_result] is the answer of [PRAGMA integrity_check]. *)
Definition issues_found (integrity_result : string) (db : Database) : nat :=
  ((if String.eqb integrity_result "ok" then 0 else 1)
   + (if (0 <? invalid_metrics db)%nat then 1 else 0)
   + (match duplicates db with [] => 0 | _ => 1 end))%nat.

(** [BaselineManager.validate_database_integrity], when no [sqlite3.Error]
    is raised. *)
Definition validate_database_integrity (integrity_result : string)
    (db : Database) : bool :=
  (issues_found integrity_result db =? 0)%nat.

(** [BaselineManager.update_baseline]: the two counts it prints. *)
Definition update_baseline (db : Database) (commit_hash branch : string)
    : nat * nat :=
  (List.length (performance_metrics db),
   List.length
     (filter (fun row =>
                String.eqb (PerformanceMetric.commit_hash (MetricRow.columns row))
                           commit_hash
                && String.eqb (PerformanceMetric.branch (MetricRow.columns row))
                              branch)
             (performance_metrics db))).

End update_performance_baseline.

(* ===================================================================== *)
(** * Properties *)
(* ===================================================================== *)

Import Py PyJson.
Module PRD := performance_regression_detector.
Module RD := regression_detector.
Module UPB := update_performance_baseline.
Import PRD.

Local Open Scope Q_scope.

(** ** Arithmetic and order facts *)

Lemma Qle_bool_false (x y : Q) : Qle_bool x y = false <-> y < x.
Proof.
  split; intro H.
  - apply Qnot_le_lt. intro Hle. apply Qle_bool_iff in Hle. congruence.
  - destruct (Qle_bool x y) eqn:E; [|reflexivity].
    apply Qle_bool_iff in E. exfalso. apply (Qlt_not_le _ _ H E).
Qed.

Lemma Qltb_true (x y : Q) : Qltb x y = true <-> x < y.
Proof.
  unfold Qltb. rewrite negb_true_iff. apply Qle_bool_false.
Qed.

Lemma Qltb_false (x y : Q) : Qltb x y = false <-> y <= x.
Proof.
  unfold Qltb. rewrite negb_false_iff. apply Qle_bool_iff.
Qed.

Lemma Qeqb_true (x y : Q) : Qeqb x y = true <-> x == y.
Proof. unfold Qeqb. apply Qeq_bool_iff. Qed.


Lemma Qabs_of_pos (x : Q) : 0 < x -> Qabs x == x.
Proof. intro H. apply Qabs_pos. apply Qlt_le_weak. exact H. Qed.

(** ** C1: the severity policy *)

(** The severity table of the specification (section 4.4), read on a
    change percent [x]. *)
Definition severity_policy (x : Q) : RegressionSeverity :=
  if Qlt_le_dec x 5 then NONE
  else if Qlt_le_dec x 15 then MINOR
  else if Qlt_le_dec x 25 then MODERATE
  else if Qlt_le_dec x 50 then MAJOR
  else CRITICAL.

Lemma primary_severity_is_policy (x : Q) :
  0 < x -> PRD._calculate_severity RegressionDetector_init x = severity_policy x.
Proof.
  intro Hx. unfold PRD._calculate_severity, severity_policy. simpl.
  pose proof (Qabs_of_pos Hx) as Ha.
  destruct (Qle_bool x 0) eqn:E0.
  { apply Qle_bool_iff in E0. exfalso. apply (Qlt_not_le _ _ Hx E0). }
  repeat match goal with
  | |- context [Qle_bool ?a (Qabs x)] =>
      let E := fresh "E" in
      destruct (Qle_bool a (Qabs x)) eqn:E;
      [ apply Qle_bool_iff in E | apply Qle_bool_false in E ];
      rewrite Ha in E
  end;
  repeat match goal with
  | |- context [Qlt_le_dec x ?a] => destruct (Qlt_le_dec x a)
  end; try reflexivity; exfalso; lra.
Qed.

(** The severity is [NONE] on every change that is not a degradation. *)
Lemma severity_none_of_nonpos (self : RegressionDetector) (x : Q) :
  x <= 0 -> PRD._calculate_severity self x = NONE.
Proof.
  intro H. unfold PRD._calculate_severity.
  apply Qle_bool_iff in H. rewrite H. reflexivity.
Qed.

Lemma severity_not_none_pos (self : RegressionDetector) (x : Q) :
  PRD._calculate_severity self x <> NONE -> 0 < x.
Proof.
  intro H. apply Qnot_le_lt. intro Hle. apply H.
  apply severity_none_of_nonpos. exact Hle.
Qed.

Lemma severity_eqb_NONE (s : RegressionSeverity) :
  severity_eqb s NONE = true <-> s = NONE.
Proof. destruct s; simpl; split; congruence. Qed.


Lemma mean_defined (data : list Q) :
  data <> [] -> exists mu, mean data = Ok mu.
Proof.
  destruct data as [|x rest]; [congruence|].
  intros _. eexists. reflexivity.
Qed.

(** The change percent the analyzer computes from a current time and a
    baseline mean. *)
Definition change_percent_of (current_time baseline_mean : Q) : Q :=
  ((current_time - baseline_mean) / baseline_mean) * 100.



(** ** C2: the sign gate *)


(** ** Concrete stores used by the examples *)

Local Open Scope string_scope.

(** Noon of 2024-06-01, local time and UTC alike. *)
Definition noon : Clock :=
  mk_Clock (mk_datetime 2024 6 1 12 0 0 0) (mk_datetime 2024 6 1 12 0 0 0).

(** A record of benchmark [WORLD_Analysis] on [Ubuntu GCC]. *)
Definition sample (timestamp : string) (execution_time_ns : Q) (branch : string)
    : PerformanceMetric.t :=
  PerformanceMetric.mk "WORLD_Analysis" "Ubuntu GCC" execution_time_ns 0 0
    timestamp "0a1b2c3" branch None None.

(** Four records of the stable branch from the last days of May, 100 each. *)
Definition four_of_may : list PerformanceMetric.t :=
  [sample "2024-05-20T10:00:00" 100 "main";
   sample "2024-05-21T10:00:00" 100 "main";
   sample "2024-05-22T10:00:00" 100 "main";
   sample "2024-05-23T10:00:00" 100 "main"].

Definition store_of_four : Database :=
  store_metrics noon empty_database four_of_may.

Definition store_of_five : Database :=
  store_metrics noon store_of_four [sample "2024-05-24T10:00:00" 100 "main"].


(** ** C3: the sample-size gate *)

(** C3. When the baseline set fetched for the current record holds fewer
    than [min_sample_size] records, [_analyze_single_metric] returns [None],
    whatever the current value is. *)
Theorem sample_size_gate (self : RegressionDetector) (clk : Clock)
    (db : Database) (m : PerformanceMetric.t) (commit_hash : string)
    (baseline : list PerformanceMetric.t) :
  get_baseline_metrics clk db (PerformanceMetric.benchmark_name m)
    (PerformanceMetric.platform m) 30 = Ok baseline ->
  (List.length baseline < min_sample_size self)%nat ->
  _analyze_single_metric self clk db m commit_hash = Ok None.
Proof.
  intros Hb Hlt. unfold _analyze_single_metric. rewrite Hb. cbn [bind].
  apply Nat.ltb_lt in Hlt. rewrite Hlt. reflexivity.
Qed.

(** Four baseline records at 100 and a current value of 300, a change of
    200 percent: no alert. *)
Lemma sample_size_gate_witness :
  change_percent_of 300 100 == 200
  /\ min_sample_size RegressionDetector_init = 5%nat
  /\ _analyze_single_metric RegressionDetector_init noon store_of_four
       (sample "2024-06-01T12:00:00" 300 "feature/x") "fedcba9" = Ok None.
Proof.
  split; [reflexivity|]. split; [reflexivity|].
  apply (@sample_size_gate RegressionDetector_init noon store_of_four
           (sample "2024-06-01T12:00:00" 300 "feature/x") "fedcba9"
           (rev four_of_may)).
  - vm_compute. reflexivity.
  - vm_compute. apply le_n.
Defined.

(** ** C1: one policy for every detector? *)

(** An alert of the analyzer carries the severity that
    [_calculate_severity] gives to its change percent, and never [NONE]. *)
Lemma analyze_alert_severity (self : RegressionDetector) (clk : Clock)
    (db : Database) (m : PerformanceMetric.t) (commit_hash : string)
    (a : RegressionAlert.t) :
  _analyze_single_metric self clk db m commit_hash = Ok (Some a) ->
  RegressionAlert.severity a
    = PRD._calculate_severity self (RegressionAlert.change_percent a)
  /\ RegressionAlert.severity a <> NONE.
Proof.
  unfold _analyze_single_metric.
  destruct (get_baseline_metrics clk db _ _ 30) as [baseline|e]; cbn [bind];
    [|discriminate].
  destruct (List.length baseline <? min_sample_size self)%nat; [discriminate|].
  destruct (mean _) as [mu|e]; cbn [bind]; [|discriminate].
  destruct (if (1 <? _)%nat then _ else _) as [v|e]; cbn [bind]; [|discriminate].
  destruct (fdiv _ mu) as [ratio|e]; cbn [bind]; [|discriminate].
  destruct (severity_eqb _ NONE) eqn:E; [discriminate|].
  intro H. injection H as <-.
  split; [reflexivity|].
  intro Hn.
  change (PRD._calculate_severity self (Qred (ratio * 100)) = NONE) in Hn.
  apply (proj2 (severity_eqb_NONE _)) in Hn. rewrite E in Hn. discriminate.
Qed.

(** The labels of the split-sample detector, by its own cut points. *)
Lemma fallback_severity_scale (x : Q) :
  (50 < Qabs x -> RD._calculate_severity x = "critical")
  /\ (30 < Qabs x -> Qabs x <= 50 -> RD._calculate_severity x = "high")
  /\ (15 < Qabs x -> Qabs x <= 30 -> RD._calculate_severity x = "medium")
  /\ (Qabs x <= 15 -> RD._calculate_severity x = "low").
Proof.
  unfold RD._calculate_severity.
  destruct (Qltb 50 (Qabs x)) eqn:E50;
    [apply Qltb_true in E50 | apply Qltb_false in E50];
  (destruct (Qltb 30 (Qabs x)) eqn:E30;
    [apply Qltb_true in E30 | apply Qltb_false in E30]);
  (destruct (Qltb 15 (Qabs x)) eqn:E15;
    [apply Qltb_true in E15 | apply Qltb_false in E15]);
  repeat split; intros; try reflexivity; exfalso; lra.
Qed.

(** C1 as stated: every detector classifies a positive change by the table
    of the specification. *)
Definition every_detector_follows_policy : Prop :=
  forall x : Q, 0 < x ->
    PRD._calculate_severity RegressionDetector_init x = severity_policy x
    /\ RD._calculate_severity x = value (severity_policy x).

Definition timing (t : Q) : RD.item := [("avg_execution_time_ns", JNumber t)].

(** The split-sample detector on the samples 100, 150 finds a change of 50
    percent and labels it [high], where the table says [critical]. *)
Lemma fallback_detector_labels_50_high :
  RD.analyze_benchmark RD.RegressionDetector_init "Ubuntu" "WORLD_Analysis"
    [timing 100; timing 150]
  = Ok (RD.Regression
          (RD.mk_regression_data "WORLD_Analysis" "Ubuntu"
             (float_of_Q 0) (float_of_Q 0) (float_of_Q 50) 1 1 "high"))
  /\ value (severity_policy 50) = "critical"
  /\ ~ every_detector_follows_policy.
Proof.
  split; [vm_compute; reflexivity|].
  split; [vm_compute; reflexivity|].
  intro H. destruct (H 50) as [_ H2]; [reflexivity|].
  vm_compute in H2. discriminate.
Qed.

(** C1 (amended). The analyzer's policy, [_calculate_severity] with the
    thresholds of [__init__], maps a positive change percent by the table:
    below 5 none, from 5 minor, from 15 moderate, from 25 major, from 50
    critical; every alert the analyzer returns has a positive change percent
    and carries the tier of the table for it.  The split-sample detector
    labels on its own scale: above 50 critical, above 30 high, above 15
    medium, else low. *)
Theorem analyzer_follows_severity_policy :
  (forall x : Q, 0 < x ->
     PRD._calculate_severity RegressionDetector_init x = severity_policy x)
  /\ (forall clk db m commit_hash a,
        _analyze_single_metric RegressionDetector_init clk db m commit_hash
          = Ok (Some a) ->
        0 < RegressionAlert.change_percent a
        /\ RegressionAlert.severity a
           = severity_policy (RegressionAlert.change_percent a))
  /\ (forall x : Q,
        (50 < Qabs x -> RD._calculate_severity x = "critical")
        /\ (30 < Qabs x -> Qabs x <= 50 -> RD._calculate_severity x = "high")
        /\ (15 < Qabs x -> Qabs x <= 30 -> RD._calculate_severity x = "medium")
        /\ (Qabs x <= 15 -> RD._calculate_severity x = "low")).
Proof.
  split; [exact primary_severity_is_policy|].
  split; [|exact fallback_severity_scale].
  intros clk db m commit_hash a H.
  destruct (analyze_alert_severity _ _ _ _ _ H) as [Hs Hn].
  assert (Hpos : 0 < RegressionAlert.change_percent a).
  { apply (@severity_not_none_pos RegressionDetector_init). rewrite <- Hs. exact Hn. }
  split; [exact Hpos|].
  rewrite Hs. apply primary_severity_is_policy. exact Hpos.
Qed.

(** The threshold boundaries of the specification on a baseline mean of 100:
    104.9 none, 105 and 114.9 minor, 115 and 124.9 moderate, 125 and 149.9
    major, 150 critical. *)
Lemma analyzer_follows_severity_policy_witness :
  let tier (current : Q) :=
    PRD._calculate_severity RegressionDetector_init
      (change_percent_of current 100) in
  0 < change_percent_of (1049 # 10) 100
  /\ tier (1049 # 10) = NONE
  /\ tier 105 = MINOR /\ tier (1149 # 10) = MINOR
  /\ tier 115 = MODERATE /\ tier (1249 # 10) = MODERATE
  /\ tier 125 = MAJOR /\ tier (1499 # 10) = MAJOR
  /\ tier 150 = CRITICAL.
Proof.
  cbv zeta.
  pose proof (proj1 analyzer_follows_severity_policy) as policy.
  split; [reflexivity|].
  repeat match goal with |- _ /\ _ => split end;
    (rewrite policy by reflexivity; vm_compute; reflexivity).
Defined.

(** ** C4: a zero baseline mean *)

(** Five records of the stable branch whose execution time is 0, the value
    the loader gives a benchmark without [avg_execution_time_ns]. *)
Definition store_of_zeros : Database :=
  store_metrics noon empty_database
    [sample "2024-05-20T10:00:00" 0 "main";
     sample "2024-05-21T10:00:00" 0 "main";
     sample "2024-05-22T10:00:00" 0 "main";
     sample "2024-05-23T10:00:00" 0 "main";
     sample "2024-05-24T10:00:00" 0 "main"].

(** Five records of the stable branch whose execution time is -100. *)
Definition store_of_negatives : Database :=
  store_metrics noon empty_database
    [sample "2024-05-20T10:00:00" (-100) "main";
     sample "2024-05-21T10:00:00" (-100) "main";
     sample "2024-05-22T10:00:00" (-100) "main";
     sample "2024-05-23T10:00:00" (-100) "main";
     sample "2024-05-24T10:00:00" (-100) "main"].

(** C4. On a baseline of mean zero the division of
    [_analyze_single_metric] raises [ZeroDivisionError];
    [analyze_current_metrics] does not catch it, so the record that follows
    in the batch is never analysed.  On a baseline of negative mean the
    record is not skipped either: the change percent is computed with the
    sign of the mean, and a current value below the mean raises a critical
    alert. *)
Theorem zero_baseline_mean_aborts_batch :
  _analyze_single_metric RegressionDetector_init noon store_of_zeros
    (sample "2024-06-01T12:00:00" 100 "feature/x") "fedcba9"
    = Raise ZeroDivisionError
  /\ analyze_current_metrics RegressionDetector_init noon store_of_zeros
       [sample "2024-06-01T12:00:00" 100 "feature/x";
        sample "2024-06-01T12:00:00" 300 "feature/x"] "fedcba9"
     = (Raise ZeroDivisionError, store_of_zeros)
  /\ (exists a,
        _analyze_single_metric RegressionDetector_init noon store_of_negatives
          (sample "2024-06-01T12:00:00" (-200) "feature/x") "fedcba9"
          = Ok (Some a)
        /\ RegressionAlert.baseline_value a = -100
        /\ RegressionAlert.change_percent a = 100
        /\ RegressionAlert.severity a = CRITICAL).
Proof.
  split; [vm_compute; reflexivity|].
  split; [vm_compute; reflexivity|].
  eexists. split; [vm_compute; reflexivity|].
  repeat split.
Qed.



(** ** The baseline query *)

(** The metrics held by the rows of [performance_metrics], in rowid order. *)
Definition stored_metrics (db : Database) : list PerformanceMetric.t :=
  map MetricRow.columns (performance_metrics db).

(** Newest first: each record is at least as recent as the next one. *)
Definition newer_or_equal (a b : PerformanceMetric.t) : Prop :=
  String.leb (PerformanceMetric.timestamp b) (PerformanceMetric.timestamp a) = true.

Definition row_newer_or_equal (a b : MetricRow.t) : Prop :=
  newer_or_equal (MetricRow.columns a) (MetricRow.columns b).

Lemma insert_desc_perm (row : MetricRow.t) (l : list MetricRow.t) :
  Permutation (insert_desc row l) (row :: l).
Proof.
  induction l as [|r rest IH]; simpl.
  - apply Permutation_refl.
  - destruct (String.leb (row_timestamp r) (row_timestamp row)).
    + apply Permutation_refl.
    + eapply perm_trans; [apply perm_skip; exact IH | apply perm_swap].
Qed.

Lemma order_by_timestamp_desc_perm (l : list MetricRow.t) :
  Permutation (order_by_timestamp_desc l) l.
Proof.
  induction l as [|r rest IH]; simpl.
  - apply perm_nil.
  - eapply perm_trans; [apply insert_desc_perm | apply perm_skip; exact IH].
Qed.

Lemma insert_desc_hd (a row : MetricRow.t) (l : list MetricRow.t) :
  row_newer_or_equal a row -> HdRel row_newer_or_equal a l ->
  HdRel row_newer_or_equal a (insert_desc row l).
Proof.
  intros Ha Hl. destruct l as [|r rest]; simpl.
  - constructor. exact Ha.
  - destruct (String.leb (row_timestamp r) (row_timestamp row)).
    + constructor. exact Ha.
    + constructor. inversion Hl; assumption.
Qed.

Lemma insert_desc_sorted (row : MetricRow.t) (l : list MetricRow.t) :
  Sorted row_newer_or_equal l -> Sorted row_newer_or_equal (insert_desc row l).
Proof.
  induction l as [|r rest IH]; simpl; intro Hs.
  - constructor; constructor.
  - destruct (String.leb (row_timestamp r) (row_timestamp row)) eqn:E.
    + constructor; [exact Hs|]. constructor. exact E.
    + inversion Hs as [|? ? Hrest Hhd]; subst.
      constructor; [apply IH; exact Hrest|].
      apply insert_desc_hd; [|exact Hhd].
      unfold row_newer_or_equal, newer_or_equal.
      destruct (String.leb_total (row_timestamp r) (row_timestamp row)) as [H|H];
        [unfold row_timestamp in *; congruence | exact H].
Qed.

Lemma order_by_timestamp_desc_sorted (l : list MetricRow.t) :
  Sorted row_newer_or_equal (order_by_timestamp_desc l).
Proof.
  induction l as [|r rest IH]; simpl.
  - constructor.
  - apply insert_desc_sorted. exact IH.
Qed.

Lemma Sorted_map_columns (l : list MetricRow.t) :
  Sorted row_newer_or_equal l -> Sorted newer_or_equal (map MetricRow.columns l).
Proof.
  induction 1 as [|r rest Hs IH Hhd]; simpl; constructor.
  - exact IH.
  - destruct Hhd; simpl; constructor. assumption.
Qed.

Lemma filter_map_columns (p : PerformanceMetric.t -> bool) (l : list MetricRow.t) :
  map MetricRow.columns (filter (fun row => p (MetricRow.columns row)) l)
  = filter p (map MetricRow.columns l).
Proof.
  induction l as [|r rest IH]; simpl; [reflexivity|].
  destruct (p (MetricRow.columns r)); simpl; rewrite IH; reflexivity.
Qed.

Lemma baseline_eligible_iff (benchmark_name platform cutoff : string)
    (c : PerformanceMetric.t) :
  baseline_eligible benchmark_name platform cutoff c = true <->
  PerformanceMetric.benchmark_name c = benchmark_name
  /\ PerformanceMetric.platform c = platform
  /\ String.ltb cutoff (PerformanceMetric.timestamp c) = true
  /\ PerformanceMetric.branch c = "main".
Proof.
  unfold baseline_eligible. rewrite !andb_true_iff, !String.eqb_eq. tauto.
Qed.

(** The result of [get_baseline_metrics] once the cutoff date is known:
    the eligible stored metrics, newest first. *)
Lemma get_baseline_metrics_spec (clk : Clock) (db : Database)
    (benchmark_name platform : string) (days_back : Z) (cutoff : string) :
  cutoff_date clk days_back = Ok cutoff ->
  exists baseline,
    get_baseline_metrics clk db benchmark_name platform days_back = Ok baseline
    /\ Permutation baseline
         (filter (baseline_eligible benchmark_name platform cutoff)
                 (stored_metrics db))
    /\ Sorted newer_or_equal baseline.
Proof.
  intro Hc. unfold get_baseline_metrics. rewrite Hc. cbn [bind].
  eexists. split; [reflexivity|]. split.
  - unfold baseline_rows, stored_metrics.
    rewrite <- filter_map_columns. apply Permutation_map.
    apply order_by_timestamp_desc_perm.
  - apply Sorted_map_columns. apply order_by_timestamp_desc_sorted.
Qed.

Lemma get_baseline_metrics_cutoff (clk : Clock) (db : Database)
    (benchmark_name platform : string) (days_back : Z)
    (baseline : list PerformanceMetric.t) :
  get_baseline_metrics clk db benchmark_name platform days_back = Ok baseline ->
  exists cutoff, cutoff_date clk days_back = Ok cutoff.
Proof.
  unfold get_baseline_metrics.
  destruct (cutoff_date clk days_back) as [c|e]; cbn [bind]; [|discriminate].
  intros _. exists c. reflexivity.
Qed.

Lemma stored_metrics_insert (clk : Clock) (db : Database) (m : PerformanceMetric.t) :
  stored_metrics (insert_metric clk db m)
  = (stored_metrics db ++ [stored_columns m])%list.
Proof.
  unfold stored_metrics, insert_metric. cbn [performance_metrics].
  rewrite map_app. reflexivity.
Qed.

(** [store_metrics] appends one row per metric of the batch and touches no
    other row. *)
Lemma stored_metrics_store (clk : Clock) (batch : list PerformanceMetric.t) :
  forall db,
    stored_metrics (store_metrics clk db batch)
    = (stored_metrics db ++ map stored_columns batch)%list.
Proof.
  unfold store_metrics.
  induction batch as [|m rest IH]; intro db; simpl.
  - rewrite app_nil_r. reflexivity.
  - rewrite IH, stored_metrics_insert, <- app_assoc. reflexivity.
Qed.

(** ** C6: what the baseline query returns *)

(** The query of the specification (section 4.1): the stable-branch records
    of the key whose timestamp lies in [[lower, upper)]. *)
Definition window_eligible (benchmark_name platform lower upper : string)
    (c : PerformanceMetric.t) : bool :=
  String.eqb (PerformanceMetric.benchmark_name c) benchmark_name
  && String.eqb (PerformanceMetric.platform c) platform
  && String.eqb (PerformanceMetric.branch c) "main"
  && String.leb lower (PerformanceMetric.timestamp c)
  && String.ltb (PerformanceMetric.timestamp c) upper.

(** C6 as stated, with the reference time [now] and the window
    [[now - days_back, now)]. *)
Definition baseline_query_is_window : Prop :=
  forall clk db benchmark_name platform days_back lower,
    cutoff_date clk days_back = Ok lower ->
    exists baseline,
      get_baseline_metrics clk db benchmark_name platform days_back
        = Ok baseline
      /\ Permutation baseline
           (filter (window_eligible benchmark_name platform lower
                      (isoformat (now clk)))
                   (stored_metrics db)).

(** A record stamped exactly thirty days before noon of 2024-06-01, and one
    stamped a second after that noon. *)
Definition store_at_window_ends : Database :=
  store_metrics noon empty_database
    [sample "2024-05-02T12:00:00" 100 "main";
     sample "2024-06-01T12:00:01" 100 "main"].

(** The code leaves out the record at the lower end of the window and
    returns the one past its upper end; the window of the specification holds
    the first and not the second. *)
Lemma baseline_query_is_not_window :
  cutoff_date noon 30 = Ok "2024-05-02T12:00:00"
  /\ get_baseline_metrics noon store_at_window_ends
       "WORLD_Analysis" "Ubuntu GCC" 30
     = Ok [sample "2024-06-01T12:00:01" 100 "main"]
  /\ filter (window_eligible "WORLD_Analysis" "Ubuntu GCC"
               "2024-05-02T12:00:00" (isoformat (now noon)))
            (stored_metrics store_at_window_ends)
     = [sample "2024-05-02T12:00:00" 100 "main"]
  /\ ~ baseline_query_is_window.
Proof.
  split; [vm_compute; reflexivity|].
  split; [vm_compute; reflexivity|].
  split; [vm_compute; reflexivity|].
  intro H.
  destruct (H noon store_at_window_ends "WORLD_Analysis" "Ubuntu GCC" 30%Z
              "2024-05-02T12:00:00" eq_refl) as [baseline [Hget Hperm]].
  vm_compute in Hget. injection Hget as <-.
  vm_compute in Hperm.
  apply Permutation_length_1 in Hperm. discriminate.
Qed.

(** C6 (amended). Given a representable cutoff date (the ISO text of
    [now - days_back]), the baseline query returns exactly the stored records
    of branch [main] with the given benchmark name and platform whose
    timestamp text is strictly greater than the cutoff - the lower bound is
    exclusive and there is no upper bound - ordered newest first; the result
    is empty when no record qualifies, and it never holds a record of branch
    [feature/x]. *)
Theorem baseline_query_contents (clk : Clock) (db : Database)
    (benchmark_name platform : string) (days_back : Z) (cutoff : string) :
  cutoff_date clk days_back = Ok cutoff ->
  exists baseline,
    get_baseline_metrics clk db benchmark_name platform days_back = Ok baseline
    /\ Permutation baseline
         (filter (baseline_eligible benchmark_name platform cutoff)
                 (stored_metrics db))
    /\ Sorted newer_or_equal baseline
    /\ (forall m, In m baseline <->
          In m (stored_metrics db)
          /\ PerformanceMetric.benchmark_name m = benchmark_name
          /\ PerformanceMetric.platform m = platform
          /\ String.ltb cutoff (PerformanceMetric.timestamp m) = true
          /\ PerformanceMetric.branch m = "main")
    /\ (forall m, In m baseline -> PerformanceMetric.branch m <> "feature/x")
    /\ ((forall m, In m (stored_metrics db) ->
           baseline_eligible benchmark_name platform cutoff m = false) ->
        baseline = []).
Proof.
  intro Hc.
  destruct (get_baseline_metrics_spec clk db benchmark_name platform days_back Hc)
    as [baseline [Hget [Hperm Hsorted]]].
  exists baseline.
  assert (Hin : forall m, In m baseline <->
            In m (stored_metrics db)
            /\ PerformanceMetric.benchmark_name m = benchmark_name
            /\ PerformanceMetric.platform m = platform
            /\ String.ltb cutoff (PerformanceMetric.timestamp m) = true
            /\ PerformanceMetric.branch m = "main").
  { intro m. rewrite <- baseline_eligible_iff, <- filter_In.
    split; intro H.
    - eapply Permutation_in; [exact Hperm | exact H].
    - eapply Permutation_in; [apply Permutation_sym; exact Hperm | exact H]. }
  split; [exact Hget|]. split; [exact Hperm|]. split; [exact Hsorted|].
  split; [exact Hin|]. split.
  - intros m Hm Hf. apply Hin in Hm. destruct Hm as (_ & _ & _ & _ & Hb).
    rewrite Hb in Hf. discriminate.
  - intro Hnone.
    destruct baseline as [|m rest]; [reflexivity|].
    assert (Hm : In m (m :: rest)) by (left; reflexivity).
    apply Hin in Hm. destruct Hm as [Hs He].
    apply baseline_eligible_iff in He. rewrite (Hnone m Hs) in He. discriminate.
Qed.

(** A record of branch [feature/x] that is the newest and only record of its
    key: the query returns nothing. *)
Definition store_of_feature_branch : Database :=
  store_metrics noon empty_database [sample "2024-06-01T11:00:00" 100 "feature/x"].

Lemma baseline_query_contents_witness :
  get_baseline_metrics noon store_of_feature_branch
    "WORLD_Analysis" "Ubuntu GCC" 30 = Ok [].
Proof.
  destruct (@baseline_query_contents noon store_of_feature_branch
              "WORLD_Analysis" "Ubuntu GCC" 30%Z "2024-05-02T12:00:00" eq_refl)
    as [baseline [Hget [_ [_ [_ [_ Hempty]]]]]].
  rewrite Hget. f_equal. apply Hempty.
  intros m [<-|[]]. vm_compute. reflexivity.
Defined.

(** ** C5: which records an analyzer invocation compares against *)

Lemma baseline_eligible_stored_columns (benchmark_name platform cutoff : string)
    (m : PerformanceMetric.t) :
  baseline_eligible benchmark_name platform cutoff (stored_columns m)
  = baseline_eligible benchmark_name platform cutoff m.
Proof. reflexivity. Qed.

(** C5 as stated, for the store [main] hands to the analyzer (the batch is
    stored before it is analysed): every baseline record of a record [m] of
    the batch is of branch [main] and precedes [m]. *)
Definition no_look_ahead : Prop :=
  forall clk db batch m baseline,
    In m batch ->
    get_baseline_metrics clk (store_metrics clk db batch)
      (PerformanceMetric.benchmark_name m) (PerformanceMetric.platform m) 30
      = Ok baseline ->
    forall b, In b baseline ->
      PerformanceMetric.branch b = "main"
      /\ String.ltb (PerformanceMetric.timestamp b)
                    (PerformanceMetric.timestamp m) = true.

(** A result file with one benchmark, read at noon with no CI variables set
    (so that the branch is [main]). *)
Definition current_files : list (string * file_contents) :=
  [("results/Ubuntu_GCC/benchmark_results_current.json",
    BenchmarkList
      [Benchmark.mk (Some true) (Some "WORLD_Analysis") (Some 300)
         (Some 0) (Some 0) None])].

Definition current_record : PerformanceMetric.t :=
  PerformanceMetric.mk "WORLD_Analysis" "Ubuntu GCC" 300 0 0
    "2024-06-01T12:00:00" "unknown" "main" None None.

(** C5. [main] stores the batch before it analyses it, and the baseline
    query has no bound on the side of the current record, so the analysis of
    a record of branch [main] finds the record itself in its baseline - not
    the historical baseline the docstrings speak of.  With four records of
    history, the run of [main] compares the current record against five:
    itself and the four.  The sample-size gate, which holds on the history,
    is passed; the mean is 140 instead of 100; and a critical alert comes
    out of a baseline that had too few records. *)
Theorem current_record_is_in_its_baseline :
  load_benchmark_results [] noon current_files = [current_record]
  /\ get_baseline_metrics noon (store_metrics noon store_of_four [current_record])
       "WORLD_Analysis" "Ubuntu GCC" 30
     = Ok (current_record :: rev four_of_may)
  /\ _analyze_single_metric RegressionDetector_init noon store_of_four
       current_record "fedcba9" = Ok None
  /\ (exists a db',
        main [] noon (Some current_files) "fedcba9" store_of_four
          = (Ok (0%Z, [a]), db')
        /\ RegressionAlert.severity a = CRITICAL
        /\ RegressionAlert.baseline_value a = 140)
  /\ ~ no_look_ahead.
Proof.
  split; [vm_compute; reflexivity|].
  split; [vm_compute; reflexivity|].
  split; [vm_compute; reflexivity|].
  split.
  - eexists. eexists. split; [vm_compute; reflexivity|].
    split; reflexivity.
  - intro H.
    assert (Hin : In current_record [current_record]) by (left; reflexivity).
    destruct (H noon store_of_four [current_record] current_record
                (current_record :: rev four_of_may) Hin eq_refl
                current_record (or_introl eq_refl)) as [_ Hlt].
    vm_compute in Hlt. discriminate.
Qed.

(** X21. Whatever the store held, once a batch is stored the baseline
    query returns records of branch [main], of the requested benchmark name
    and platform and strictly later than the cutoff [now - days_back] only,
    and it returns every record of the batch of that kind: the query has no
    bound on the side of the record under analysis, so a record of the
    batch that was stored first is compared against itself. *)
Theorem baseline_of_stored_batch (clk clk' : Clock) (db : Database)
    (batch : list PerformanceMetric.t) (benchmark_name platform : string)
    (days_back : Z) (baseline : list PerformanceMetric.t) :
  get_baseline_metrics clk (store_metrics clk' db batch)
    benchmark_name platform days_back = Ok baseline ->
  exists cutoff,
    cutoff_date clk days_back = Ok cutoff
    /\ (forall b, In b baseline ->
          PerformanceMetric.branch b = "main"
          /\ PerformanceMetric.benchmark_name b = benchmark_name
          /\ PerformanceMetric.platform b = platform
          /\ String.ltb cutoff (PerformanceMetric.timestamp b) = true)
    /\ (forall m, In m batch ->
          baseline_eligible benchmark_name platform cutoff m = true ->
          In (stored_columns m) baseline).
Proof.
  intro Hget.
  destruct (get_baseline_metrics_cutoff _ _ _ _ _ Hget) as [cutoff Hc].
  exists cutoff. split; [exact Hc|].
  destruct (get_baseline_metrics_spec clk (store_metrics clk' db batch)
              benchmark_name platform days_back Hc)
    as [baseline' [Hget' [Hperm _]]].
  rewrite Hget in Hget'. injection Hget' as <-.
  split.
  - intros b Hb.
    apply (Permutation_in _ Hperm) in Hb. apply filter_In in Hb.
    destruct Hb as [_ He]. apply baseline_eligible_iff in He. tauto.
  - intros m Hm He.
    apply (Permutation_in _ (Permutation_sym Hperm)).
    apply filter_In. split.
    + rewrite stored_metrics_store. apply in_or_app. right.
      apply in_map. exact Hm.
    + rewrite baseline_eligible_stored_columns. exact He.
Qed.

(** The run of [main] on four records of history and one current record. *)
Lemma baseline_of_stored_batch_witness :
  exists cutoff,
    cutoff_date noon 30 = Ok cutoff
    /\ (forall b, In b (current_record :: rev four_of_may) ->
          PerformanceMetric.branch b = "main"
          /\ PerformanceMetric.benchmark_name b = "WORLD_Analysis"
          /\ PerformanceMetric.platform b = "Ubuntu GCC"
          /\ String.ltb cutoff (PerformanceMetric.timestamp b) = true)
    /\ (forall m, In m [current_record] ->
          baseline_eligible "WORLD_Analysis" "Ubuntu GCC" cutoff m = true ->
          In (stored_columns m) (current_record :: rev four_of_may)).
Proof.
  exact (@baseline_of_stored_batch noon noon store_of_four [current_record]
           "WORLD_Analysis" "Ubuntu GCC" 30%Z
           (current_record :: rev four_of_may) eq_refl).
Defined.

(** ** C7: no deduplication *)



(** ** C8: retention *)

Import UPB.

Lemma filter_none_old {A : Type} (old : A -> bool) (l : list A) :
  filter old l = [] -> filter (fun x => negb (old x)) l = l.
Proof.
  induction l as [|x rest IH]; simpl; [reflexivity|].
  destruct (old x); simpl; [discriminate|].
  intro H. rewrite (IH H). reflexivity.
Qed.

Lemma filter_all_old {A : Type} (old : A -> bool) (l : list A) :
  (forall x, In x l -> old x = true) -> filter (fun x => negb (old x)) l = [].
Proof.
  induction l as [|x rest IH]; simpl; intro H; [reflexivity|].
  rewrite (H x (or_introl eq_refl)). simpl.
  apply IH. intros y Hy. apply H. right. exact Hy.
Qed.

Lemma filter_split_length {A : Type} (old : A -> bool) (l : list A) :
  List.length l
  = (List.length (filter old l)
     + List.length (filter (fun x => negb (old x)) l))%nat.
Proof.
  induction l as [|x rest IH]; simpl; [reflexivity|].
  destruct (old x); simpl; lia.
Qed.

(** C8 as stated: the call returns the number of rows it removed, and with a
    horizon of zero days it leaves both tables empty. *)
Definition prune_returns_count : Prop :=
  forall clk db retain_days,
    exists out db',
      cleanup_old_data clk db retain_days
        = (Ok (PyInt (Z.of_nat (List.length (performance_metrics db)
                                + List.length (regression_alerts db))
                      - Z.of_nat (List.length (performance_metrics db')
                                  + List.length (regression_alerts db'))),
               out), db')
      /\ (retain_days = 0%Z ->
          performance_metrics db' = [] /\ regression_alerts db' = []).

(** One record of January 2023. *)
Definition store_of_last_year : Database :=
  store_metrics noon empty_database [sample "2023-01-01T00:00:00" 100 "main"].

(** Eight in the evening of 2024-06-01 on a host five hours behind UTC, and
    the same host an hour later. *)
Definition evening : Clock :=
  mk_Clock (mk_datetime 2024 6 1 20 0 0 0) (mk_datetime 2024 6 2 1 0 0 0).

Definition evening_later : Clock :=
  mk_Clock (mk_datetime 2024 6 1 21 0 0 0) (mk_datetime 2024 6 2 2 0 0 0).

Definition an_alert : RegressionAlert.t :=
  RegressionAlert.mk "WORLD_Analysis" "Ubuntu GCC" MAJOR 135 100 35
    "2024-06-01T20:00:00" "fedcba9" P_one "Immediate investigation required".

Definition store_with_alert : Database :=
  store_alert evening empty_database an_alert.

(** The call that removes the one old record returns [None], not 1; and a
    horizon of zero days keeps an alert created an hour earlier, because its
    [created_at] is UTC text with a blank where the cutoff is local text
    with a [T]. *)
Lemma cleanup_returns_none_and_keeps_rows :
  cleanup_old_data noon store_of_last_year 365
    = (Ok (PyNone, [Cleaning_up 365; Removed 1 0]),
       mk_Database [] [] 1 0)
  /\ map AlertRow.created_at (regression_alerts store_with_alert)
     = ["2024-06-02 01:00:00"]
  /\ cleanup_old_data evening_later store_with_alert 0
     = (Ok (PyNone, [Cleaning_up 0; No_old_data]), store_with_alert)
  /\ ~ prune_returns_count.
Proof.
  split; [vm_compute; reflexivity|].
  split; [vm_compute; reflexivity|].
  split; [vm_compute; reflexivity|].
  intro H. destruct (H noon store_of_last_year 365%Z) as [out [db' [Hc _]]].
  vm_compute in Hc. discriminate.
Qed.

(** C8 (amended). [cleanup_old_data(retain_days)] computes the cutoff text
    of [now - retain_days] and deletes exactly the rows of
    [performance_metrics] whose [timestamp] text, and the rows of
    [regression_alerts] whose [created_at] text, compare strictly below it;
    it prints the two counts of rows removed (or that there is nothing to
    clean) and returns [None].  When every row compares below the cutoff both
    tables end empty; when none does the database is unchanged.  When the
    cutoff is not a representable date the call raises before it deletes
    anything. *)
Theorem cleanup_old_data_effect (clk : Clock) (db : Database) (retain_days : Z) :
  match cutoff_date clk retain_days with
  | Raise e => cleanup_old_data clk db retain_days = (Raise e, db)
  | Ok cutoff =>
      let old_metrics := filter (metric_is_old cutoff) (performance_metrics db) in
      let old_alerts := filter (alert_is_old cutoff) (regression_alerts db) in
      exists out db',
        cleanup_old_data clk db retain_days = (Ok (PyNone, out), db')
        /\ performance_metrics db'
           = filter (fun row => negb (metric_is_old cutoff row))
                    (performance_metrics db)
        /\ regression_alerts db'
           = filter (fun row => negb (alert_is_old cutoff row))
                    (regression_alerts db)
        /\ (List.length (performance_metrics db)
            = List.length old_metrics + List.length (performance_metrics db'))%nat
        /\ (List.length (regression_alerts db)
            = List.length old_alerts + List.length (regression_alerts db'))%nat
        /\ (out = [Cleaning_up retain_days;
                   Removed (List.length old_metrics) (List.length old_alerts)]
            \/ (out = [Cleaning_up retain_days; No_old_data]
                /\ old_metrics = [] /\ old_alerts = [] /\ db' = db))
        /\ ((forall row, In row (performance_metrics db) ->
               metric_is_old cutoff row = true) ->
            (forall row, In row (regression_alerts db) ->
               alert_is_old cutoff row = true) ->
            performance_metrics db' = [] /\ regression_alerts db' = [])
  end.
Proof.
  unfold cleanup_old_data.
  destruct (cutoff_date clk retain_days) as [cutoff|e]; [|reflexivity].
  cbv zeta.
  set (old_metrics := filter (metric_is_old cutoff) (performance_metrics db)).
  set (old_alerts := filter (alert_is_old cutoff) (regression_alerts db)).
  destruct ((0 <? List.length old_metrics)%nat || (0 <? List.length old_alerts)%nat)
    eqn:E.
  - eexists. eexists. split; [reflexivity|]. cbn [delete_old performance_metrics regression_alerts].
    split; [reflexivity|]. split; [reflexivity|].
    split; [apply filter_split_length|]. split; [apply filter_split_length|].
    split; [left; reflexivity|].
    intros Hm Ha. split; apply filter_all_old; assumption.
  - apply orb_false_iff in E. destruct E as [Em Ea].
    apply Nat.ltb_ge in Em. apply Nat.ltb_ge in Ea.
    assert (Hm : old_metrics = []) by (destruct old_metrics; [reflexivity|simpl in Em; lia]).
    assert (Ha : old_alerts = []) by (destruct old_alerts; [reflexivity|simpl in Ea; lia]).
    exists [Cleaning_up retain_days; No_old_data], db.
    split; [reflexivity|].
    split; [symmetry; apply filter_none_old; exact Hm|].
    split; [symmetry; apply filter_none_old; exact Ha|].
    split; [rewrite Hm; reflexivity|]. split; [rewrite Ha; reflexivity|].
    split; [right; repeat split; assumption|].
    intros Hm' Ha'. split.
    + rewrite <- (filter_none_old _ _ Hm). apply filter_all_old. exact Hm'.
    + rewrite <- (filter_none_old _ _ Ha). apply filter_all_old. exact Ha'.
Qed.

(** The horizons at the two ends: zero days removes a record stamped before
    now; no [retain_days] stands for an unbounded horizon - a horizon that
    reaches before year 1 raises [OverflowError], one that stays within the
    calendar and before every record removes nothing. *)
Example cleanup_at_the_extremes :
  cleanup_old_data noon store_of_last_year 0
    = (Ok (PyNone, [Cleaning_up 0; Removed 1 0]), mk_Database [] [] 1 0)
  /\ cleanup_old_data noon store_of_last_year 1000000000
     = (Raise OverflowError, store_of_last_year)
  /\ cleanup_old_data noon store_of_last_year 739038
     = (Raise OverflowError, store_of_last_year)
  /\ cleanup_old_data noon store_of_last_year 730000
     = (Ok (PyNone, [Cleaning_up 730000; No_old_data]), store_of_last_year).
Proof. repeat split; vm_compute; reflexivity. Qed.

(** ** C9: records with a non-positive execution time *)

(** A result file whose first benchmark has no [avg_execution_time_ns] and
    whose second reports a negative one. *)
Definition files_with_invalid_times : list (string * file_contents) :=
  [("results/Ubuntu_GCC/benchmark_results_current.json",
    BenchmarkList
      [Benchmark.mk (Some true) (Some "WORLD_Analysis") None
         (Some 0) (Some 0) None;
       Benchmark.mk (Some true) (Some "HMM_Training") (Some (-5))
         (Some 0) (Some 0) None])].

(** C9. The loader turns both benchmarks into records, with execution times
    0 and -5, and [main] stores both: nothing between the file and the table
    looks at the value. *)
Theorem nonpositive_times_are_stored :
  map PerformanceMetric.execution_time_ns
    (load_benchmark_results [] noon files_with_invalid_times) = [0; -5]
  /\ (exists db',
        main [] noon (Some files_with_invalid_times) "fedcba9" empty_database
          = (Ok (0%Z, []), db')
        /\ map (fun m => (PerformanceMetric.benchmark_name m,
                          PerformanceMetric.execution_time_ns m))
               (stored_metrics db')
           = [("WORLD_Analysis", 0); ("HMM_Training", -5)]).
Proof.
  split; [vm_compute; reflexivity|].
  eexists. split; vm_compute; reflexivity.
Qed.

(** ** C10: the split-sample detector *)

Lemma extract_timing_data_cons (it : RD.item) (rest : list RD.item)
    (acc : list float) :
  RD.extract_timing_data (it :: rest) acc
  = (avg_time <-
       RD._safe_get_numeric it ["avg_execution_time_ns"; "avg_execution_time"] ;;
     if fgt avg_time 0
     then RD.extract_timing_data rest (acc ++ [avg_time])%list
     else RD.extract_timing_data rest acc).
Proof. reflexivity. Qed.





Lemma truediv_positive (x y : float) :
  fgt y 0 = true -> truediv x y = Ok (SFdiv 53 1024 x y).
Proof.
  unfold truediv. destruct y; simpl; try reflexivity.
  intro H. discriminate H.
Qed.

Lemma truediv_million (x : float) :
  truediv x (float_of_Q 1000000) = Ok (SFdiv 53 1024 x (float_of_Q 1000000)).
Proof. reflexivity. Qed.









(* ===================================================================== *)
(** * Further properties of the scripts *)
(* ===================================================================== *)

(** ** analyze_current_metrics *)

(** The analysis of a record reads the metrics table only. *)
Lemma analyze_reads_metrics_only (self : RegressionDetector) (clk : Clock)
    (db db' : Database) (m : PerformanceMetric.t) (commit_hash : string) :
  performance_metrics db' = performance_metrics db ->
  _analyze_single_metric self clk db' m commit_hash
  = _analyze_single_metric self clk db m commit_hash.
Proof.
  intro H. unfold _analyze_single_metric, get_baseline_metrics, baseline_rows.
  rewrite H. reflexivity.
Qed.

(** The alert, if any, that the analysis of one record against [db] gives. *)
Definition alert_for (self : RegressionDetector) (clk : Clock) (db : Database)
    (commit_hash : string) (m : PerformanceMetric.t) : list RegressionAlert.t :=
  match _analyze_single_metric self clk db m commit_hash with
  | Ok (Some a) => [a]
  | _ => []
  end.

(** The database after the alerts [stored] were inserted one by one. *)
Definition with_alerts (clk : Clock) (db : Database)
    (stored : list RegressionAlert.t) : Database :=
  fold_left (store_alert clk) stored db.

Lemma with_alerts_metrics (clk : Clock) (stored : list RegressionAlert.t) :
  forall db, performance_metrics (with_alerts clk db stored) = performance_metrics db.
Proof.
  unfold with_alerts. induction stored as [|a rest IH]; intro db; simpl.
  - reflexivity.
  - rewrite IH. reflexivity.
Qed.

Lemma with_alerts_app (clk : Clock) (db : Database)
    (l1 l2 : list RegressionAlert.t) :
  with_alerts clk db (l1 ++ l2) = with_alerts clk (with_alerts clk db l1) l2.
Proof. unfold with_alerts. apply fold_left_app. Qed.

Lemma with_alerts_rows (clk : Clock) (stored : list RegressionAlert.t) :
  forall db,
    map AlertRow.columns (regression_alerts (with_alerts clk db stored))
    = (map AlertRow.columns (regression_alerts db) ++ stored)%list.
Proof.
  unfold with_alerts. induction stored as [|a rest IH]; intro db; simpl.
  - rewrite app_nil_r. reflexivity.
  - rewrite IH. cbn [store_alert regression_alerts].
    rewrite map_app, <- app_assoc. reflexivity.
Qed.

(** The state of the loop of [analyze_current_metrics] after any prefix of
    the batch: the alerts collected are the alerts stored. *)
Lemma analyze_loop_spec (self : RegressionDetector) (clk : Clock)
    (commit_hash : string) (db0 : Database) (batch : list PerformanceMetric.t) :
  forall alerts,
    exists stored,
      snd (analyze_loop self clk commit_hash batch
             (with_alerts clk db0 alerts) alerts)
      = with_alerts clk db0 (alerts ++ stored)
      /\ (forall result,
            fst (analyze_loop self clk commit_hash batch
                   (with_alerts clk db0 alerts) alerts) = Ok result ->
            result = (alerts ++ stored)%list
            /\ stored = flat_map (alert_for self clk db0 commit_hash) batch)
      /\ ((forall m, In m batch ->
             exists r, _analyze_single_metric self clk db0 m commit_hash = Ok r) ->
          fst (analyze_loop self clk commit_hash batch
                 (with_alerts clk db0 alerts) alerts)
          = Ok (alerts ++ flat_map (alert_for self clk db0 commit_hash) batch)%list).
Proof.
  induction batch as [|m rest IH]; intro alerts.
  - exists []. simpl. rewrite app_nil_r.
    split; [reflexivity|]. split; [|reflexivity].
    intros result H. injection H as <-. split; reflexivity.
  - cbn [analyze_loop].
    rewrite (@analyze_reads_metrics_only self clk db0
               (with_alerts clk db0 alerts) m commit_hash
               (with_alerts_metrics clk alerts db0)).
    cbn [flat_map].
    destruct (_analyze_single_metric self clk db0 m commit_hash)
      as [[a|]|e] eqn:E.
    + assert (Hfor : alert_for self clk db0 commit_hash m = [a])
        by (unfold alert_for; rewrite E; reflexivity).
      rewrite Hfor.
      destruct (analyze_alert_severity _ _ _ _ _ E) as [_ Hn].
      assert (Hs : severity_eqb (RegressionAlert.severity a) NONE = false).
      { destruct (severity_eqb (RegressionAlert.severity a) NONE) eqn:Es;
          [apply severity_eqb_NONE in Es; contradiction | reflexivity]. }
      rewrite Hs. cbn [negb].
      replace (store_alert clk (with_alerts clk db0 alerts) a)
        with (with_alerts clk db0 (alerts ++ [a]))
        by (rewrite with_alerts_app; reflexivity).
      destruct (IH (alerts ++ [a])%list) as [stored [Hdb [Hres Hall]]].
      exists (a :: stored).
      replace (alerts ++ a :: stored)%list with ((alerts ++ [a]) ++ stored)%list
        by (rewrite <- app_assoc; reflexivity).
      split; [exact Hdb|]. split.
      * intros result H. destruct (Hres result H) as [H1 H2].
        split; [exact H1|]. simpl. rewrite H2. reflexivity.
      * intro Hok. rewrite Hall.
        -- rewrite <- app_assoc. reflexivity.
        -- intros m' Hm'. apply Hok. right. exact Hm'.
    + assert (Hfor : alert_for self clk db0 commit_hash m = [])
        by (unfold alert_for; rewrite E; reflexivity).
      rewrite Hfor.
      destruct (IH alerts) as [stored [Hdb [Hres Hall]]].
      exists stored. split; [exact Hdb|]. split.
      * intros result H. destruct (Hres result H) as [H1 H2].
        split; [exact H1|]. simpl. exact H2.
      * intro Hok. rewrite Hall; [reflexivity|].
        intros m' Hm'. apply Hok. right. exact Hm'.
    + exists []. cbn [fst snd]. rewrite app_nil_r.
      split; [reflexivity|]. split.
      * intros result H. discriminate.
      * intro Hok. destruct (Hok m (or_introl eq_refl)) as [r Hr].
        rewrite E in Hr. discriminate.
Qed.

(** X1. Whatever [analyze_current_metrics] does - return or raise - it
    leaves the metrics table as it found it and only appends to the alerts
    table; when it returns, the rows appended are exactly the alerts
    returned, in the same order. *)
Theorem analysis_persists_what_it_returns (self : RegressionDetector)
    (clk : Clock) (db : Database) (batch : list PerformanceMetric.t)
    (commit_hash : string) :
  let run := analyze_current_metrics self clk db batch commit_hash in
  performance_metrics (snd run) = performance_metrics db
  /\ metrics_seq (snd run) = metrics_seq db
  /\ (exists stored,
        map AlertRow.columns (regression_alerts (snd run))
        = (map AlertRow.columns (regression_alerts db) ++ stored)%list
        /\ forall alerts, fst run = Ok alerts -> alerts = stored).
Proof.
  cbv zeta. unfold analyze_current_metrics.
  destruct (analyze_loop_spec self clk commit_hash db batch [])
    as [stored [Hdb [Hres _]]].
  change (with_alerts clk db []) with db in *. simpl app in *.
  rewrite Hdb. split; [apply with_alerts_metrics|]. split.
  - clear. revert db. unfold with_alerts.
    induction stored as [|a rest IH]; intro db; simpl; [reflexivity|].
    rewrite IH. reflexivity.
  - exists stored. split; [apply with_alerts_rows|].
    intros alerts H. destruct (Hres alerts H) as [H1 _]. exact H1.
Qed.

(** X2. When no record of the batch makes the analysis raise,
    [analyze_current_metrics] returns, in batch order, the alert of each
    record analysed against the store as it was before the call: the alerts
    stored on the way do not change the analysis of later records. *)
Theorem analysis_is_record_by_record (self : RegressionDetector)
    (clk : Clock) (db : Database) (batch : list PerformanceMetric.t)
    (commit_hash : string) :
  (forall m, In m batch ->
     exists r, _analyze_single_metric self clk db m commit_hash = Ok r) ->
  analyze_current_metrics self clk db batch commit_hash
  = (Ok (flat_map (alert_for self clk db commit_hash) batch),
     with_alerts clk db (flat_map (alert_for self clk db commit_hash) batch)).
Proof.
  intro Hok. unfold analyze_current_metrics.
  destruct (analyze_loop_spec self clk commit_hash db batch [])
    as [stored [Hdb [Hres Hall]]].
  change (with_alerts clk db []) with db in *. simpl app in *.
  specialize (Hall Hok).
  destruct (Hres _ Hall) as [_ Hst].
  destruct (analyze_loop self clk commit_hash batch db []) as [r d].
  cbn [fst snd] in *. subst. reflexivity.
Qed.

(** A degradation of 40 percent and an improvement, against five records
    at 100: one major alert, stored. *)
Lemma analysis_is_record_by_record_witness :
  exists a,
    analyze_current_metrics RegressionDetector_init noon store_of_five
      [sample "2024-06-01T12:00:00" 140 "feature/x";
       sample "2024-06-01T12:00:00" 40 "feature/x"] "fedcba9"
    = (Ok [a], with_alerts noon store_of_five [a])
    /\ RegressionAlert.severity a = MAJOR
    /\ RegressionAlert.change_percent a = 40.
Proof.
  eexists. split.
  - rewrite analysis_is_record_by_record.
    + vm_compute. reflexivity.
    + intros m [<-|[<-|[]]]; eexists; vm_compute; reflexivity.
  - split; reflexivity.
Defined.

(** ** The severity scale of the analyzer *)

(** The tiers in their order. *)
Definition rank (s : RegressionSeverity) : nat :=
  match s with
  | NONE => 0
  | MINOR => 1
  | MODERATE => 2
  | MAJOR => 3
  | CRITICAL => 4
  end.

(** X3. Whatever thresholds the detector holds, a larger change percent
    never gets a lower tier: the cascade of [>=] tests from the highest tier
    down is monotone even when the thresholds themselves are out of order. *)
Theorem severity_is_monotone (self : RegressionDetector) (x y : Q) :
  x <= y ->
  (rank (PRD._calculate_severity self x)
   <= rank (PRD._calculate_severity self y))%nat.
Proof.
  intro Hxy. unfold PRD._calculate_severity.
  destruct (Qle_bool x 0) eqn:Ex; [simpl; lia|].
  apply Qle_bool_false in Ex.
  assert (Hy : 0 < y) by lra.
  destruct (Qle_bool y 0) eqn:Ey;
    [apply Qle_bool_iff in Ey; exfalso; lra|].
  pose proof (Qabs_of_pos Ex) as Hax. pose proof (Qabs_of_pos Hy) as Hay.
  set (t := thresholds self).
  destruct (Qle_bool (threshold_CRITICAL t) (Qabs y)) eqn:C4;
    [destruct (Qle_bool (threshold_CRITICAL t) (Qabs x)),
              (Qle_bool (threshold_MAJOR t) (Qabs x)),
              (Qle_bool (threshold_MODERATE t) (Qabs x)),
              (Qle_bool (threshold_MINOR t) (Qabs x)); simpl; lia|].
  apply Qle_bool_false in C4.
  destruct (Qle_bool (threshold_CRITICAL t) (Qabs x)) eqn:D4;
    [apply Qle_bool_iff in D4; exfalso; lra|].
  destruct (Qle_bool (threshold_MAJOR t) (Qabs y)) eqn:C3;
    [destruct (Qle_bool (threshold_MAJOR t) (Qabs x)),
              (Qle_bool (threshold_MODERATE t) (Qabs x)),
              (Qle_bool (threshold_MINOR t) (Qabs x)); simpl; lia|].
  apply Qle_bool_false in C3.
  destruct (Qle_bool (threshold_MAJOR t) (Qabs x)) eqn:D3;
    [apply Qle_bool_iff in D3; exfalso; lra|].
  destruct (Qle_bool (threshold_MODERATE t) (Qabs y)) eqn:C2;
    [destruct (Qle_bool (threshold_MODERATE t) (Qabs x)),
              (Qle_bool (threshold_MINOR t) (Qabs x)); simpl; lia|].
  apply Qle_bool_false in C2.
  destruct (Qle_bool (threshold_MODERATE t) (Qabs x)) eqn:D2;
    [apply Qle_bool_iff in D2; exfalso; lra|].
  destruct (Qle_bool (threshold_MINOR t) (Qabs y)) eqn:C1;
    [destruct (Qle_bool (threshold_MINOR t) (Qabs x)); simpl; lia|].
  apply Qle_bool_false in C1.
  destruct (Qle_bool (threshold_MINOR t) (Qabs x)) eqn:D1;
    [apply Qle_bool_iff in D1; exfalso; lra|].
  simpl. lia.
Qed.

(** Thresholds out of order: 50 for minor, 5 for critical. *)
Lemma severity_is_monotone_witness :
  let odd := mk_RegressionDetector (mk_Thresholds 50 25 15 5) (5 # 100) 5 in
  (rank (PRD._calculate_severity odd 3) <= rank (PRD._calculate_severity odd 7))%nat
  /\ PRD._calculate_severity odd 3 = NONE
  /\ PRD._calculate_severity odd 7 = CRITICAL.
Proof.
  intro odd. split.
  - apply (@severity_is_monotone odd 3 7). vm_compute. discriminate.
  - split; reflexivity.
Defined.

(** ** Databases the scripts can produce *)

(** The databases reached from a fresh file by the writing operations of
    the scripts. *)
Inductive reachable : Database -> Prop :=
| reachable_empty : reachable empty_database
| reachable_store_metrics clk db batch :
    reachable db -> reachable (store_metrics clk db batch)
| reachable_store_alert clk db alert :
    reachable db -> reachable (store_alert clk db alert)
| reachable_cleanup clk db retain_days :
    reachable db -> reachable (snd (cleanup_old_data clk db retain_days)).

Definition ids_in_order (ids : list Z) (seq : Z) : Prop :=
  StronglySorted Z.lt ids /\ Forall (fun i => (0 < i <= seq)%Z) ids.

Lemma ids_in_order_append (ids : list Z) (seq : Z) :
  (0 <= seq)%Z -> ids_in_order ids seq ->
  ids_in_order (ids ++ [(seq + 1)%Z]) (seq + 1).
Proof.
  intros Hseq [Hs Hf]. split.
  - clear Hseq. induction ids as [|i rest IH]; simpl.
    + constructor; constructor.
    + inversion Hs as [|? ? Hs' Hall]; subst.
      inversion Hf as [|? ? Hi Hf']; subst.
      constructor; [apply IH; assumption|].
      apply Forall_app. split; [exact Hall|].
      constructor; [lia | constructor].
  - apply Forall_app. split.
    + eapply Forall_impl; [|exact Hf]. simpl. intros. lia.
    + constructor; [lia | constructor].
Qed.

Lemma StronglySorted_filter_map {A : Type} (f : A -> Z) (keep : A -> bool)
    (l : list A) :
  StronglySorted Z.lt (map f l) -> StronglySorted Z.lt (map f (filter keep l)).
Proof.
  induction l as [|x rest IH]; simpl; intro H; [constructor|].
  inversion H as [|? ? Hs Hall]; subst.
  destruct (keep x); simpl; [|apply IH; exact Hs].
  constructor; [apply IH; exact Hs|].
  rewrite Forall_forall in *. intros y Hy.
  apply in_map_iff in Hy. destruct Hy as [z [<- Hz]].
  apply filter_In in Hz. apply Hall. apply in_map. tauto.
Qed.

Lemma ids_in_order_filter {A : Type} (f : A -> Z) (keep : A -> bool)
    (l : list A) (seq : Z) :
  ids_in_order (map f l) seq -> ids_in_order (map f (filter keep l)) seq.
Proof.
  intros [Hs Hf]. split; [apply StronglySorted_filter_map; exact Hs|].
  rewrite Forall_forall in *. intros y Hy.
  apply in_map_iff in Hy. destruct Hy as [z [<- Hz]].
  apply filter_In in Hz. apply Hf. apply in_map. tauto.
Qed.

(** What every reachable database satisfies. *)
Definition well_formed (db : Database) : Prop :=
  (0 <= metrics_seq db)%Z /\ (0 <= alerts_seq db)%Z
  /\ ids_in_order (map MetricRow.id (performance_metrics db)) (metrics_seq db)
  /\ ids_in_order (map AlertRow.id (regression_alerts db)) (alerts_seq db)
  /\ Forall (fun row => AlertRow.resolved row = false) (regression_alerts db).

Lemma well_formed_insert_metric (clk : Clock) (db : Database)
    (m : PerformanceMetric.t) :
  well_formed db -> well_formed (insert_metric clk db m).
Proof.
  intros (Hm & Ha & Him & Hia & Hr). unfold well_formed, insert_metric.
  cbn [metrics_seq alerts_seq performance_metrics regression_alerts].
  split; [lia|]. split; [exact Ha|].
  split; [rewrite map_app; apply (ids_in_order_append Hm Him)|].
  split; [exact Hia | exact Hr].
Qed.

Lemma well_formed_store_metrics (clk : Clock) (batch : list PerformanceMetric.t) :
  forall db, well_formed db -> well_formed (store_metrics clk db batch).
Proof.
  unfold store_metrics. induction batch as [|m rest IH]; intros db H; simpl.
  - exact H.
  - apply IH. apply well_formed_insert_metric. exact H.
Qed.

Lemma well_formed_store_alert (clk : Clock) (db : Database)
    (a : RegressionAlert.t) :
  well_formed db -> well_formed (store_alert clk db a).
Proof.
  intros (Hm & Ha & Him & Hia & Hr). unfold well_formed, store_alert.
  cbn [metrics_seq alerts_seq performance_metrics regression_alerts].
  split; [exact Hm|]. split; [lia|]. split; [exact Him|].
  split; [rewrite map_app; apply (ids_in_order_append Ha Hia)|].
  apply Forall_app. split; [exact Hr|]. constructor; [reflexivity|constructor].
Qed.

Lemma well_formed_delete_old (cutoff : string) (db : Database) :
  well_formed db -> well_formed (delete_old cutoff db).
Proof.
  intros (Hm & Ha & Him & Hia & Hr). unfold well_formed, delete_old.
  cbn [metrics_seq alerts_seq performance_metrics regression_alerts].
  split; [exact Hm|]. split; [exact Ha|].
  split; [apply ids_in_order_filter; exact Him|].
  split; [apply ids_in_order_filter; exact Hia|].
  rewrite Forall_forall in *. intros row Hrow.
  apply filter_In in Hrow. apply Hr. tauto.
Qed.

Lemma cleanup_old_data_cases (clk : Clock) (db : Database) (retain_days : Z) :
  snd (cleanup_old_data clk db retain_days) = db
  \/ exists cutoff,
       cutoff_date clk retain_days = Ok cutoff
       /\ snd (cleanup_old_data clk db retain_days) = delete_old cutoff db.
Proof.
  unfold cleanup_old_data.
  destruct (cutoff_date clk retain_days) as [cutoff|e]; [|left; reflexivity].
  destruct (_ || _)%bool; [|left; reflexivity].
  right. exists cutoff. split; reflexivity.
Qed.

Lemma reachable_well_formed (db : Database) : reachable db -> well_formed db.
Proof.
  induction 1 as [|clk db batch _ IH|clk db a _ IH|clk db days _ IH].
  - unfold well_formed, empty_database, ids_in_order. simpl.
    repeat split; try lia; constructor.
  - apply well_formed_store_metrics. exact IH.
  - apply well_formed_store_alert. exact IH.
  - destruct (cleanup_old_data_cases clk db days) as [E|[cutoff [_ E]]];
      rewrite E; [exact IH | apply well_formed_delete_old; exact IH].
Qed.

Lemma StronglySorted_lt_NoDup (ids : list Z) :
  StronglySorted Z.lt ids -> NoDup ids.
Proof.
  induction 1 as [|i rest _ IH Hall]; constructor; [|exact IH].
  intro Hin. rewrite Forall_forall in Hall. specialize (Hall i Hin). lia.
Qed.

(** X4. In every database the scripts can produce - by any sequence of
    [store_metrics], [store_alert] and [cleanup_old_data] from a fresh file -
    the row ids of each table are distinct, increase in table order and do
    not exceed the table's AUTOINCREMENT counter, so the id of a row that
    retention removed is never given to a later row. *)
Theorem row_ids_are_never_reused (db : Database) :
  reachable db ->
  NoDup (map MetricRow.id (performance_metrics db))
  /\ NoDup (map AlertRow.id (regression_alerts db))
  /\ StronglySorted Z.lt (map MetricRow.id (performance_metrics db))
  /\ StronglySorted Z.lt (map AlertRow.id (regression_alerts db))
  /\ Forall (fun i => (0 < i <= metrics_seq db)%Z)
            (map MetricRow.id (performance_metrics db))
  /\ Forall (fun i => (0 < i <= alerts_seq db)%Z)
            (map AlertRow.id (regression_alerts db))
  /\ (forall clk m,
        map MetricRow.id (performance_metrics (store_metrics clk db [m]))
        = (map MetricRow.id (performance_metrics db) ++ [metrics_seq db + 1])%list%Z).
Proof.
  intro H. apply reachable_well_formed in H.
  destruct H as (_ & _ & [Hms Hmf] & [Has Haf] & _).
  repeat split; try assumption; try (apply StronglySorted_lt_NoDup; assumption).
  intros clk m. cbn. rewrite map_app. reflexivity.
Qed.

(** A record stored, removed by retention, and another one stored: the
    second gets id 2. *)
Lemma row_ids_are_never_reused_witness :
  map MetricRow.id
    (performance_metrics
       (store_metrics noon
          (snd (cleanup_old_data noon store_of_last_year 365))
          [sample "2024-06-01T12:00:00" 100 "main"]))
  = [2%Z].
Proof.
  pose proof (@row_ids_are_never_reused
                (snd (cleanup_old_data noon store_of_last_year 365))
                (reachable_cleanup noon 365
                   (reachable_store_metrics noon _ reachable_empty)))
    as (_ & _ & _ & _ & _ & _ & H).
  rewrite H. vm_compute. reflexivity.
Defined.

(** ** Reading alerts back *)

(** The text stored for a severity reads back as that severity. *)
Lemma severity_of_value_value (s : RegressionSeverity) :
  severity_of_value (value s) = Ok s.
Proof. destruct s; reflexivity. Qed.

Lemma alert_of_row_columns (row : AlertRow.t) :
  alert_of_row row = Ok (AlertRow.columns row).
Proof.
  unfold alert_of_row. rewrite severity_of_value_value. cbn [bind].
  destruct (AlertRow.columns row). reflexivity.
Qed.

Lemma alerts_of_rows_columns (rows : list AlertRow.t) :
  alerts_of_rows rows = Ok (map AlertRow.columns rows).
Proof.
  induction rows as [|row rest IH]; simpl; [reflexivity|].
  rewrite alert_of_row_columns, IH. reflexivity.
Qed.

(** Newest first, by [created_at]. *)
Definition created_not_before (a b : AlertRow.t) : Prop :=
  String.leb (AlertRow.created_at b) (AlertRow.created_at a) = true.

Lemma insert_alert_desc_perm (row : AlertRow.t) (l : list AlertRow.t) :
  Permutation (insert_alert_desc row l) (row :: l).
Proof.
  induction l as [|r rest IH]; simpl.
  - apply Permutation_refl.
  - destruct (String.leb (AlertRow.created_at r) (AlertRow.created_at row)).
    + apply Permutation_refl.
    + eapply perm_trans; [apply perm_skip; exact IH | apply perm_swap].
Qed.

Lemma order_by_created_at_desc_perm (l : list AlertRow.t) :
  Permutation (order_by_created_at_desc l) l.
Proof.
  induction l as [|r rest IH]; simpl.
  - apply perm_nil.
  - eapply perm_trans; [apply insert_alert_desc_perm | apply perm_skip; exact IH].
Qed.

Lemma insert_alert_desc_sorted (row : AlertRow.t) (l : list AlertRow.t) :
  Sorted created_not_before l -> Sorted created_not_before (insert_alert_desc row l).
Proof.
  induction l as [|r rest IH]; simpl; intro Hs.
  - constructor; constructor.
  - destruct (String.leb (AlertRow.created_at r) (AlertRow.created_at row)) eqn:E.
    + constructor; [exact Hs|]. constructor. exact E.
    + inversion Hs as [|? ? Hrest Hhd]; subst.
      constructor; [apply IH; exact Hrest|].
      assert (Hr : created_not_before r row).
      { unfold created_not_before.
        destruct (String.leb_total (AlertRow.created_at r) (AlertRow.created_at row))
          as [H|H]; [congruence | exact H]. }
      destruct rest as [|r' rest']; simpl.
      * constructor. exact Hr.
      * destruct (String.leb (AlertRow.created_at r') (AlertRow.created_at row));
          constructor; [exact Hr | inversion Hhd; assumption].
Qed.

Lemma order_by_created_at_desc_sorted (l : list AlertRow.t) :
  Sorted created_not_before (order_by_created_at_desc l).
Proof.
  induction l as [|r rest IH]; simpl.
  - constructor.
  - apply insert_alert_desc_sorted. exact IH.
Qed.

(** X5. Given a representable cutoff, [get_recent_alerts] never fails on a
    stored row - the severity text written by [store_alert] always reads back
    through [RegressionSeverity(...)] - and returns, each exactly as it was
    stored, the alerts whose [created_at] text is strictly greater than the
    cutoff (only the unresolved ones when asked), newest first. *)
Theorem recent_alerts_contents (clk : Clock) (db : Database) (days_back : Z)
    (unresolved_only : bool) (cutoff : string) :
  cutoff_date clk days_back = Ok cutoff ->
  exists rows,
    get_recent_alerts clk db days_back unresolved_only
      = Ok (map AlertRow.columns rows)
    /\ Permutation rows
         (filter (recent_where cutoff unresolved_only) (regression_alerts db))
    /\ Sorted created_not_before rows
    /\ (forall row, In row rows <->
          In row (regression_alerts db)
          /\ String.ltb cutoff (AlertRow.created_at row) = true
          /\ (unresolved_only = true -> AlertRow.resolved row = false)).
Proof.
  intro Hc. exists (recent_rows db cutoff unresolved_only).
  unfold get_recent_alerts. rewrite Hc. cbn [bind].
  split; [apply alerts_of_rows_columns|].
  assert (Hperm : Permutation (recent_rows db cutoff unresolved_only)
            (filter (recent_where cutoff unresolved_only) (regression_alerts db)))
    by apply order_by_created_at_desc_perm.
  split; [exact Hperm|].
  split; [apply order_by_created_at_desc_sorted|].
  intro row. split.
  - intro H. apply (Permutation_in _ Hperm) in H. apply filter_In in H.
    destruct H as [Hin Hw]. unfold recent_where in Hw.
    apply andb_true_iff in Hw. destruct Hw as [Hlt Hres].
    split; [exact Hin|]. split; [exact Hlt|].
    intro Hu. rewrite Hu in Hres. apply negb_true_iff in Hres. exact Hres.
  - intros (Hin & Hlt & Hres).
    apply (Permutation_in _ (Permutation_sym Hperm)). apply filter_In.
    split; [exact Hin|]. unfold recent_where. rewrite Hlt. simpl.
    destruct unresolved_only; [|reflexivity].
    rewrite (Hres eq_refl). reflexivity.
Qed.

(** An alert stored in the evening is read back the next hour. *)
Lemma recent_alerts_contents_witness :
  get_recent_alerts evening_later store_with_alert 7 true = Ok [an_alert].
Proof.
  destruct (@recent_alerts_contents evening_later store_with_alert 7%Z true
              "2024-05-25T21:00:00" eq_refl)
    as [rows [Hget [Hperm _]]].
  rewrite Hget. f_equal.
  vm_compute in Hperm. apply Permutation_sym in Hperm.
  apply Permutation_length_1_inv in Hperm. rewrite Hperm. reflexivity.
Defined.

(** X6. No script ever sets [resolved]: on every database the scripts can
    produce, [get_recent_alerts] returns the same alerts with and without
    [unresolved_only]. *)
Theorem unresolved_filter_has_no_effect (clk : Clock) (db : Database)
    (days_back : Z) :
  reachable db ->
  Forall (fun row => AlertRow.resolved row = false) (regression_alerts db)
  /\ get_recent_alerts clk db days_back true
     = get_recent_alerts clk db days_back false.
Proof.
  intro H. apply reachable_well_formed in H.
  destruct H as (_ & _ & _ & _ & Hr). split; [exact Hr|].
  unfold get_recent_alerts, recent_rows.
  destruct (cutoff_date clk days_back) as [cutoff|e]; cbn [bind]; [|reflexivity].
  f_equal. f_equal. apply filter_ext_in.
  intros row Hrow. rewrite Forall_forall in Hr.
  unfold recent_where. rewrite (Hr row Hrow). reflexivity.
Qed.

Lemma unresolved_filter_has_no_effect_witness :
  get_recent_alerts evening_later store_with_alert 7 false = Ok [an_alert].
Proof.
  rewrite <- (proj2 (@unresolved_filter_has_no_effect evening_later
                       store_with_alert 7%Z
                       (reachable_store_alert evening an_alert reachable_empty))).
  vm_compute. reflexivity.
Defined.

(** ** Alert timestamps against the cutoff text *)

(** The two tables after [cleanup_old_data], for a representable cutoff. *)
Lemma cleanup_old_data_tables (clk : Clock) (db : Database) (days : Z)
    (cutoff : string) :
  cutoff_date clk days = Ok cutoff ->
  performance_metrics (snd (cleanup_old_data clk db days))
  = filter (fun row => negb (metric_is_old cutoff row)) (performance_metrics db)
  /\ regression_alerts (snd (cleanup_old_data clk db days))
     = filter (fun row => negb (alert_is_old cutoff row)) (regression_alerts db).
Proof.
  intro Hc. unfold cleanup_old_data. rewrite Hc.
  destruct ((0 <? List.length (filter (metric_is_old cutoff) (performance_metrics db)))%nat
            || (0 <? List.length (filter (alert_is_old cutoff) (regression_alerts db)))%nat)
    eqn:E.
  - split; reflexivity.
  - apply orb_false_iff in E. destruct E as [Em Ea].
    apply Nat.ltb_ge in Em. apply Nat.ltb_ge in Ea.
    cbn [snd]. split; symmetry; apply filter_none_old.
    + destruct (filter (metric_is_old cutoff) (performance_metrics db));
        [reflexivity | simpl in Em; lia].
    + destruct (filter (alert_is_old cutoff) (regression_alerts db));
        [reflexivity | simpl in Ea; lia].
Qed.

(** The rows [get_recent_alerts] reads are stored rows later than the
    cutoff. *)
Lemma recent_rows_in (db : Database) (cutoff : string) (unresolved_only : bool)
    (row : AlertRow.t) :
  In row (recent_rows db cutoff unresolved_only) ->
  In row (regression_alerts db)
  /\ String.ltb cutoff (AlertRow.created_at row) = true.
Proof.
  intro H. unfold recent_rows in H.
  apply (Permutation_in _ (order_by_created_at_desc_perm _)) in H.
  apply filter_In in H. destruct H as [Hin Hw].
  unfold recent_where in Hw. apply andb_true_iff in Hw. tauto.
Qed.

Lemma ascii_compare_refl (c : ascii) : Ascii.compare c c = Eq.
Proof. unfold Ascii.compare. apply N.compare_refl. Qed.

Lemma compare_common_prefix (p a b : string) :
  String.compare (p ++ a) (p ++ b) = String.compare a b.
Proof.
  induction p as [|c p IH]; simpl; [reflexivity|].
  rewrite ascii_compare_refl. exact IH.
Qed.

Lemma compare_same_head (c : ascii) (a b : string) :
  String.compare (String c a) (String c b) = String.compare a b.
Proof. simpl. rewrite ascii_compare_refl. reflexivity. Qed.

(** Two date-times of the same calendar day. *)
Definition same_day (a b : datetime) : Prop :=
  year a = year b /\ month a = month b /\ day a = day b.

(** The text SQLite stamps on a row compares below the ISO text of every
    instant of the same day, whatever the two times of day are: after the
    common date the first has a blank where the second has a [T]. *)
Lemma sqlite_stamp_below_iso_of_same_day (u d : datetime) :
  same_day u d ->
  String.compare (sqlite_timestamp u) (isoformat d) = Lt.
Proof.
  intros (Hy & Hm & Hd). unfold sqlite_timestamp, isoformat.
  rewrite Hy, Hm, Hd.
  rewrite compare_common_prefix. cbn [append]. rewrite compare_same_head.
  rewrite compare_common_prefix. cbn [append]. rewrite compare_same_head.
  rewrite compare_common_prefix. reflexivity.
Qed.

(** X7. Alerts are stamped by SQLite ([YYYY-MM-DD HH:MM:SS]) and compared
    as text with the ISO cutoff ([YYYY-MM-DDTHH:MM:SS]).  So an alert created
    on the calendar day of the cutoff counts as older than the cutoff
    whatever its time of day: [cleanup_old_data] leaves no such alert in the
    table, and when every stored alert is of that day [get_recent_alerts]
    returns nothing. *)
Theorem alerts_of_the_cutoff_day_count_as_old (clk : Clock) (db : Database)
    (days : Z) (d : datetime) :
  sub_days (now clk) days = Ok d ->
  (forall row u,
     In row (regression_alerts (snd (cleanup_old_data clk db days))) ->
     AlertRow.created_at row = sqlite_timestamp u -> ~ same_day u d)
  /\ ((forall row, In row (regression_alerts db) ->
         exists u, AlertRow.created_at row = sqlite_timestamp u /\ same_day u d) ->
      forall unresolved_only,
        get_recent_alerts clk db days unresolved_only = Ok []).
Proof.
  intro Hd.
  assert (Hc : cutoff_date clk days = Ok (isoformat d))
    by (unfold cutoff_date; rewrite Hd; reflexivity).
  split.
  - intros row u Hin Hcreated Hsame.
    assert (Hold : alert_is_old (isoformat d) row = true).
    { unfold alert_is_old, String.ltb. rewrite Hcreated.
      rewrite (sqlite_stamp_below_iso_of_same_day Hsame). reflexivity. }
    rewrite (proj2 (cleanup_old_data_tables clk db days Hc)) in Hin.
    apply filter_In in Hin. destruct Hin as [_ Hkeep].
    rewrite Hold in Hkeep. discriminate.
  - intros Hall unresolved_only.
    unfold get_recent_alerts. rewrite Hc. cbn [bind].
    rewrite alerts_of_rows_columns.
    destruct (recent_rows db (isoformat d) unresolved_only) as [|row rest] eqn:Er;
      [reflexivity|].
    assert (Hrr : In row (recent_rows db (isoformat d) unresolved_only))
      by (rewrite Er; left; reflexivity).
    destruct (recent_rows_in _ _ _ _ Hrr) as [Hrow Hlt].
    destruct (Hall row Hrow) as [u [Hcreated Hsame]].
    unfold String.ltb in Hlt. rewrite String.compare_antisym in Hlt.
    rewrite Hcreated, (sqlite_stamp_below_iso_of_same_day Hsame) in Hlt.
    discriminate.
Qed.

(** One in the morning of 2024-06-08, and an alert created at 23:00 on
    2024-06-01: twenty-two hours after the seven-day cutoff, and still
    neither returned nor kept. *)
Definition week_later : Clock :=
  mk_Clock (mk_datetime 2024 6 8 1 0 0 0) (mk_datetime 2024 6 8 1 0 0 0).

Definition store_with_late_alert : Database :=
  store_alert
    (mk_Clock (mk_datetime 2024 6 1 23 0 0 0) (mk_datetime 2024 6 1 23 0 0 0))
    empty_database an_alert.

Lemma alerts_of_the_cutoff_day_count_as_old_witness :
  cutoff_date week_later 7 = Ok "2024-06-01T01:00:00"
  /\ map AlertRow.created_at (regression_alerts store_with_late_alert)
     = ["2024-06-01 23:00:00"]
  /\ get_recent_alerts week_later store_with_late_alert 7 true = Ok [].
Proof.
  split; [vm_compute; reflexivity|]. split; [vm_compute; reflexivity|].
  apply (proj2 (@alerts_of_the_cutoff_day_count_as_old week_later
                  store_with_late_alert 7%Z (mk_datetime 2024 6 1 1 0 0 0)
                  eq_refl)).
  intros row [<-|[]].
  exists (mk_datetime 2024 6 1 23 0 0 0).
  split; [reflexivity|]. repeat split.
Defined.

(** ** The loader *)

(** The platform names the loader can give. *)
Definition loader_platforms : list string :=
  ["Windows x64"; "Ubuntu GCC"; "Ubuntu Clang"; "macOS"; "Unknown Platform"].

Lemma platform_of_path_range (path_str : string) :
  In (platform_of_path path_str) loader_platforms.
Proof.
  unfold platform_of_path, loader_platforms.
  destruct (_ || _)%bool; [simpl; tauto|].
  destruct (_ && _)%bool; [simpl; tauto|].
  destruct (_ && _)%bool; [simpl; tauto|].
  destruct (contains "macOS" path_str); simpl; tauto.
Qed.

(** What the loader takes from the environment of the run. *)
Definition run_metadata (env : Environ) (m : PerformanceMetric.t) : Prop :=
  PerformanceMetric.commit_hash m = environ_get env "GITHUB_SHA" "unknown"
  /\ PerformanceMetric.branch m = environ_get env "GITHUB_REF_NAME" "main"
  /\ In (PerformanceMetric.platform m) loader_platforms
  /\ (contains "pull_request" (environ_get env "GITHUB_EVENT_NAME" "") = false ->
      PerformanceMetric.pr_number m = None).

Lemma load_benchmarks_metadata (env : Environ) (clk : Clock)
    (pr_number : option string) (path_str : string)
    (items : list Benchmark.t) :
  (contains "pull_request" (environ_get env "GITHUB_EVENT_NAME" "") = false ->
   pr_number = None) ->
  forall metrics,
    Forall (run_metadata env) metrics ->
    Forall (run_metadata env)
      (load_benchmarks clk (environ_get env "GITHUB_SHA" "unknown")
         (environ_get env "GITHUB_REF_NAME" "main") pr_number path_str
         items metrics).
Proof.
  intro Hpr. induction items as [|b rest IH]; intros metrics Hm; simpl.
  - exact Hm.
  - destruct (metric_of_benchmark clk _ _ pr_number path_str b)
      as [[metric|]|e] eqn:E.
    + apply IH. apply Forall_app. split; [exact Hm|].
      constructor; [|constructor].
      unfold metric_of_benchmark in E.
      destruct (negb _); [discriminate|].
      destruct (match pr_number with Some _ => _ | None => _ end)
        as [pr|e] eqn:Ep; cbn [bind] in E; [|discriminate].
      injection E as <-. unfold run_metadata. cbn.
      repeat split; try reflexivity; [apply platform_of_path_range|].
      intro Hev. rewrite (Hpr Hev) in Ep. injection Ep as <-. reflexivity.
    + apply IH. exact Hm.
    + exact Hm.
Qed.

Lemma load_file_metadata (env : Environ) (clk : Clock)
    (metrics : list PerformanceMetric.t) (file : string * file_contents) :
  Forall (run_metadata env) metrics ->
  Forall (run_metadata env) (load_file env clk metrics file).
Proof.
  intro Hm. destruct file as [path data]. unfold load_file.
  assert (Hpr : contains "pull_request" (environ_get env "GITHUB_EVENT_NAME" "") = false ->
                (if contains "pull_request" (environ_get env "GITHUB_EVENT_NAME" "")
                 then environ_lookup env "GITHUB_EVENT_NUMBER" else None) = None)
    by (intro H; rewrite H; reflexivity).
  destruct data; [exact Hm | | |]; apply load_benchmarks_metadata; assumption.
Qed.

(** X8. Every record that [load_benchmark_results] returns carries the
    commit hash and the branch of the environment ([GITHUB_SHA] or
    [unknown], [GITHUB_REF_NAME] or [main]) whatever the file says, and one
    of the five platform names; it has no PR number unless
    [GITHUB_EVENT_NAME] mentions [pull_request]. *)
Theorem loaded_records_carry_run_metadata (env : Environ) (clk : Clock)
    (files : list (string * file_contents)) (m : PerformanceMetric.t) :
  In m (load_benchmark_results env clk files) ->
  PerformanceMetric.commit_hash m = environ_get env "GITHUB_SHA" "unknown"
  /\ PerformanceMetric.branch m = environ_get env "GITHUB_REF_NAME" "main"
  /\ In (PerformanceMetric.platform m)
        ["Windows x64"; "Ubuntu GCC"; "Ubuntu Clang"; "macOS"; "Unknown Platform"]
  /\ (contains "pull_request" (environ_get env "GITHUB_EVENT_NAME" "") = false ->
      PerformanceMetric.pr_number m = None).
Proof.
  intro Hin.
  assert (Hall : forall metrics,
            Forall (run_metadata env) metrics ->
            Forall (run_metadata env) (fold_left (load_file env clk) files metrics)).
  { clear Hin.
    induction files as [|f rest IH]; intros metrics Hm; simpl; [exact Hm|].
    apply IH. apply load_file_metadata. exact Hm. }
  specialize (Hall [] (Forall_nil _)).
  rewrite Forall_forall in Hall. exact (Hall m Hin).
Qed.

Lemma loaded_records_carry_run_metadata_witness :
  PerformanceMetric.commit_hash current_record = "unknown"
  /\ PerformanceMetric.branch current_record = "main"
  /\ PerformanceMetric.pr_number current_record = None.
Proof.
  destruct (@loaded_records_carry_run_metadata [] noon current_files current_record)
    as (Hc & Hb & _ & Hpr).
  - vm_compute. left. reflexivity.
  - split; [exact Hc|]. split; [exact Hb|]. apply Hpr. reflexivity.
Defined.

(** A text with an ASCII letter: [int(text)] raises [ValueError]. *)
Definition is_letter (c : ascii) : bool :=
  let n := nat_of_ascii c in
  ((65 <=? n)%nat && (n <=? 90)%nat) || ((97 <=? n)%nat && (n <=? 122)%nat).

Fixpoint has_letter (s : string) : bool :=
  match s with
  | EmptyString => false
  | String c rest => is_letter c || has_letter rest
  end.

Lemma letter_is_no_digit (c : ascii) : is_letter c = true -> is_digit c = false.
Proof.
  destruct c as [[] [] [] [] [] [] [] []]; vm_compute; intro H;
    first [reflexivity | discriminate H].
Qed.

Lemma decimal_digits_letter (s : string) :
  forall acc, has_letter s = true -> decimal_digits s acc = None.
Proof.
  induction s as [|c rest IH]; intros acc H; simpl in *; [discriminate|].
  destruct (is_digit c) eqn:Ed; [|reflexivity].
  apply IH. destruct (is_letter c) eqn:El; [|exact H].
  apply letter_is_no_digit in El. congruence.
Qed.

Lemma unsigned_letter (t : string) (sign : Z) :
  has_letter t = true ->
  match t with
  | EmptyString => Raise ValueError
  | _ => match decimal_digits t 0 with
         | Some n => Ok (sign * n)%Z
         | None => Raise ValueError
         end
  end = Raise ValueError.
Proof.
  intro H. destruct t as [|c rest]; [reflexivity|].
  rewrite (decimal_digits_letter _ 0%Z H). reflexivity.
Qed.

Lemma int_of_str_letter (s : string) :
  has_letter s = true -> int_of_str s = Raise ValueError.
Proof.
  intro H. destruct s as [|c rest]; [discriminate|].
  destruct (ascii_dec c "-") as [->|Hminus];
    [exact (unsigned_letter rest (-1) H)|].
  destruct (ascii_dec c "+") as [->|Hplus];
    [exact (unsigned_letter rest 1 H)|].
  destruct c as [[] [] [] [] [] [] [] []];
    first [ exfalso; apply Hminus; reflexivity
          | exfalso; apply Hplus; reflexivity
          | exact (unsigned_letter _ 1 H) ].
Qed.

Lemma load_benchmarks_unparsable (clk : Clock) (commit_hash branch : string)
    (text path_str : string) (items : list Benchmark.t) :
  has_letter text = true ->
  forall metrics,
    load_benchmarks clk commit_hash branch (Some text) path_str items metrics
    = metrics.
Proof.
  intro H. induction items as [|b rest IH]; intro metrics; simpl; [reflexivity|].
  unfold metric_of_benchmark.
  destruct (negb _); [apply IH|].
  assert (Hne : String.eqb text "" = false)
    by (destruct text; [discriminate | reflexivity]).
  rewrite Hne, (int_of_str_letter _ H). reflexivity.
Qed.

(** The benchmarks of a result file. *)
Definition benchmarks_of (contents : file_contents) : list Benchmark.t :=
  match contents with
  | Malformed => []
  | BenchmarkList items | WithResults items => items
  | SingleBenchmark item => [item]
  end.

(** A number [float] converts: one within the range of a double.  Beyond
    it [float] raises [OverflowError], which the loader does not catch. *)
Definition converts (number : option Q) : bool :=
  match number with
  | Some q => is_finite (float_of_Q q)
  | None => true
  end.

(** Result files as the benchmark harness writes them: benchmark objects
    whose keys hold a boolean, a text or a number of that kind. *)
Definition harness_files (files : list (string * file_contents)) : Prop :=
  forall path_str contents benchmark,
    In (path_str, contents) files ->
    In benchmark (benchmarks_of contents) ->
    converts (Benchmark.avg_execution_time_ns benchmark) = true
    /\ converts (Benchmark.avg_memory_usage benchmark) = true
    /\ converts (Benchmark.formant_preservation_score benchmark) = true.

(** X9. Let the result files be as the harness writes them.  On a
    [pull_request] event whose [GITHUB_EVENT_NUMBER] is set to a text with a
    letter in it, [int(pr_number)] raises [ValueError] at the first
    successful benchmark of every file; the handler skips the file, so
    [load_benchmark_results] returns no record at all, and [main] ends with
    exit status 1 without touching the database. *)
Theorem unparsable_pr_number_loads_nothing (env : Environ) (clk : Clock)
    (files : list (string * file_contents)) (text : string) :
  harness_files files ->
  contains "pull_request" (environ_get env "GITHUB_EVENT_NAME" "") = true ->
  environ_lookup env "GITHUB_EVENT_NUMBER" = Some text ->
  has_letter text = true ->
  load_benchmark_results env clk files = []
  /\ forall commit_hash db,
       main env clk (Some files) commit_hash db = (Ok (1%Z, []), db).
Proof.
  intros _ Hev Hnum Hletter.
  assert (Hload : load_benchmark_results env clk files = []).
  { unfold load_benchmark_results.
    induction files as [|[path data] rest IH]; [reflexivity|].
    cbn [fold_left]. 
    replace (load_file env clk [] (path, data)) with (@nil PerformanceMetric.t);
      [exact IH|].
    unfold load_file. rewrite Hev, Hnum.
    destruct data; try reflexivity;
      symmetry; apply load_benchmarks_unparsable; exact Hletter. }
  split; [exact Hload|].
  intros commit_hash db. unfold main. rewrite Hload. reflexivity.
Qed.

(** A pull-request run whose event number reads [refs-17]. *)
Definition pr_environ : Environ :=
  [("GITHUB_EVENT_NAME", "pull_request"); ("GITHUB_EVENT_NUMBER", "refs-17")].

Lemma unparsable_pr_number_loads_nothing_witness :
  load_benchmark_results pr_environ noon current_files = []
  /\ main pr_environ noon (Some current_files) "fedcba9" store_of_five
     = (Ok (1%Z, []), store_of_five).
Proof.
  destruct (@unparsable_pr_number_loads_nothing pr_environ noon current_files
              "refs-17") as [Hload Hmain]; try reflexivity.
  - intros path_str contents benchmark [Hf|[]] Hb. injection Hf as <- <-.
    destruct Hb as [<-|[]]. repeat split.
  - split; [exact Hload | apply Hmain].
Defined.

(** ** main *)

Lemma analyze_current_metrics_tables (self : RegressionDetector) (clk : Clock)
    (db : Database) (batch : list PerformanceMetric.t) (commit_hash : string) :
  exists stored,
    snd (analyze_current_metrics self clk db batch commit_hash)
    = with_alerts clk db stored
    /\ forall alerts,
         fst (analyze_current_metrics self clk db batch commit_hash) = Ok alerts ->
         alerts = stored.
Proof.
  unfold analyze_current_metrics.
  destruct (analyze_loop_spec self clk commit_hash db batch [])
    as [stored [Hdb [Hres _]]].
  change (with_alerts clk db []) with db in *. simpl app in *.
  exists stored. split; [exact Hdb|].
  intros alerts H. destruct (Hres alerts H) as [H1 _]. exact H1.
Qed.

(** The PR number of the run, where there is one: a text of decimal
    digits, with a sign or without, whose value is an integer of 64 bits.
    (Other texts that [int] reads are outside the model of [int], and
    binding a larger integer makes SQLite raise [OverflowError].) *)
Definition pr_number_is_plain (env : Environ) : Prop :=
  contains "pull_request" (environ_get env "GITHUB_EVENT_NAME" "") = true ->
  forall text,
    environ_lookup env "GITHUB_EVENT_NUMBER" = Some text ->
    text = ""
    \/ exists n, int_of_str text = Ok n /\ (- 2 ^ 63 <= n < 2 ^ 63)%Z.

(** X10. The outcomes of [main], for result files as the harness writes
    them and a PR number, if there is one, that is a plain decimal of 64
    bits.  When the input directory is missing or yields no record, the
    exit status is 1 and the database is untouched.  Otherwise the loaded
    records are appended to the metrics table before the analysis starts, so
    they stay stored even when the analysis raises; and when the analysis
    returns, the exit status is 0 whether or not regressions were found, the
    alerts table having grown by exactly the alerts reported. *)
Theorem main_outcomes (env : Environ) (clk : Clock)
    (input_dir : option (list (string * file_contents)))
    (commit_hash : string) (db : Database) :
  (forall files, input_dir = Some files -> harness_files files) ->
  pr_number_is_plain env ->
  let loaded := match input_dir with
                | Some files => load_benchmark_results env clk files
                | None => []
                end in
  let run := main env clk input_dir commit_hash db in
  (loaded = [] -> run = (Ok (1%Z, []), db))
  /\ (loaded <> [] ->
      stored_metrics (snd run)
      = (stored_metrics db ++ map stored_columns loaded)%list
      /\ forall status alerts,
           fst run = Ok (status, alerts) ->
           status = 0%Z
           /\ map AlertRow.columns (regression_alerts (snd run))
              = (map AlertRow.columns (regression_alerts db) ++ alerts)%list).
Proof.
  intros _ _.
  cbv zeta. destruct input_dir as [files|]; cbn [main].
  2: { split; [reflexivity | intro H; contradiction H; reflexivity]. }
  destruct (load_benchmark_results env clk files) as [|m rest] eqn:El.
  - split; [reflexivity | intro H; contradiction H; reflexivity].
  - split; [discriminate|]. intros _.
    destruct (analyze_current_metrics_tables RegressionDetector_init clk
                (store_metrics clk db (m :: rest)) (m :: rest) commit_hash)
      as [stored [Hdb Hres]].
    destruct (analyze_current_metrics RegressionDetector_init clk
                (store_metrics clk db (m :: rest)) (m :: rest) commit_hash)
      as [[alerts|e] db'] eqn:Ea; cbn [fst snd] in *; subst db'.
    + split.
      * unfold stored_metrics. rewrite with_alerts_metrics.
        apply stored_metrics_store.
      * intros status alerts' H. injection H as <- <-.
        split; [reflexivity|].
        rewrite with_alerts_rows, (Hres alerts eq_refl).
        f_equal. clear. revert db. unfold store_metrics.
        generalize (m :: rest). intro l.
        induction l as [|x l IH]; intro db; simpl; [reflexivity|].
        rewrite IH. reflexivity.
    + split.
      * unfold stored_metrics. rewrite with_alerts_metrics.
        apply stored_metrics_store.
      * intros status alerts' H. discriminate.
Qed.

(** The run of [main] on four records of history and one current record:
    the record is stored and the run ends with status 0 and one alert. *)
Lemma main_outcomes_witness :
  stored_metrics (snd (main [] noon (Some current_files) "fedcba9" store_of_four))
  = (stored_metrics store_of_four ++ [current_record])%list
  /\ exists a,
       fst (main [] noon (Some current_files) "fedcba9" store_of_four)
       = Ok (0%Z, [a]).
Proof.
  destruct (@main_outcomes [] noon (Some current_files) "fedcba9" store_of_four)
    as [_ H].
  - intros files Hf. injection Hf as <-.
    intros path_str contents benchmark [Hfile|[]] Hb. injection Hfile as <- <-.
    destruct Hb as [<-|[]]. repeat split.
  - intro Hev. discriminate Hev.
  - destruct H as [Hstored _]; [vm_compute; discriminate|].
    split; [exact Hstored|].
    eexists. vm_compute. reflexivity.
Defined.

(** ** validate_database_integrity *)


Lemma key_eqb_eq (a b : string * string * string * string) :
  key_eqb a b = true <-> a = b.
Proof.
  destruct a as [[[a1 a2] a3] a4], b as [[[b1 b2] b3] b4]. unfold key_eqb.
  rewrite !andb_true_iff, !String.eqb_eq. split.
  - intros [[[-> ->] ->] ->]. reflexivity.
  - intro H. injection H as -> -> -> ->. repeat split.
Qed.

Lemma key_eqb_refl (a : string * string * string * string) : key_eqb a a = true.
Proof. apply key_eqb_eq. reflexivity. Qed.

Lemma key_eqb_neq (a b : string * string * string * string) :
  a <> b -> key_eqb a b = false.
Proof.
  intro H. destruct (key_eqb a b) eqn:E; [|reflexivity].
  apply key_eqb_eq in E. contradiction.
Qed.

Lemma count_key_cons (k a : string * string * string * string)
    (keys : list (string * string * string * string)) :
  count_key k (a :: keys)
  = ((if key_eqb k a then 1 else 0) + count_key k keys)%nat.
Proof. unfold count_key. simpl. destruct (key_eqb k a); reflexivity. Qed.

Lemma count_key_absent (k : string * string * string * string)
    (keys : list (string * string * string * string)) :
  ~ In k keys -> count_key k keys = 0%nat.
Proof.
  induction keys as [|a rest IH]; intro H; [reflexivity|].
  rewrite count_key_cons, IH by (intro; apply H; right; assumption).
  rewrite key_eqb_neq; [reflexivity|].
  intros ->. apply H. left. reflexivity.
Qed.

Lemma count_key_present (k : string * string * string * string)
    (keys : list (string * string * string * string)) :
  In k keys -> (1 <= count_key k keys)%nat.
Proof.
  induction keys as [|a rest IH]; intro H; [contradiction|].
  rewrite count_key_cons. destruct H as [->|H].
  - rewrite key_eqb_refl. lia.
  - specialize (IH H). lia.
Qed.

(** No key twice: every key is counted once. *)
Lemma NoDup_count_key (keys : list (string * string * string * string)) :
  NoDup keys <-> (forall k, In k keys -> (count_key k keys <= 1)%nat).
Proof.
  induction keys as [|a rest IH].
  - split; [intros _ k [] | intros _; constructor].
  - split.
    + intros Hnd k Hin. inversion Hnd as [|x l Hnotin Hrest]; subst.
      rewrite count_key_cons. destruct (key_eqb k a) eqn:E.
      * apply key_eqb_eq in E. subst k.
        rewrite (count_key_absent _ _ Hnotin). lia.
      * destruct Hin as [->|Hin]; [rewrite key_eqb_refl in E; discriminate|].
        apply IH; assumption.
    + intro H. constructor.
      * intro Hin. specialize (H a (or_introl eq_refl)).
        rewrite count_key_cons, key_eqb_refl in H.
        pose proof (count_key_present _ _ Hin). lia.
      * apply IH. intros k Hin. specialize (H k (or_intror Hin)).
        rewrite count_key_cons in H. lia.
Qed.

Lemma distinct_keys_In (k : string * string * string * string)
    (keys : list (string * string * string * string)) :
  In k (distinct_keys keys) <-> In k keys.
Proof.
  induction keys as [|a rest IH]; simpl; [tauto|].
  rewrite filter_In, IH. split.
  - intros [H|[H _]]; [left | right]; assumption.
  - intros [H|H]; [left; assumption|].
    destruct (key_eqb a k) eqn:E.
    + left. apply key_eqb_eq. exact E.
    + right. split; [assumption | reflexivity].
Qed.

Lemma filter_nil_iff {A : Type} (f : A -> bool) (l : list A) :
  filter f l = [] <-> (forall x, In x l -> f x = false).
Proof.
  induction l as [|a rest IH]; simpl.
  - split; [intros _ x [] | reflexivity].
  - destruct (f a) eqn:E; split.
    + discriminate.
    + intro H. specialize (H a (or_introl eq_refl)). congruence.
    + intros H x [<-|Hx]; [exact E | apply IH; assumption].
    + intro H. apply IH. intros x Hx. apply H. right. exact Hx.
Qed.

(** The duplicate check finds nothing exactly when no two rows share the
    four grouped columns. *)
Lemma duplicates_nil_iff (db : Database) :
  duplicates db = [] <-> NoDup (map duplicate_key (performance_metrics db)).
Proof.
  unfold duplicates. rewrite filter_nil_iff, NoDup_count_key. split.
  - intros H k Hin. apply (proj2 (distinct_keys_In _ _)) in Hin.
    specialize (H k Hin). apply Nat.ltb_ge in H. exact H.
  - intros H k Hin. apply (proj1 (distinct_keys_In _ _)) in Hin.
    apply Nat.ltb_ge. apply H. exact Hin.
Qed.

Lemma invalid_metrics_zero_iff (db : Database) :
  invalid_metrics db = 0%nat
  <-> (forall row, In row (performance_metrics db) ->
         0 < PerformanceMetric.execution_time_ns (MetricRow.columns row)).
Proof.
  unfold invalid_metrics. rewrite List.length_zero_iff_nil, filter_nil_iff.
  split; intros H row Hin; specialize (H row Hin).
  - apply Qnot_le_lt. intro Hle. apply Qle_bool_iff in Hle. congruence.
  - destruct (Qle_bool _ 0) eqn:E; [|reflexivity].
    apply Qle_bool_iff in E. apply Qle_not_lt in E. contradiction.
Qed.

Lemma validate_true_iff (integrity_result : string) (db : Database) :
  validate_database_integrity integrity_result db = true
  <-> integrity_result = "ok"
      /\ invalid_metrics db = 0%nat
      /\ duplicates db = [].
Proof.
  unfold validate_database_integrity, issues_found. rewrite Nat.eqb_eq.
  destruct (String.eqb_spec integrity_result "ok") as [->|Hne];
    destruct (invalid_metrics db) as [|n]; destruct (duplicates db) as [|d l];
    cbn; split; try lia; try discriminate; try (intros (H1 & H2 & H3));
    try discriminate; try contradiction; try (intros _; repeat split).
Qed.

(** X11. [validate_database_integrity] returns [True] exactly when
    [PRAGMA integrity_check] answers [ok], every stored execution time is
    positive, and no two rows agree on benchmark name, platform, timestamp
    and commit hash.  The other columns (memory usage, quality score,
    branch) and the alerts table are not looked at. *)
Theorem validation_passes_iff (integrity_result : string) (db : Database) :
  validate_database_integrity integrity_result db = true
  <-> integrity_result = "ok"
      /\ (forall row, In row (performance_metrics db) ->
            0 < PerformanceMetric.execution_time_ns (MetricRow.columns row))
      /\ NoDup (map duplicate_key (performance_metrics db)).
Proof.
  rewrite validate_true_iff, invalid_metrics_zero_iff, duplicates_nil_iff.
  reflexivity.
Qed.

Lemma store_metrics_rows (clk : Clock) (batch : list PerformanceMetric.t) :
  forall db,
    map duplicate_key (performance_metrics (store_metrics clk db batch))
    = (map duplicate_key (performance_metrics db)
       ++ map (fun m => (PerformanceMetric.benchmark_name m,
                         PerformanceMetric.platform m,
                         PerformanceMetric.timestamp m,
                         PerformanceMetric.commit_hash m)) batch)%list.
Proof.
  unfold store_metrics.
  induction batch as [|m rest IH]; intro db; simpl.
  - rewrite app_nil_r. reflexivity.
  - rewrite IH. cbn [insert_metric performance_metrics].
    rewrite map_app, <- app_assoc. reflexivity.
Qed.

(** X12. The detector stores whatever it loads, and the baseline script
    then rejects the file: once a batch holding a record whose execution
    time is zero or negative has gone through [store_metrics], 
    [validate_database_integrity] returns [False], whatever else the
    database holds. *)
Theorem stored_nonpositive_time_fails_validation (clk : Clock) (db : Database)
    (batch : list PerformanceMetric.t) (m : PerformanceMetric.t)
    (integrity_result : string) :
  In m batch ->
  PerformanceMetric.execution_time_ns m <= 0 ->
  validate_database_integrity integrity_result (store_metrics clk db batch)
  = false.
Proof.
  intros Hin Hle.
  destruct (validate_database_integrity integrity_result
              (store_metrics clk db batch)) eqn:E; [|reflexivity].
  apply validate_true_iff in E. destruct E as (_ & Hinv & _).
  rewrite invalid_metrics_zero_iff in Hinv.
  assert (Hs : In (stored_columns m) (stored_metrics (store_metrics clk db batch))).
  { rewrite stored_metrics_store. apply in_or_app. right.
    apply in_map. exact Hin. }
  unfold stored_metrics in Hs. apply in_map_iff in Hs.
  destruct Hs as [row [Hrow Hin']]. specialize (Hinv row Hin').
  rewrite Hrow in Hinv. cbn in Hinv. apply Qle_not_lt in Hle. contradiction.
Qed.

Lemma stored_nonpositive_time_fails_validation_witness :
  validate_database_integrity "ok"
    (store_metrics noon empty_database
       [sample "2024-06-01T12:00:00" 100 "main";
        sample "2024-06-01T12:00:01" 0 "main"])
  = false.
Proof.
  apply (@stored_nonpositive_time_fails_validation noon empty_database _
           (sample "2024-06-01T12:00:01" 0 "main")).
  - right. left. reflexivity.
  - vm_compute. discriminate.
Defined.

(** X13. A batch stored twice - the same records again, at any later time
    and whatever was stored in between - leaves rows that agree on the four
    grouped columns, so [validate_database_integrity] returns [False] from
    then on. *)
Theorem batch_stored_twice_fails_validation (clk1 clk2 clk3 : Clock)
    (db : Database) (batch between : list PerformanceMetric.t)
    (integrity_result : string) :
  batch <> [] ->
  validate_database_integrity integrity_result
    (store_metrics clk3
       (store_metrics clk2 (store_metrics clk1 db batch) between) batch)
  = false.
Proof.
  intro Hne.
  destruct (validate_database_integrity _ _) eqn:E; [|reflexivity].
  apply validate_true_iff in E. destruct E as (_ & _ & Hdup).
  rewrite duplicates_nil_iff, !store_metrics_rows in Hdup.
  destruct batch as [|m rest]; [contradiction Hne; reflexivity|].
  cbn [map] in Hdup. exfalso.
  rewrite <- !app_assoc in Hdup.
  apply NoDup_app_remove_l in Hdup.
  rewrite <- app_comm_cons in Hdup.
  inversion Hdup as [|x l Hnotin _]; subst.
  apply Hnotin. apply in_or_app. right. apply in_or_app. right.
  left. reflexivity.
Qed.

Lemma batch_stored_twice_fails_validation_witness :
  validate_database_integrity "ok" store_of_five = true
  /\ validate_database_integrity "ok"
       (store_metrics evening
          (store_metrics noon (store_metrics noon empty_database four_of_may) [])
          four_of_may)
     = false.
Proof.
  split; [vm_compute; reflexivity|].
  apply (@batch_stored_twice_fails_validation noon noon evening empty_database
           four_of_may [] "ok").
  discriminate.
Defined.

(** ** Retention against the later queries *)

(** The order of timestamp texts. *)
Lemma string_ltb_asym (a b : string) :
  String.ltb a b = true -> String.ltb b a = false.
Proof.
  unfold String.ltb. rewrite (String.compare_antisym b a).
  destruct (String.compare a b); simpl; congruence.
Qed.

Lemma string_ltb_leb_trans (a b c : string) :
  String.ltb a b = true -> String.leb b c = true -> String.ltb a c = true.
Proof.
  unfold String.ltb, String.leb. intros Hab Hbc.
  destruct (String.compare a b) eqn:Eab; try discriminate.
  destruct (String.compare b c) eqn:Ebc; try discriminate.
  - apply String.compare_eq_iff in Ebc. subst c. rewrite Eab. reflexivity.
  - apply OrderedTypeEx.String_as_OT.cmp_lt in Eab.
    apply OrderedTypeEx.String_as_OT.cmp_lt in Ebc.
    pose proof (OrderedTypeEx.String_as_OT.lt_trans _ _ _ Eab Ebc) as Hac.
    apply OrderedTypeEx.String_as_OT.cmp_lt in Hac.
    unfold OrderedTypeEx.String_as_OT.cmp in Hac. rewrite Hac. reflexivity.
Qed.

Lemma filter_filter_implied {A : Type} (f g : A -> bool) (l : list A) :
  (forall x, In x l -> f x = true -> g x = true) ->
  filter f (filter g l) = filter f l.
Proof.
  induction l as [|x rest IH]; intro H; simpl; [reflexivity|].
  assert (IH' : filter f (filter g rest) = filter f rest)
    by (apply IH; intros y Hy; apply H; right; exact Hy).
  destruct (g x) eqn:Eg; simpl.
  - rewrite IH'. reflexivity.
  - destruct (f x) eqn:Ef; [|exact IH'].
    rewrite (H x (or_introl eq_refl) Ef) in Eg. discriminate.
Qed.

Lemma filter_filter_excluded {A : Type} (f g : A -> bool) (l : list A) :
  (forall x, In x l -> g x = true -> f x = false) ->
  filter f (filter g l) = [].
Proof.
  intro H. apply filter_nil_iff. intros x Hx.
  apply filter_In in Hx. destruct Hx as [Hx Hg]. apply H; assumption.
Qed.

(** X14. Retention never reaches into the baseline window: when the
    cutoff text of [cleanup_old_data] is not later than the cutoff text of
    a baseline query, the query returns after the cleanup exactly what it
    returned before it, for every benchmark and platform. *)
Theorem cleanup_keeps_the_baseline (clk clk' : Clock) (db : Database)
    (retain_days days_back : Z) (retention_cutoff baseline_cutoff : string)
    (benchmark_name platform : string) :
  cutoff_date clk retain_days = Ok retention_cutoff ->
  cutoff_date clk' days_back = Ok baseline_cutoff ->
  String.leb retention_cutoff baseline_cutoff = true ->
  get_baseline_metrics clk' (snd (cleanup_old_data clk db retain_days))
    benchmark_name platform days_back
  = get_baseline_metrics clk' db benchmark_name platform days_back.
Proof.
  intros Hr Hb Hle.
  destruct (cleanup_old_data_tables clk db retain_days Hr) as [Hm _].
  unfold get_baseline_metrics, baseline_rows. rewrite Hb, Hm. cbn [bind].
  rewrite filter_filter_implied; [reflexivity|].
  intros row _ Hw. unfold baseline_where, baseline_eligible in Hw.
  unfold metric_is_old, row_timestamp.
  apply andb_true_iff in Hw. destruct Hw as [Hw _].
  apply andb_true_iff in Hw. destruct Hw as [_ Hlt].
  destruct (String.ltb (PerformanceMetric.timestamp (MetricRow.columns row))
              retention_cutoff) eqn:Eold; [|reflexivity].
  pose proof (string_ltb_leb_trans _ _ _ Eold Hle) as Hbad.
  rewrite (string_ltb_asym _ _ Hlt) in Hbad. discriminate.
Qed.

Lemma cleanup_keeps_the_baseline_witness :
  get_baseline_metrics noon (snd (cleanup_old_data noon store_of_last_year 365))
    "WORLD_Analysis" "Ubuntu GCC" 30
  = get_baseline_metrics noon store_of_last_year "WORLD_Analysis" "Ubuntu GCC" 30
  /\ performance_metrics (snd (cleanup_old_data noon store_of_last_year 365))
     <> performance_metrics store_of_last_year.
Proof.
  split.
  - apply (@cleanup_keeps_the_baseline noon noon store_of_last_year 365 30
             "2023-06-02T12:00:00" "2024-05-02T12:00:00");
      vm_compute; reflexivity.
  - vm_compute. discriminate.
Defined.

(** X15. A cleanup leaves nothing for a cleanup with the same or an
    earlier cutoff text: run on the database the first one left, the second
    one counts no old row, prints that there is nothing to clean up and
    leaves the database as it is.  In particular [cleanup_old_data] is
    idempotent at a fixed clock reading. *)
Theorem cleanup_leaves_nothing_older (clk clk' : Clock) (db : Database)
    (retain_days retain_days' : Z) (cutoff cutoff' : string) :
  cutoff_date clk retain_days = Ok cutoff ->
  cutoff_date clk' retain_days' = Ok cutoff' ->
  String.leb cutoff' cutoff = true ->
  cleanup_old_data clk' (snd (cleanup_old_data clk db retain_days)) retain_days'
  = (Ok (PyNone, [Cleaning_up retain_days'; No_old_data]),
     snd (cleanup_old_data clk db retain_days)).
Proof.
  intros Hc Hc' Hle.
  destruct (cleanup_old_data_tables clk db retain_days Hc) as [Hm Ha].
  unfold cleanup_old_data at 1. rewrite Hc', Hm, Ha.
  rewrite !filter_filter_excluded; [reflexivity| |].
  - intros row _ Hkept. unfold alert_is_old in *.
    destruct (String.ltb (AlertRow.created_at row) cutoff') eqn:E; [|reflexivity].
    rewrite (string_ltb_leb_trans _ _ _ E Hle) in Hkept. discriminate.
  - intros row _ Hkept. unfold metric_is_old in *.
    destruct (String.ltb (row_timestamp row) cutoff') eqn:E; [|reflexivity].
    rewrite (string_ltb_leb_trans _ _ _ E Hle) in Hkept. discriminate.
Qed.

Lemma cleanup_leaves_nothing_older_witness :
  cleanup_old_data noon (snd (cleanup_old_data noon store_of_last_year 365)) 365
  = (Ok (PyNone, [Cleaning_up 365; No_old_data]),
     snd (cleanup_old_data noon store_of_last_year 365))
  /\ fst (cleanup_old_data noon store_of_last_year 365)
     <> Ok (PyNone, [Cleaning_up 365; No_old_data]).
Proof.
  split.
  - apply (@cleanup_leaves_nothing_older noon noon store_of_last_year 365 365
             "2023-06-02T12:00:00" "2023-06-02T12:00:00");
      vm_compute; reflexivity.
  - vm_compute. discriminate.
Defined.

(** ** regression_detector.py: what makes the platform analysis raise *)

Fixpoint count_dots (s : string) : nat :=
  match s with
  | EmptyString => 0
  | String c rest => (if Ascii.eqb c "." then 1 else 0) + count_dots rest
  end.

Lemma decimal_digits_dot (s : string) :
  (1 <= count_dots s)%nat -> forall acc, decimal_digits s acc = None.
Proof.
  induction s as [|c rest IH]; simpl; intros H acc; [lia|].
  destruct (Ascii.eqb c ".") eqn:E.
  - apply Ascii.eqb_eq in E. subst c. reflexivity.
  - destruct (is_digit c); [apply IH; lia | reflexivity].
Qed.

Lemma split_at_dot_two (s : string) :
  (2 <= count_dots s)%nat ->
  exists whole frac,
    RD.split_at_dot s = (whole, Some frac) /\ (1 <= count_dots frac)%nat.
Proof.
  induction s as [|c rest IH]; simpl; intro H; [lia|].
  destruct (Ascii.eqb c ".").
  - exists EmptyString, rest. split; [reflexivity | lia].
  - destruct (IH H) as [whole [frac [E Hf]]]. rewrite E.
    exists (String c whole), frac. split; [reflexivity | exact Hf].
Qed.

(** [float] rejects a text with two dots. *)
Lemma float_of_two_dots (s : string) :
  (2 <= count_dots s)%nat -> RD.float_of_digits_and_dots s = Raise ValueError.
Proof.
  intro H. destruct (split_at_dot_two s H) as [whole [frac [E Hf]]].
  unfold RD.float_of_digits_and_dots. rewrite E.
  rewrite (decimal_digits_dot frac Hf).
  destruct (decimal_digits whole 0); reflexivity.
Qed.

(** The two exceptions of [float]: [ValueError] on a text, [OverflowError]
    on an int beyond the range of a double. *)
Definition raised_by_float (e : exn) : Prop :=
  e = ValueError \/ e = OverflowError.

Lemma float_of_digits_and_dots_raises (s : string) (e : exn) :
  RD.float_of_digits_and_dots s = Raise e -> e = ValueError.
Proof.
  unfold RD.float_of_digits_and_dots.
  destruct (RD.split_at_dot s) as [whole [frac|]];
    destruct (decimal_digits whole 0); try destruct (decimal_digits frac 0);
    intro H; congruence.
Qed.

Lemma _safe_get_numeric_raises (data : RD.item) (keys : list string) (e : exn) :
  RD._safe_get_numeric data keys = Raise e -> raised_by_float e.
Proof.
  induction keys as [|key rest IH]; simpl; [discriminate|].
  destruct (get data key) as [[| b | q | s | items | members]|];
    try exact IH; try discriminate.
  - unfold RD.float_of_number. destruct (is_finite (float_of_Q q));
      [discriminate|]. intro H. injection H as <-. right. reflexivity.
  - destruct (RD.isdigit (RD.remove_dots s)); [|exact IH].
    intro H. left. apply (float_of_digits_and_dots_raises _ H).
Qed.

(** An item whose [avg_execution_time_ns] is a text of digits and at least
    two dots, such as [1.2.3]. *)
Definition malformed_time (it : RD.item) : Prop :=
  exists s,
    get it "avg_execution_time_ns" = Some (JString s)
    /\ RD.isdigit (RD.remove_dots s) = true
    /\ (2 <= count_dots s)%nat.

Lemma _safe_get_numeric_malformed (it : RD.item) (keys : list string) :
  malformed_time it ->
  RD._safe_get_numeric it ("avg_execution_time_ns" :: keys) = Raise ValueError.
Proof.
  intros [s [Hget [Hdigits Hdots]]]. simpl. rewrite Hget, Hdigits.
  apply float_of_two_dots. exact Hdots.
Qed.

Lemma extract_timing_data_raises (data : list RD.item) (e : exn) :
  forall acc, RD.extract_timing_data data acc = Raise e -> raised_by_float e.
Proof.
  induction data as [|it rest IH]; intros acc H; [discriminate|].
  rewrite extract_timing_data_cons in H.
  destruct (RD._safe_get_numeric it _) as [avg|e'] eqn:E; cbn [bind] in H.
  - destruct (fgt avg 0); apply IH in H; exact H.
  - injection H as <-. apply _safe_get_numeric_raises in E. exact E.
Qed.

Lemma extract_timing_data_malformed (data : list RD.item) (it : RD.item) :
  In it data -> malformed_time it ->
  forall acc,
    exists e, RD.extract_timing_data data acc = Raise e /\ raised_by_float e.
Proof.
  intros Hin Hbad. induction data as [|x rest IH]; intro acc; [contradiction|].
  rewrite extract_timing_data_cons. destruct Hin as [->|Hin].
  - rewrite (_safe_get_numeric_malformed _ Hbad).
    exists ValueError. split; [reflexivity | left; reflexivity].
  - destruct (RD._safe_get_numeric x _) as [avg|e] eqn:E; cbn [bind].
    + destruct (fgt avg 0); apply IH; exact Hin.
    + exists e. split; [reflexivity|].
      apply _safe_get_numeric_raises in E. exact E.
Qed.

Lemma fmean_raises (l : list float) (e : exn) : fmean l = Raise e -> l = [].
Proof.
  destruct l as [|x rest]; [reflexivity|]. unfold fmean.
  destruct (filter (fun x => negb (is_finite x)) (x :: rest)); discriminate.
Qed.

(** The analysis of a benchmark raises nothing but what [float] raises:
    both halves of two or more timings are non-empty, and the divisors are
    not zero. *)
Lemma analyze_benchmark_raises (self : RD.RegressionDetector)
    (platform benchmark_name : string) (data : list RD.item) (e : exn) :
  RD.analyze_benchmark self platform benchmark_name data = Raise e ->
  raised_by_float e.
Proof.
  unfold RD.analyze_benchmark.
  destruct (List.length data <? 2)%nat; [discriminate|].
  destruct (RD.extract_timing_data data []) as [timing_data|e'] eqn:E;
    cbn [bind].
  2: { intro H. injection H as <-.
       apply extract_timing_data_raises in E. exact E. }
  destruct (List.length timing_data <? 2)%nat eqn:En; [discriminate|].
  apply Nat.ltb_ge in En.
  assert (Hmid : (1 <= List.length timing_data / 2)%nat).
  { change 1%nat with (2 / 2)%nat. apply Nat.Div0.div_le_mono. exact En. }
  assert (Hlt : (List.length timing_data / 2 < List.length timing_data)%nat)
    by (apply Nat.div_lt; lia).
  replace (0 <? List.length timing_data / 2)%nat with true
    by (symmetry; apply Nat.ltb_lt; lia).
  destruct (fmean (firstn (List.length timing_data / 2) timing_data))
    as [b|e1] eqn:Eb; cbn [bind].
  2: { apply fmean_raises in Eb. apply (f_equal (@List.length float)) in Eb.
       rewrite length_firstn in Eb. cbn [List.length] in Eb. lia. }
  destruct (fmean (skipn (List.length timing_data / 2) timing_data))
    as [c|e2] eqn:Ec; cbn [bind].
  2: { apply fmean_raises in Ec. apply (f_equal (@List.length float)) in Ec.
       rewrite length_skipn in Ec. cbn [List.length] in Ec. lia. }
  destruct (fgt b 0) eqn:Epos; [|discriminate].
  rewrite (truediv_positive _ _ Epos). cbn [bind].
  destruct (fgt _ (RD.threshold self)); [|discriminate].
  rewrite !truediv_million. cbn [bind]. cbv zeta.
  match goal with
  | |- (if ?c then _ else _) = _ -> _ => destruct c; intro H; discriminate H
  end.
Qed.

Lemma analyze_benchmark_malformed (self : RD.RegressionDetector)
    (platform benchmark_name : string) (data : list RD.item) (it : RD.item) :
  (2 <= List.length data)%nat -> In it data -> malformed_time it ->
  exists e,
    RD.analyze_benchmark self platform benchmark_name data = Raise e
    /\ raised_by_float e.
Proof.
  intros Hlen Hin Hbad. unfold RD.analyze_benchmark.
  replace (List.length data <? 2)%nat with false
    by (symmetry; apply Nat.ltb_ge; exact Hlen).
  destruct (extract_timing_data_malformed data Hin Hbad []) as [e [He Hr]].
  rewrite He. exists e. split; [reflexivity | exact Hr].
Qed.

(** X16. [_safe_get_numeric] lets a text through to [float] when it is
    made of digits once its dots are removed, so a text with two dots
    ([1.2.3]) raises [ValueError] instead of being skipped.  One such
    [avg_execution_time_ns] in any group of at least two items makes
    [_analyze_platform_regressions] raise for the whole platform and return
    no finding, whatever the other benchmarks hold: the exception is that
    [ValueError], unless [float] has raised before on an earlier item (a
    [ValueError] again, or the [OverflowError] of an int beyond the range of
    a double). *)
Theorem malformed_decimal_aborts_platform (self : RD.RegressionDetector)
    (platform benchmark_name : string)
    (platform_data : list (string * list RD.item))
    (benchmark_data : list RD.item) (it : RD.item) :
  In (benchmark_name, benchmark_data) platform_data ->
  (2 <= List.length benchmark_data)%nat ->
  In it benchmark_data ->
  malformed_time it ->
  exists e,
    RD._analyze_platform_regressions self platform platform_data = Raise e
    /\ (e = ValueError \/ e = OverflowError).
Proof.
  intros Hin Hlen Hit Hbad. unfold RD._analyze_platform_regressions.
  generalize (@nil RD.regression_data) at 1.
  generalize (@nil RD.regression_data).
  induction platform_data as [|[name data] rest IH]; intros imps regs;
    [contradiction|].
  cbn [RD.analyze_platform_loop].
  destruct Hin as [Heq|Hin].
  - injection Heq as -> ->.
    destruct (analyze_benchmark_malformed self platform benchmark_name
                benchmark_data Hlen Hit Hbad) as [e [He Hr]].
    rewrite He. exists e. split; [reflexivity | exact Hr].
  - destruct (RD.analyze_benchmark self platform name data) as [f|e] eqn:E;
      cbn [bind].
    + destruct f; apply IH; exact Hin.
    + exists e. split; [reflexivity|].
      apply analyze_benchmark_raises in E. exact E.
Qed.

Lemma malformed_decimal_aborts_platform_witness :
  exists e,
    RD._analyze_platform_regressions RD.RegressionDetector_init "Ubuntu"
      [("WORLD_Analysis", [timing 100; timing 150]);
       ("WORLD_Synthesis",
        [timing 100; [("avg_execution_time_ns", JString "1.2.3")]])]
    = Raise e
    /\ (e = ValueError \/ e = OverflowError).
Proof.
  apply (@malformed_decimal_aborts_platform RD.RegressionDetector_init "Ubuntu"
           "WORLD_Synthesis" _
           [timing 100; [("avg_execution_time_ns", JString "1.2.3")]]
           [("avg_execution_time_ns", JString "1.2.3")]).
  - right. left. reflexivity.
  - simpl. lia.
  - right. left. reflexivity.
  - exists "1.2.3". repeat split. simpl. lia.
Defined.

(** ** regression_detector.py: the loop over the benchmarks of a platform *)

Definition regressions_of (f : result RD.finding) : list RD.regression_data :=
  match f with
  | Ok (RD.Regression r) => [r]
  | _ => []
  end.

Definition improvements_of (f : result RD.finding) : list RD.regression_data :=
  match f with
  | Ok (RD.Improvement r) => [r]
  | _ => []
  end.

Lemma analyze_platform_loop_spec (self : RD.RegressionDetector)
    (platform : string) (platform_data : list (string * list RD.item)) :
  (forall entry, In entry platform_data ->
     exists f, RD.analyze_benchmark self platform (fst entry) (snd entry) = Ok f) ->
  forall regs imps,
    RD.analyze_platform_loop self platform platform_data regs imps
    = Ok (regs ++ flat_map (fun entry =>
                    regressions_of
                      (RD.analyze_benchmark self platform (fst entry) (snd entry)))
                  platform_data,
          imps ++ flat_map (fun entry =>
                    improvements_of
                      (RD.analyze_benchmark self platform (fst entry) (snd entry)))
                  platform_data)%list.
Proof.
  induction platform_data as [|[name data] rest IH]; intros Hok regs imps.
  - simpl. rewrite !app_nil_r. reflexivity.
  - cbn [RD.analyze_platform_loop flat_map fst snd].
    destruct (Hok (name, data) (or_introl eq_refl)) as [f Hf].
    cbn [fst snd] in Hf. rewrite Hf. cbn [bind].
    assert (Hrest : forall entry, In entry rest ->
              exists f, RD.analyze_benchmark self platform (fst entry) (snd entry) = Ok f)
      by (intros entry Hin; apply Hok; right; exact Hin).
    destruct f; rewrite (IH Hrest); cbn [regressions_of improvements_of];
      rewrite <- ?app_assoc; reflexivity.
Qed.

(** X17. When no benchmark of the platform makes the analysis raise,
    [_analyze_platform_regressions] returns the findings benchmark by
    benchmark in the order of the dict: each benchmark gives at most one
    entry, in the regressions or in the improvements, so the two lists
    together are never longer than the number of benchmarks. *)
Theorem platform_findings_follow_the_benchmarks (self : RD.RegressionDetector)
    (platform : string) (platform_data : list (string * list RD.item)) :
  (forall entry, In entry platform_data ->
     exists f, RD.analyze_benchmark self platform (fst entry) (snd entry) = Ok f) ->
  exists regressions improvements,
    RD._analyze_platform_regressions self platform platform_data
    = Ok (regressions, improvements)
    /\ regressions
       = flat_map (fun entry =>
                     regressions_of
                       (RD.analyze_benchmark self platform (fst entry) (snd entry)))
                  platform_data
    /\ improvements
       = flat_map (fun entry =>
                     improvements_of
                       (RD.analyze_benchmark self platform (fst entry) (snd entry)))
                  platform_data
    /\ (List.length regressions + List.length improvements
        <= List.length platform_data)%nat.
Proof.
  intro Hok. unfold RD._analyze_platform_regressions.
  rewrite (analyze_platform_loop_spec self platform platform_data Hok).
  cbn [app]. eexists. eexists. split; [reflexivity|].
  split; [reflexivity|]. split; [reflexivity|].
  clear Hok. induction platform_data as [|entry rest IH]; [simpl; lia|].
  cbn [flat_map]. rewrite !length_app. cbn [List.length].
  destruct (RD.analyze_benchmark self platform (fst entry) (snd entry))
    as [[| r | r]|e]; cbn [regressions_of improvements_of List.length]; lia.
Qed.

Lemma platform_findings_follow_the_benchmarks_witness :
  exists r,
    RD._analyze_platform_regressions RD.RegressionDetector_init "Ubuntu"
      [("WORLD_Analysis", [timing 100; timing 150]);
       ("WORLD_Synthesis", [timing 100])]
    = Ok ([r], [])
    /\ RD.regression_percent r = float_of_Q 50.
Proof.
  destruct (@platform_findings_follow_the_benchmarks RD.RegressionDetector_init
              "Ubuntu"
              [("WORLD_Analysis", [timing 100; timing 150]);
               ("WORLD_Synthesis", [timing 100])])
    as [regs [imps [Hrun [Hr [Hi _]]]]].
  - intros entry [<-|[<-|[]]]; eexists; vm_compute; reflexivity.
  - vm_compute in Hr. vm_compute in Hi. subst regs imps.
    eexists. split; [exact Hrun | reflexivity].
Defined.

(** ** regression_detector.py: how main ends *)

(** X18. How [main] of [regression_detector.py] ends.  A missing input
    directory gives exit status 1.  When the input directory yields no
    benchmark item - no file, unreadable files, empty lists -
    [detect_regressions] returns the short dict without the key
    [regressions_detected] and [main] ends in a [KeyError] on that key
    instead of an exit status.  When [main] returns from a completed
    analysis, the status is 1 exactly when the list of regressions is not
    empty: improvements never fail the run. *)
Theorem regression_detector_main_ends (threshold : Q) (lookback_days : Z)
    (now : datetime) :
  RD.main threshold lookback_days now None = Some (RD.Returns 1)
  /\ (forall files,
        RD._load_all_benchmark_data files = Ok [] ->
        RD.main threshold lookback_days now (Some files)
        = Some (RD.KeyError "regressions_detected"))
  /\ (forall files status,
        RD.main threshold lookback_days now (Some files)
        = Some (RD.Returns status) ->
        exists report,
          RD.detect_regressions (RD.mk_RegressionDetector threshold lookback_days)
            now files = Some (Ok (RD.Analysed report))
          /\ RD.regression_report.regressions_detected report
             = List.length (RD.regression_report.regressions report)
          /\ (status = 1%Z <-> RD.regression_report.regressions report <> [])
          /\ (status = 0%Z <-> RD.regression_report.regressions report = [])).
Proof.
  split; [reflexivity|]. split.
  - intros files Hload. unfold RD.main, RD.detect_regressions.
    rewrite Hload. reflexivity.
  - intros files status. unfold RD.main.
    destruct (RD.detect_regressions _ now files) as [[[|report]|e]|] eqn:Ed;
      try discriminate.
    intro H. exists report. split; [reflexivity|].
    assert (Hcount : RD.regression_report.regressions_detected report
                     = List.length (RD.regression_report.regressions report)).
    { unfold RD.detect_regressions in Ed.
      destruct (RD._load_all_benchmark_data files) as [[|it all_data]|e];
        try discriminate.
      destruct (RD._group_benchmark_data (it :: all_data)) as [grouped|e];
        try discriminate.
      destruct (RD.grouped_texts grouped) as [grouped_data|]; try discriminate.
      destruct (RD.analyze_platforms _ grouped_data [] []) as [found|e];
        cbn [bind] in Ed; try discriminate.
      injection Ed as <-. reflexivity. }
    split; [exact Hcount|]. rewrite Hcount in H.
    destruct (RD.regression_report.regressions report) as [|r rest];
      cbn in H; injection H as <-.
    + split; split; intro H; try reflexivity; try discriminate; congruence.
    + split; split; intro H; try reflexivity; try discriminate.
Qed.

(** ** regression_detector.py: grouping *)

Lemma Qeqb_sym (x y : Q) : Qeqb x y = Qeqb y x.
Proof.
  unfold Qeqb. destruct (Qeq_bool x y) eqn:E1, (Qeq_bool y x) eqn:E2;
    try reflexivity.
  - apply Qeq_bool_iff in E1. symmetry in E1. apply Qeq_bool_iff in E1.
    congruence.
  - apply Qeq_bool_iff in E2. symmetry in E2. apply Qeq_bool_iff in E2.
    congruence.
Qed.

Lemma Qeqb_trans (x y z : Q) :
  Qeqb x y = true -> Qeqb y z = true -> Qeqb x z = true.
Proof.
  unfold Qeqb. intros H1 H2. apply Qeq_bool_iff in H1, H2.
  apply Qeq_bool_iff. rewrite H1. exact H2.
Qed.

Lemma Qeqb_refl (x : Q) : Qeqb x x = true.
Proof. unfold Qeqb. apply Qeq_bool_iff. reflexivity. Qed.

Lemma json_key_eqb_sym (a b : json) : RD.key_eqb a b = RD.key_eqb b a.
Proof.
  destruct a, b; simpl; try reflexivity;
    first [apply Qeqb_sym | apply String.eqb_sym].
Qed.

Lemma json_key_eqb_trans (a b c : json) :
  RD.key_eqb a b = true -> RD.key_eqb b c = true -> RD.key_eqb a c = true.
Proof.
  destruct a, b, c; simpl; intros H1 H2; try discriminate; try reflexivity;
    try (eapply Qeqb_trans; eassumption).
  apply String.eqb_eq in H1, H2. subst. apply String.eqb_refl.
Qed.

Lemma json_key_eqb_refl (k : json) : RD.hashable k = true -> RD.key_eqb k k = true.
Proof.
  destruct k; simpl; intro H; try discriminate; try reflexivity;
    first [apply Qeqb_refl | apply String.eqb_refl].
Qed.

(** Equal keys answer alike. *)
Lemma json_key_eqb_congr (k q q' : json) :
  RD.key_eqb q q' = true -> RD.key_eqb k q = RD.key_eqb k q'.
Proof.
  intro H. destruct (RD.key_eqb k q) eqn:E1, (RD.key_eqb k q') eqn:E2;
    try reflexivity.
  - rewrite (json_key_eqb_trans _ _ _ E1 H) in E2. discriminate.
  - rewrite json_key_eqb_sym in H. rewrite (json_key_eqb_trans _ _ _ E2 H) in E1.
    discriminate.
Qed.

Lemma lookup_congr {V : Type} (d : list (json * V)) (q q' : json) :
  RD.key_eqb q q' = true -> RD.lookup d q = RD.lookup d q'.
Proof.
  intro H. induction d as [|[k v] rest IH]; simpl; [reflexivity|].
  rewrite (json_key_eqb_congr k _ _ H), IH. reflexivity.
Qed.

(** Reading a dict after an assignment. *)
Lemma lookup_store {V : Type} (d : list (json * V)) (k q : json) (v : V) :
  RD.lookup (RD.store d k v) q
  = if RD.key_eqb k q then Some v else RD.lookup d q.
Proof.
  induction d as [|[k0 v0] rest IH]; simpl; [reflexivity|].
  destruct (RD.key_eqb k0 k) eqn:E1; simpl.
  - destruct (RD.key_eqb k0 q) eqn:E2.
    + rewrite json_key_eqb_sym in E1.
      rewrite (json_key_eqb_trans _ _ _ E1 E2). reflexivity.
    + destruct (RD.key_eqb k q) eqn:E3; [|reflexivity].
      rewrite (json_key_eqb_trans _ _ _ E1 E3) in E2. discriminate.
  - rewrite IH. destruct (RD.key_eqb k0 q) eqn:E2; [|reflexivity].
    destruct (RD.key_eqb k q) eqn:E3; [|reflexivity].
    rewrite json_key_eqb_sym in E3.
    rewrite (json_key_eqb_trans _ _ _ E2 E3) in E1. discriminate.
Qed.

Lemma lookup_In {V : Type} (d : list (json * V)) (q : json) (v : V) :
  RD.lookup d q = Some v -> exists k, In (k, v) d /\ RD.key_eqb k q = true.
Proof.
  induction d as [|[k0 v0] rest IH]; simpl; [discriminate|].
  destruct (RD.key_eqb k0 q) eqn:E.
  - intro H. injection H as ->. exists k0. split; [left; reflexivity | exact E].
  - intro H. destruct (IH H) as [k [Hin Hk]].
    exists k. split; [right; exact Hin | exact Hk].
Qed.

Lemma In_store {V : Type} (d : list (json * V)) (k0 k : json) (v0 v : V) :
  In (k, v) (RD.store d k0 v0) -> v = v0 \/ In (k, v) d.
Proof.
  induction d as [|[k1 v1] rest IH]; simpl.
  - intros [H|[]]. injection H as _ <-. left. reflexivity.
  - destruct (RD.key_eqb k1 k0); simpl.
    + intros [H|H]; [injection H as _ <-; left; reflexivity | right; right; exact H].
    + intros [H|H]; [right; left; exact H|].
      destruct (IH H) as [->|Hin]; [left; reflexivity | right; right; exact Hin].
Qed.

(** A dict: hashable keys, no two of them equal. *)
Inductive keyed {V : Type} : list (json * V) -> Prop :=
| keyed_nil : keyed []
| keyed_cons (k : json) (v : V) (d : list (json * V)) :
    RD.hashable k = true -> RD.lookup d k = None -> keyed d ->
    keyed ((k, v) :: d).

Lemma keyed_store {V : Type} (d : list (json * V)) (k : json) (v : V) :
  RD.hashable k = true -> keyed d -> keyed (RD.store d k v).
Proof.
  intros Hk Hd. induction Hd as [|k0 v0 d Hk0 Hnone Hd IH]; simpl.
  - constructor; [exact Hk | reflexivity | constructor].
  - destruct (RD.key_eqb k0 k) eqn:E.
    + constructor; assumption.
    + constructor; [exact Hk0 | | exact IH].
      rewrite lookup_store, json_key_eqb_sym, E. exact Hnone.
Qed.

Lemma keyed_In_lookup {V : Type} (d : list (json * V)) (k : json) (v : V) :
  keyed d -> In (k, v) d -> RD.lookup d k = Some v /\ RD.hashable k = true.
Proof.
  intro Hd. induction Hd as [|k0 v0 d Hk0 Hnone Hd IH]; simpl; [contradiction|].
  intros [H|H].
  - injection H as -> ->. rewrite (json_key_eqb_refl _ Hk0). split; [reflexivity | exact Hk0].
  - destruct (IH H) as [Hl Hh]. split; [|exact Hh].
    destruct (RD.key_eqb k0 k) eqn:E; [|exact Hl].
    rewrite (lookup_congr d _ _ E) in Hnone. congruence.
Qed.

(** [grouped[platform][benchmark_name]], when both keys are there. *)
Definition lookup2 (grouped : list (json * list (json * list RD.item)))
    (platform benchmark_name : json) : option (list RD.item) :=
  match RD.lookup grouped platform with
  | Some by_name => RD.lookup by_name benchmark_name
  | None => None
  end.

(** The items that belong under the two keys. *)
Definition in_group (platform benchmark_name : json) (it : RD.item) : bool :=
  RD.key_eqb (RD.platform_key it) platform
  && RD.key_eqb (RD.name_key it) benchmark_name.

Definition items_or_none (o : option (list RD.item)) : list RD.item :=
  match o with
  | Some items => items
  | None => []
  end.

Lemma group_item_lookup (grouped grouped' : list (json * list (json * list RD.item)))
    (it : RD.item) :
  RD.group_item grouped it = Ok grouped' ->
  forall p n,
    lookup2 grouped' p n
    = if in_group p n it
      then Some (items_or_none (lookup2 grouped p n) ++ [it])%list
      else lookup2 grouped p n.
Proof.
  unfold RD.group_item.
  destruct (RD.hashable (RD.platform_key it)); cbn [negb]; [|discriminate].
  destruct (RD.hashable (RD.name_key it)); cbn [negb]; [|discriminate].
  intro H. injection H as <-. intros p n.
  unfold lookup2, in_group. rewrite lookup_store.
  destruct (RD.key_eqb (RD.platform_key it) p) eqn:Ep; cbn [andb];
    [|reflexivity].
  rewrite <- (lookup_congr grouped _ _ Ep).
  rewrite lookup_store.
  destruct (RD.key_eqb (RD.name_key it) n) eqn:En.
  - destruct (RD.lookup grouped (RD.platform_key it)) as [by_name|].
    + rewrite <- (lookup_congr by_name _ _ En).
      destruct (RD.lookup by_name (RD.name_key it)); reflexivity.
    + reflexivity.
  - destruct (RD.lookup grouped (RD.platform_key it)); reflexivity.
Qed.

Lemma group_items_lookup (all_data : list RD.item) :
  forall grouped grouped',
    RD.group_items all_data grouped = Ok grouped' ->
    forall p n,
      lookup2 grouped' p n
      = match filter (in_group p n) all_data with
        | [] => lookup2 grouped p n
        | l => Some (items_or_none (lookup2 grouped p n) ++ l)%list
        end.
Proof.
  induction all_data as [|it rest IH]; intros grouped grouped' H p n.
  - injection H as <-. reflexivity.
  - cbn [RD.group_items] in H.
    destruct (RD.group_item grouped it) as [g1|e] eqn:E1; cbn [bind] in H;
      [|discriminate].
    rewrite (IH _ _ H p n), (@group_item_lookup _ _ _ E1 p n).
    cbn [filter]. destruct (in_group p n it).
    + cbn [items_or_none].
      destruct (filter (in_group p n) rest); [reflexivity|].
      rewrite <- app_assoc. reflexivity.
    + reflexivity.
Qed.

(** The shape of the grouped dict: keys that are dict keys, and no platform
    without a benchmark. *)
Definition well_grouped (grouped : list (json * list (json * list RD.item)))
    : Prop :=
  keyed grouped
  /\ forall p by_name, In (p, by_name) grouped -> keyed by_name /\ by_name <> [].

Lemma store_not_nil {V : Type} (d : list (json * V)) (k : json) (v : V) :
  RD.store d k v <> [].
Proof.
  destruct d as [|[k0 v0] rest]; simpl; [discriminate|].
  destruct (RD.key_eqb k0 k); discriminate.
Qed.

Lemma group_item_well_grouped
    (grouped grouped' : list (json * list (json * list RD.item))) (it : RD.item) :
  RD.group_item grouped it = Ok grouped' ->
  well_grouped grouped ->
  well_grouped grouped'
  /\ RD.hashable (RD.platform_key it) = true
  /\ RD.hashable (RD.name_key it) = true.
Proof.
  unfold RD.group_item. intros H [Hk Hin].
  destruct (RD.hashable (RD.platform_key it)) eqn:Hp; cbn [negb] in H;
    [|discriminate].
  destruct (RD.hashable (RD.name_key it)) eqn:Hn; cbn [negb] in H;
    [|discriminate].
  injection H as <-. split; [|split; reflexivity]. split.
  - apply keyed_store; assumption.
  - intros p by_name Hentry. apply In_store in Hentry.
    destruct Hentry as [->|Hold]; [|apply (Hin p); exact Hold].
    split; [|apply store_not_nil].
    apply keyed_store; [exact Hn|].
    destruct (RD.lookup grouped (RD.platform_key it)) as [b|] eqn:El;
      [|constructor].
    apply lookup_In in El. destruct El as [k [Hk' _]].
    apply (Hin k b Hk').
Qed.

Lemma group_items_well_grouped (all_data : list RD.item) :
  forall grouped grouped',
    RD.group_items all_data grouped = Ok grouped' ->
    well_grouped grouped ->
    well_grouped grouped'
    /\ forall it, In it all_data ->
         RD.hashable (RD.platform_key it) = true
         /\ RD.hashable (RD.name_key it) = true.
Proof.
  induction all_data as [|x rest IH]; intros grouped grouped' H Hw.
  - injection H as <-. split; [exact Hw | intros it []].
  - cbn [RD.group_items] in H.
    destruct (RD.group_item grouped x) as [g1|e] eqn:E1; cbn [bind] in H;
      [|discriminate].
    destruct (@group_item_well_grouped _ _ _ E1 Hw) as [Hw1 Hx].
    destruct (IH _ _ H Hw1) as [Hw' Hrest].
    split; [exact Hw'|]. intros it [<-|Hit]; [exact Hx | apply Hrest; exact Hit].
Qed.

Lemma well_grouped_nil : well_grouped [].
Proof. split; [constructor | intros p by_name []]. Qed.

(** X19. [_group_benchmark_data] partitions the items.  When it returns,
    every list it holds under a platform and a benchmark name is not empty
    and is exactly the items with that platform and that name, in the order
    they came; every item is in one of the lists; and neither level of the
    dict holds a key twice (keys are compared as Python compares dict keys:
    [1], [1.0] and [True] are one key). *)
Theorem grouping_partitions_the_items (all_data : list RD.item)
    (grouped : list (json * list (json * list RD.item))) :
  RD._group_benchmark_data all_data = Ok grouped ->
  (forall p by_name n items,
     In (p, by_name) grouped -> In (n, items) by_name ->
     items <> [] /\ items = filter (in_group p n) all_data)
  /\ (forall it, In it all_data ->
        exists p by_name n items,
          In (p, by_name) grouped /\ In (n, items) by_name /\ In it items)
  /\ keyed grouped
  /\ (forall p by_name, In (p, by_name) grouped -> keyed by_name).
Proof.
  unfold RD._group_benchmark_data. intro H.
  destruct (@group_items_well_grouped _ _ _ H well_grouped_nil) as [[Hk Hin] Hhash].
  pose proof (@group_items_lookup _ _ _ H) as Hlook.
  split; [|split; [|split; [exact Hk | intros p b Hb; apply (Hin p b Hb)]]].
  - intros p by_name n items Hp Hn.
    destruct (@keyed_In_lookup _ _ _ _ Hk Hp) as [Hl1 _].
    destruct (Hin p by_name Hp) as [Hkb _].
    destruct (@keyed_In_lookup _ _ _ _ Hkb Hn) as [Hl2 _].
    specialize (Hlook p n). unfold lookup2 in Hlook at 1.
    rewrite Hl1, Hl2 in Hlook.
    destruct (filter (in_group p n) all_data) as [|x l]; [discriminate|].
    cbn in Hlook. injection Hlook as ->. split; [discriminate | reflexivity].
  - intros it Hit. destruct (Hhash it Hit) as [Hp Hn].
    specialize (Hlook (RD.platform_key it) (RD.name_key it)).
    assert (Hmem : In it (filter (in_group (RD.platform_key it) (RD.name_key it))
                            all_data)).
    { apply filter_In. split; [exact Hit|]. unfold in_group.
      rewrite (json_key_eqb_refl _ Hp), (json_key_eqb_refl _ Hn). reflexivity. }
    destruct (filter (in_group (RD.platform_key it) (RD.name_key it)) all_data)
      as [|x l] eqn:Ef; [contradiction|].
    cbn in Hlook. unfold lookup2 in Hlook.
    destruct (RD.lookup grouped (RD.platform_key it)) as [by_name|] eqn:E1;
      [|discriminate].
    apply lookup_In in E1. destruct E1 as [p [Hpin _]].
    apply lookup_In in Hlook. destruct Hlook as [n [Hnin _]].
    exists p, by_name, n, (x :: l). repeat split; assumption.
Qed.

(** Two items of one benchmark around an item of another, and a name given
    once as [1] and once as [true]: one group. *)
Definition items_with_mixed_names : list RD.item :=
  [[("benchmark_name", JString "fft"); ("run", JNumber 1)];
   [("benchmark_name", JNumber 1)];
   [("benchmark_name", JString "fft"); ("run", JNumber 2)];
   [("benchmark_name", JBool true)]].

Lemma grouping_partitions_the_items_witness :
  [[("benchmark_name", JNumber 1)]; [("benchmark_name", JBool true)]] <> []
  /\ [[("benchmark_name", JNumber 1)]; [("benchmark_name", JBool true)]]
     = filter (in_group (JString "Unknown") (JNumber 1)) items_with_mixed_names.
Proof.
  destruct (@grouping_partitions_the_items items_with_mixed_names _
              ltac:(vm_compute; reflexivity)) as [Hgroups _].
  apply (Hgroups (JString "Unknown") _ (JNumber 1) _ (or_introl eq_refl)
           (or_intror (or_introl eq_refl))).
Defined.

(** ** regression_detector.py: what the loader hands to the grouping *)

Lemma get_setitem_same (members : RD.item) (key : string) (v : json) :
  get (RD.setitem members key v) key = Some v.
Proof.
  induction members as [|[k0 v0] rest IH]; simpl.
  - rewrite String.eqb_refl. reflexivity.
  - destruct (String.eqb k0 key) eqn:E; simpl; rewrite E; [reflexivity | exact IH].
Qed.

Lemma get_setitem_other (members : RD.item) (key key' : string) (v : json) :
  String.eqb key key' = false ->
  get (RD.setitem members key v) key' = get members key'.
Proof.
  intro Hne. induction members as [|[k0 v0] rest IH]; simpl.
  - rewrite Hne. reflexivity.
  - destruct (String.eqb k0 key) eqn:E; simpl.
    + apply String.eqb_eq in E. subst k0. rewrite Hne. reflexivity.
    + rewrite IH. reflexivity.
Qed.

(** An item as the loader leaves it: tagged with the platform and the path
    of its file, its other keys as the file has them. *)
Definition tagged_from (path_str : string) (it : RD.item) : Prop :=
  get it "_platform" = Some (JString (RD._extract_platform_from_path path_str))
  /\ get it "_source_file" = Some (JString path_str).

Lemma tag_item_tagged (path_str : string) (v : json) (it : RD.item) :
  RD.tag_item (RD._extract_platform_from_path path_str) path_str v = Ok it ->
  tagged_from path_str it.
Proof.
  destruct v; simpl; try discriminate. intro H. injection H as <-.
  split.
  - rewrite get_setitem_other by reflexivity. apply get_setitem_same.
  - apply get_setitem_same.
Qed.

Definition tagged_from_one_of (files : list (string * option json))
    (it : RD.item) : Prop :=
  exists path_str contents, In (path_str, contents) files /\ tagged_from path_str it.

Lemma tag_items_tagged (files : list (string * option json))
    (path_str : string) (contents : option json) (items : list json) :
  In (path_str, contents) files ->
  forall all_data out,
    RD.tag_items (RD._extract_platform_from_path path_str) path_str items all_data
    = Ok out ->
    Forall (tagged_from_one_of files) all_data ->
    Forall (tagged_from_one_of files) out.
Proof.
  intro Hin. induction items as [|v rest IH]; intros all_data out H Hall.
  - injection H as <-. exact Hall.
  - cbn [RD.tag_items] in H.
    destruct (RD.tag_item _ path_str v) as [it|e] eqn:E; cbn [bind] in H;
      [|discriminate].
    apply (IH _ _ H). apply Forall_app. split; [exact Hall|].
    constructor; [|constructor].
    exists path_str, contents. split; [exact Hin|].
    apply (@tag_item_tagged _ _ _ E).
Qed.

Lemma load_json_file_tagged (files : list (string * option json))
    (file : string * option json) (all_data out : list RD.item) :
  In file files ->
  RD.load_json_file all_data file = Ok out ->
  Forall (tagged_from_one_of files) all_data ->
  Forall (tagged_from_one_of files) out.
Proof.
  destruct file as [path_str contents]. intros Hin H Hall.
  unfold RD.load_json_file in H.
  destruct contents as [data|]; [|injection H as <-; exact Hall].
  destruct data as [| b | q | s | items | members];
    try (injection H as <-; exact Hall).
  - apply (@tag_items_tagged _ _ _ _ Hin _ _ H Hall).
  - destruct (get members "results") as [[| b | q | s | items | ms]|] eqn:Er;
      try discriminate.
    + destruct s; [injection H as <-; exact Hall | discriminate].
    + apply (@tag_items_tagged _ _ _ _ Hin _ _ H Hall).
    + destruct ms; [injection H as <-; exact Hall | discriminate].
    + destruct (RD.tag_item _ path_str (JObject members)) as [it|e] eqn:E;
        cbn [bind] in H; [|discriminate].
      injection H as <-. apply Forall_app. split; [exact Hall|].
      constructor; [|constructor].
      exists path_str, (Some (JObject members)). split; [exact Hin|].
      apply (@tag_item_tagged _ _ _ E).
Qed.

Lemma load_json_files_tagged (files : list (string * option json)) :
  forall some_files all_data out,
    (forall file, In file some_files -> In file files) ->
    RD.load_json_files some_files all_data = Ok out ->
    Forall (tagged_from_one_of files) all_data ->
    Forall (tagged_from_one_of files) out.
Proof.
  induction some_files as [|file rest IH]; intros all_data out Hsub H Hall.
  - injection H as <-. exact Hall.
  - cbn [RD.load_json_files] in H.
    destruct (RD.load_json_file all_data file) as [d1|e] eqn:E; cbn [bind] in H;
      [|discriminate].
    apply (IH d1 out); [intros f Hf; apply Hsub; right; exact Hf | exact H |].
    apply (@load_json_file_tagged files file _ _ (Hsub file (or_introl eq_refl)) E Hall).
Qed.

Lemma _extract_platform_from_path_range (path_str : string) :
  In (RD._extract_platform_from_path path_str)
     ["Windows"; "Ubuntu"; "macOS"; "Unknown"].
Proof.
  unfold RD._extract_platform_from_path.
  destruct (_ || _)%bool; [simpl; tauto|].
  destruct (_ || _)%bool; [simpl; tauto|].
  destruct (_ || _)%bool; simpl; tauto.
Qed.

(** X20. Every item that [_load_all_benchmark_data] returns is tagged with
    the path of one of the files and with the platform read off that path,
    whatever [_platform] the file itself may give.  Grouping such data
    never fails on the platform and gives at most the four platforms
    [Windows], [Ubuntu], [macOS] and [Unknown]. *)
Theorem loaded_items_are_tagged (files : list (string * option json))
    (all_data : list RD.item) :
  RD._load_all_benchmark_data files = Ok all_data ->
  (forall it, In it all_data ->
     exists path_str contents,
       In (path_str, contents) files
       /\ get it "_platform"
          = Some (JString (RD._extract_platform_from_path path_str))
       /\ get it "_source_file" = Some (JString path_str))
  /\ (forall grouped p by_name,
        RD._group_benchmark_data all_data = Ok grouped ->
        In (p, by_name) grouped ->
        exists s, p = JString s /\ In s ["Windows"; "Ubuntu"; "macOS"; "Unknown"]).
Proof.
  intro Hload.
  assert (Htag : Forall (tagged_from_one_of files) all_data).
  { apply (@load_json_files_tagged files files [] _ (fun f H => H) Hload).
    constructor. }
  rewrite Forall_forall in Htag. split.
  - intros it Hit. destruct (Htag it Hit) as [path_str [contents [Hin [H1 H2]]]].
    exists path_str, contents. repeat split; assumption.
  - intros grouped p by_name Hg Hp. unfold RD._group_benchmark_data in Hg.
    destruct (@group_items_well_grouped _ _ _ Hg well_grouped_nil) as [[Hk Hin] _].
    destruct (Hin p by_name Hp) as [Hkb Hne].
    destruct by_name as [|[n items] rest]; [contradiction Hne; reflexivity|].
    destruct (@keyed_In_lookup _ _ _ _ Hk Hp) as [Hl1 _].
    destruct (@keyed_In_lookup _ _ _ _ Hkb (or_introl eq_refl)) as [Hl2 _].
    pose proof (@group_items_lookup _ _ _ Hg p n) as Hlook.
    unfold lookup2 in Hlook at 1. rewrite Hl1, Hl2 in Hlook.
    destruct (filter (in_group p n) all_data) as [|x l] eqn:Ef; [discriminate|].
    assert (Hx : In x (filter (in_group p n) all_data))
      by (rewrite Ef; left; reflexivity).
    apply filter_In in Hx. destruct Hx as [Hxin Hgrp].
    destruct (Htag x Hxin) as [path_str [contents [_ [Hplat _]]]].
    unfold in_group in Hgrp. apply andb_true_iff in Hgrp.
    destruct Hgrp as [Hpk _]. unfold RD.platform_key in Hpk.
    rewrite Hplat in Hpk.
    exists (RD._extract_platform_from_path path_str). split.
    + destruct p; simpl in Hpk; try discriminate.
      apply String.eqb_eq in Hpk. subst. reflexivity.
    + apply _extract_platform_from_path_range.
Qed.

Lemma loaded_items_are_tagged_witness :
  exists it,
    RD._load_all_benchmark_data
      [("results/ubuntu-latest/bench.json",
        Some (JObject [("_platform", JString "Amiga");
                       ("benchmark_name", JString "fft")]))]
    = Ok [it]
    /\ get it "_platform" = Some (JString "Ubuntu").
Proof.
  eexists. split; [vm_compute; reflexivity|].
  destruct (@loaded_items_are_tagged
              [("results/ubuntu-latest/bench.json",
                Some (JObject [("_platform", JString "Amiga");
                               ("benchmark_name", JString "fft")]))]
              _ eq_refl) as [H _].
  destruct (H _ (or_introl eq_refl)) as [path_str [contents [Hin [Hp _]]]].
  destruct Hin as [Hin|[]]. injection Hin as <- _. exact Hp.
Defined.

(** An input directory whose only file is not JSON. *)
Lemma regression_detector_main_ends_witness :
  RD.main 10 7 (now noon) (Some [("results/bench.json", None)])
  = Some (RD.KeyError "regressions_detected").
Proof.
  destruct (regression_detector_main_ends 10 7 (now noon)) as [_ [Hnone _]].
  apply Hnone. reflexivity.
Defined.
